(** * DeepHyper: distributed model-based search (DMBSMPI) and scalarization

    A shallow embedding of

    - [deephyper/search/hps/_dmbs_mpi.py] : the [History] buffer and the
      [DMBSMPI] search coordinator, and
    - [deephyper/skopt/moo/_multiobjective.py] : the scalarization functions,

    together with the properties of these programs.

    Conventions of the embedding.  Python exceptions are the [Raise] results
    of the [result] type.  Python objects that the code inspects dynamically
    are the constructors of [pyobj].  Floating-point numbers are embedded as
    rationals [Q] and computed with exactly: negation, the one operation of
    the coordinator on objectives, is exact in IEEE arithmetic too, and the
    scalarizations are followed by the floating-point code up to rounding
    (division by zero, which gives [inf] or [nan] there, is not modelled).
    Python integers are unbounded, [Z]; the integers of a NumPy array are
    those of [int64], and the arithmetic of the array wraps around.  What
    NumPy and pandas do that their callers here do not determine (the text
    they make of a number, arrays of integers beyond [int64], ragged lists)
    is the record [library], a parameter of the coordinator. *)

From Stdlib Require Import List ZArith QArith Qabs Bool String Lia.
Import ListNotations.
Open Scope Z_scope.

Set Implicit Arguments.

(** ** Python objects, exceptions and results *)

Inductive exn : Type :=
| ValueError
| TypeError
| IndexError
| AttributeError
| ZeroDivisionError
| SearchTerminationError.

Inductive result (A : Type) : Type :=
| Ok (a : A)
| Raise (e : exn).

Arguments Ok {A} a.
Arguments Raise {A} e.

Definition rbind {A B : Type} (r : result A) (k : A -> result B) : result B :=
  match r with
  | Ok a => k a
  | Raise e => Raise e
  end.

Declare Scope result_scope.
Delimit Scope result_scope with result.
Notation "x <- r ;; k" := (rbind r (fun x => k))
  (at level 61, r at next level, right associativity) : result_scope.

(** The Python objects that flow through the code: integers, floats,
    strings, booleans and [None]. *)
Inductive pyobj : Type :=
| VInt (z : Z)
| VFloat (q : Q)
| VStr (s : string)
| VBool (b : bool)
| VNone.

(** Unary minus, [-v].  It is defined on numbers and raises [TypeError] on a
    string or on [None]. *)
Definition py_neg (v : pyobj) : result pyobj :=
  match v with
  | VInt z => Ok (VInt (- z))
  | VFloat q => Ok (VFloat (Qopp q))
  | VBool b => Ok (VInt (- (if b then 1 else 0)))
  | VStr _ => Raise TypeError
  | VNone => Raise TypeError
  end.

(** ** Python sequences *)

Section PySeq.
Variable A : Type.

Definition len (l : list A) : Z := Z.of_nat (List.length l).

(** [l[i:]] *)
Definition slice_from (l : list A) (i : Z) : list A :=
  if 0 <=? i then skipn (Z.to_nat i) l
  else skipn (Z.to_nat (len l + i)) l.

(** [l[i]], which raises [IndexError] out of range. *)
Definition index (l : list A) (i : Z) : result A :=
  let j := if 0 <=? i then i else len l + i in
  if (0 <=? j) && (j <? len l) then
    match nth_error l (Z.to_nat j) with
    | Some a => Ok a
    | None => Raise IndexError
    end
  else Raise IndexError.

(** [l[i:]] where [i] is any Python object: a slice bound must be an
    integer. *)
Definition slice_from_value (l : list A) (i : pyobj) : result (list A) :=
  match i with
  | VInt z => Ok (slice_from l z)
  | VBool b => Ok (slice_from l (if b then 1 else 0))
  | VNone => Ok l
  | VFloat _ => Raise TypeError
  | VStr _ => Raise TypeError
  end.

(** The last [k] elements of [l], in order. *)
Definition last_n (k : nat) (l : list A) : list A :=
  skipn (List.length l - k)%nat l.

Fixpoint rmap {B : Type} (f : A -> result B) (l : list A) : result (list B) :=
  match l with
  | [] => Ok []
  | a :: l' =>
      (b <- f a ;; bs <- rmap f l' ;; Ok (b :: bs))%result
  end.
End PySeq.

(** ** Python dictionaries

    A [dict] keeps its items in insertion order; assigning to a key that is
    present replaces the item in place. *)

Section PyDict.
Variable V : Type.

Definition dict : Type := list (string * V).

Fixpoint dict_set (d : dict) (k : string) (v : V) : dict :=
  match d with
  | [] => [(k, v)]
  | (k', v') :: d' =>
      if String.eqb k' k then (k, v) :: d' else (k', v') :: dict_set d' k v
  end.

Fixpoint dict_get (d : dict) (k : string) : option V :=
  match d with
  | [] => None
  | (k', v') :: d' => if String.eqb k' k then Some v' else dict_get d' k
  end.

Definition dict_values (d : dict) : list V := map snd d.
Definition dict_keys (d : dict) : list string := map fst d.
Definition dict_mem (d : dict) (k : string) : bool :=
  match dict_get d k with Some _ => true | None => false end.

(** [{k: v for k, v in items}] *)
Definition dict_of_items (items : list (string * V)) : dict :=
  fold_left (fun d kv => dict_set d (fst kv) (snd kv)) items [].

(** [d.update(e)] *)
Definition dict_update (d e : dict) : dict :=
  fold_left (fun d kv => dict_set d (fst kv) (snd kv)) e d.

Definition dict_wf (d : dict) : Prop := NoDup (dict_keys d).
End PyDict.

(** ** Object arrays

    [np.array(rows, dtype="O")] on a list of lists of scalars.  When the
    rows all have one length the result is a 2-D array; otherwise, and for
    the empty list, it is a 1-D array (whose elements are the row lists
    themselves). *)

Inductive ndarray : Type :=
| Arr1 (elems : list (list pyobj))
| Arr2 (ncols : nat) (rows : list (list pyobj)).

Definition same_length (n : nat) (rows : list (list pyobj)) : bool :=
  forallb (fun r => Nat.eqb (List.length r) n) rows.

Definition np_array_O (rows : list (list pyobj)) : ndarray :=
  match rows with
  | [] => Arr1 []
  | r :: _ =>
      if same_length (List.length r) rows then Arr2 (List.length r) rows
      else Arr1 rows
  end.

(** Column [j] of a list of rows. *)
Definition column (j : nat) (rows : list (list pyobj)) : list pyobj :=
  flat_map (fun r => match nth_error r j with Some v => [v] | None => [] end)
           rows.

Definition columns (n : nat) (rows : list (list pyobj)) : list (list pyobj) :=
  map (fun j => column j rows) (seq 0 n).

(** [a.T] *)
Definition arr_T (a : ndarray) : ndarray :=
  match a with
  | Arr1 e => Arr1 e
  | Arr2 n rows => Arr2 (List.length rows) (columns n rows)
  end.

(** [a.tolist()], which is also the sequence obtained by iterating over [a]. *)
Definition arr_tolist (a : ndarray) : list (list pyobj) :=
  match a with
  | Arr1 e => e
  | Arr2 _ rows => rows
  end.

(** ** Arrays of inferred type

    [np.array(l)] without [dtype] gives the array the common type of its
    values and converts them to it: to [object] beside a [None] (the values
    are kept), to strings beside a string, else to [float64] beside a
    float, else to [int64] beside an integer, else to [bool]; the empty
    array is one of floats. *)

Inductive dtype : Type :=
| DBool
| DInt64
| DFloat64
| DStr
| DObject
| DBig.

(** The integers of [int64]. *)
Definition in_int64 (z : Z) : bool := (- 2 ^ 63 <=? z) && (z <? 2 ^ 63).

Definition is_None (v : pyobj) : bool :=
  match v with VNone => true | _ => false end.
Definition is_str (v : pyobj) : bool :=
  match v with VStr _ => true | _ => false end.
Definition is_float (v : pyobj) : bool :=
  match v with VFloat _ => true | _ => false end.
Definition is_int (v : pyobj) : bool :=
  match v with VInt _ => true | _ => false end.
Definition is_bool (v : pyobj) : bool :=
  match v with VBool _ => true | _ => false end.
Definition is_big (v : pyobj) : bool :=
  match v with VInt z => negb (in_int64 z) | _ => false end.

(** The type that NumPy infers for the values [l].  [DBig] stands for the
    arrays that hold an integer outside [int64] and no [None]: there the
    type ([uint64], [float64] or [object]) depends on the other values and
    on the version of NumPy. *)
Definition np_dtype (l : list pyobj) : dtype :=
  if existsb is_None l then DObject
  else if existsb is_big l then DBig
  else if existsb is_str l then DStr
  else if existsb is_float l then DFloat64
  else if existsb is_int l then DInt64
  else if existsb is_bool l then DBool
  else DFloat64.

(** What these sources do not determine of the libraries:
    - [np_str v]: the string that an array of strings holds for the number
      or the boolean [v];
    - [np_ragged_raises]: whether [np.array] raises [ValueError] on a ragged
      list when no [dtype] is given (NumPy 1.24 and later) or makes a 1-D
      array of the rows (before);
    - [np_big_values l v]: what an array made of the values [l], one of them
      an integer outside [int64], holds for [v];
    - [np_big_negative l v]: what [-np.array(l)] holds for [v], for such a
      list of numbers;
    - [pd_list_values l]: the values that pandas makes of a column given as
      the Python list [l]. *)
Record library : Type := mkLibrary {
  np_str : pyobj -> string;
  np_ragged_raises : bool;
  np_big_values : list pyobj -> pyobj -> pyobj;
  np_big_negative : list pyobj -> pyobj -> pyobj;
  pd_list_values : list pyobj -> list pyobj
}.

Definition bool_int (b : bool) : Z := if b then 1 else 0.

(** The value that an array made of the values [l] holds for [v];
    the conversion of an integer to a float is taken as exact. *)
Definition np_cast (lib : library) (l : list pyobj) (v : pyobj) : pyobj :=
  match np_dtype l with
  | DObject => v
  | DBig => np_big_values lib l v
  | DStr => match v with VStr _ => v | _ => VStr (np_str lib v) end
  | DFloat64 =>
      match v with
      | VInt z => VFloat (inject_Z z)
      | VBool b => VFloat (inject_Z (bool_int b))
      | _ => v
      end
  | DInt64 => match v with VBool b => VInt (bool_int b) | _ => v end
  | DBool => v
  end.

(** The values of the rows, converted to their common type. *)
Definition np_values (lib : library) (rows : list (list pyobj))
  : list (list pyobj) :=
  map (map (np_cast lib (List.concat rows))) rows.

(** [np.array(rows)] on a list of lists of scalars: the shape is the one of
    [np_array_O]; the values of a 2-D array are converted to their common
    type. *)
Definition np_array (lib : library) (rows : list (list pyobj)) : result ndarray :=
  match np_array_O rows with
  | Arr2 n rs => Ok (Arr2 n (np_values lib rs))
  | Arr1 [] => Ok (Arr1 [])
  | Arr1 e => if np_ragged_raises lib then Raise ValueError else Ok (Arr1 e)
  end.

(** The negation of [int64], [-z]: it wraps around at [- 2 ^ 63]. *)
Definition neg_int64 (z : Z) : Z := if z =? - 2 ^ 63 then z else - z.

(** ** The History buffer ([class History]) *)

Definition point : Type := list pyobj.

(** The objective of an evaluation is a Python number: an [int] (a [bool]
    counts as the integer it is equal to) or a [float]. *)
Inductive num : Type :=
| NInt (z : Z)
| NFloat (q : Q).

(** [-y] on Python numbers: exact. *)
Definition num_neg (y : num) : num :=
  match y with
  | NInt z => NInt (- z)
  | NFloat q => NFloat (Qopp q)
  end.

Definition num_obj (y : num) : pyobj :=
  match y with
  | NInt z => VInt z
  | NFloat q => VFloat q
  end.

Definition objective : Type := num.

(** The sentinel of the termination message. *)
Definition TERMINATION : Z := 10.

Module History.

Record t : Type := mk {
  _list_x : list point;              (* vector of hyperparameters *)
  _list_y : list objective;          (* objective values *)
  _keys_infos : list string;         (* keys *)
  _list_infos : list (list pyobj);   (* values *)
  n_buffered : Z
}.

(** [History()] *)
Definition init : t :=
  {| _list_x := []; _list_y := []; _keys_infos := []; _list_infos := [];
     n_buffered := 0 |}.

Definition append_keys_infos (h : t) (k : list string) : t :=
  {| _list_x := _list_x h; _list_y := _list_y h;
     _keys_infos := _keys_infos h ++ k;
     _list_infos := _list_infos h; n_buffered := n_buffered h |}.

Definition get_keys_infos (h : t) : list string := _keys_infos h.

Definition append (h : t) (x : point) (y : objective) (infos : list pyobj) : t :=
  {| _list_x := _list_x h ++ [x];
     _list_y := _list_y h ++ [y];
     _keys_infos := _keys_infos h;
     _list_infos := _list_infos h ++ [infos];
     n_buffered := n_buffered h + 1 |}.

(** [extend] has no [raise] and no check of its own; with lists for [x] and
    [y] and a mapping of lists for [infos] none of its statements raises. *)
Definition extend (h : t) (x : list point) (y : list objective)
  (infos : dict (list pyobj)) : result t :=
  let infos' := arr_tolist (arr_T (np_array_O (dict_values infos))) in
  Ok {| _list_x := _list_x h ++ x;
        _list_y := _list_y h ++ y;
        _keys_infos := _keys_infos h;
        _list_infos := _list_infos h ++ infos';
        n_buffered := n_buffered h + len x |}.

Definition length (h : t) : Z := len (_list_x h).

Definition value (h : t) : list point * list objective :=
  (_list_x h, _list_y h).

(** [infos(k)] with [k] given.  In [{k: v[-k:] for k, v in zip(...)}] the
    loop variable [k] of the comprehension hides the parameter [k], so that
    the slice bound [-k] is the negation of the key, a string.  The second
    component of the returned tuple is the single element [_list_y[-k]]. *)
Definition infos_last (h : t) (k : Z)
  : result (list point * objective * dict (list pyobj)) :=
  let list_infos := arr_tolist (arr_T (np_array_O (_list_infos h))) in
  (infos <- rmap (fun kv : string * list pyobj =>
                    let (k, v) := kv in
                    i <- py_neg (VStr k) ;;
                    s <- slice_from_value v i ;;
                    Ok (k, s))
                 (combine (_keys_infos h) list_infos) ;;
   y <- index (_list_y h) (- k) ;;
   Ok (slice_from (_list_x h) (- k), y, dict_of_items infos))%result.

(** [infos()], the branch of [k is None]. *)
Definition infos_all (h : t)
  : list point * list objective * dict (list pyobj) :=
  let list_infos := arr_tolist (arr_T (np_array_O (_list_infos h))) in
  (_list_x h, _list_y h, dict_of_items (combine (_keys_infos h) list_infos)).

Inductive infos_ret : Type :=
| InfosLast (r : list point * objective * dict (list pyobj))
| InfosAll (r : list point * list objective * dict (list pyobj)).

Definition infos (h : t) (k : option Z) : result infos_ret :=
  match k with
  | Some k => (r <- infos_last h k ;; Ok (InfosLast r))%result
  | None => Ok (InfosAll (infos_all h))
  end.

(** [extend(x, y, infos)] when [y] is a number and not a list, which is how
    [broadcast] calls it with what [infos(k)] returned: [_list_x.extend(x)]
    runs, then [_list_y.extend(y)] raises [TypeError].  This is the History
    that the call leaves when it raises. *)
Definition extend_float_y (h : t) (x : list point) : t :=
  {| _list_x := _list_x h ++ x; _list_y := _list_y h;
     _keys_infos := _keys_infos h; _list_infos := _list_infos h;
     n_buffered := n_buffered h |}.

Definition reset_buffer (h : t) : t :=
  {| _list_x := _list_x h; _list_y := _list_y h;
     _keys_infos := _keys_infos h; _list_infos := _list_infos h;
     n_buffered := 0 |}.

End History.


(** ** Messages of the communicator

    The objects that [comm.isend] carries between ranks: the termination
    code (an integer), the dummy [None] of the eager socket allocation, and
    the tuples [(x, y, infos)] of [send_all]. *)

Inductive payload : Type :=
| PInt (z : Z)
| PNone
| PRecord (x : point) (y : objective) (infos : list pyobj).

(** [data != TERMINATION] *)
Definition ne_TERMINATION (data : payload) : bool :=
  match data with
  | PInt z => negb (z =? TERMINATION)
  | PNone => true
  | PRecord _ _ _ => true
  end.

(** [x, y, infos = data] *)
Definition unpack3 (data : payload) : result (point * objective * list pyobj) :=
  match data with
  | PRecord x y infos => Ok (x, y, infos)
  | PInt _ => Raise TypeError
  | PNone => Raise TypeError
  end.

(** One pass of the polling loop of [recv_any]: for each request of
    [req_recv], in order, what [req.test()] returns: [None] when the request
    is not done, [Some data] when it is. *)
Definition pass : Type := list (option payload).

(** ** What the evaluation function returns

    A number, or a dictionary holding the three profile keys (its objective
    a number, its timestamps floats), or any other object (on which the
    unary minus of [_search] raises). *)

Inductive run_result : Type :=
| RNum (y : num)
| RProfile (objective_ : num) (timestamp_start timestamp_end : Q)
| ROther.

(** The table built by [gather_results]: named columns, in order. *)
Definition DataFrame : Type := dict (list pyobj).

(** ** The search coordinator ([class DMBSMPI]) *)

Module DMBSMPI.
Section Coordinator.

(** The surrogate model, [skopt.Optimizer], is an external collaborator: its
    state and its operations are parameters. *)
Variable opt_state : Type.
Variable opt_new : opt_state.
Variable opt_ask : opt_state -> point * opt_state.
Variable opt_tell : opt_state -> list point -> list objective -> opt_state.
Variable opt_Xi : opt_state -> list point.

(** The evaluation function.  Its first argument is the number of calls made
    before this one, so that it need not be a function of the point. *)
Variable run_function : nat -> dict pyobj -> run_result.

(** NumPy and pandas, for what the code does not determine of them. *)
Variable lib : library.

(** The attributes that [__init__] sets once and for all. *)
Record Config : Type := mkConfig {
  _rank : nat;
  _size : nat;
  _sync_communication : bool;
  _sync_communication_freq : Z;
  _timestamp : Q;
  hyperparameter_names : list string
}.

(** What a rank contributes to [comm.allgather] in [broadcast]. *)
Definition contribution : Type :=
  (list point * objective * dict (list pyobj))%type.

(** The mutable attributes of the object, and its environment:
    - [alarm]: whether [signal.alarm] was armed;
    - [inbox]: what the coming passes of [recv_any] will find;
    - [gathered]: for each coming [allgather], the contributions of the other
      ranks, in rank order;
    - [outbox]: the messages given to [comm.isend], with their destination;
    - [evals]: the calls of the evaluation function, argument and result;
    - [results_csv]: the table written to [results.csv]. *)
Record State : Type := mkState {
  _history : History.t;
  _opt : option opt_state;
  alarm : bool;
  inbox : list pass;
  gathered : list (list contribution);
  outbox : list (nat * payload);
  evals : list (dict pyobj * run_result);
  results_csv : option DataFrame
}.

Definition set_history (h : History.t) (s : State) : State :=
  mkState h (_opt s) (alarm s) (inbox s) (gathered s) (outbox s) (evals s)
          (results_csv s).
Definition set_opt (o : option opt_state) (s : State) : State :=
  mkState (_history s) o (alarm s) (inbox s) (gathered s) (outbox s) (evals s)
          (results_csv s).
Definition set_alarm (a : bool) (s : State) : State :=
  mkState (_history s) (_opt s) a (inbox s) (gathered s) (outbox s) (evals s)
          (results_csv s).
Definition set_inbox (i : list pass) (s : State) : State :=
  mkState (_history s) (_opt s) (alarm s) i (gathered s) (outbox s) (evals s)
          (results_csv s).
Definition set_gathered (g : list (list contribution)) (s : State) : State :=
  mkState (_history s) (_opt s) (alarm s) (inbox s) g (outbox s) (evals s)
          (results_csv s).
Definition set_outbox (o : list (nat * payload)) (s : State) : State :=
  mkState (_history s) (_opt s) (alarm s) (inbox s) (gathered s) o (evals s)
          (results_csv s).
Definition set_evals (e : list (dict pyobj * run_result)) (s : State) : State :=
  mkState (_history s) (_opt s) (alarm s) (inbox s) (gathered s) (outbox s) e
          (results_csv s).
Definition set_results_csv (r : option DataFrame) (s : State) : State :=
  mkState (_history s) (_opt s) (alarm s) (inbox s) (gathered s) (outbox s)
          (evals s) r.

(** *** The monad of the methods

    A method maps a state to a result and a state: on [Raise] the state holds
    what was done before the exception.  [None] is the run that was given too
    small a budget of loop iterations to end. *)
Definition M (A : Type) : Type := State -> option (result A * State).

Definition ret {A : Type} (a : A) : M A := fun s => Some (Ok a, s).
Definition raise {A : Type} (e : exn) : M A := fun s => Some (Raise e, s).
Definition out_of_budget {A : Type} : M A := fun _ => None.
Definition bind {A B : Type} (m : M A) (k : A -> M B) : M B :=
  fun s =>
    match m s with
    | Some (Ok a, s') => k a s'
    | Some (Raise e, s') => Some (Raise e, s')
    | None => None
    end.
Definition get : M State := fun s => Some (Ok s, s).
Definition modify (f : State -> State) : M unit := fun s => Some (Ok tt, f s).
Definition lift {A : Type} (r : result A) : M A := fun s => Some (r, s).

(** [try: m  except e: h e], for the exceptions on which [h] is defined. *)
Definition catch {A : Type} (m : M A) (h : exn -> option (M A)) : M A :=
  fun s =>
    match m s with
    | Some (Raise e, s') =>
        match h e with
        | Some k => k s'
        | None => Some (Raise e, s')
        end
    | r => r
    end.

Declare Scope M_scope.
Delimit Scope M_scope with M.
Notation "x <- m ;; k" := (bind m (fun x => k))
  (at level 61, m at next level, right associativity) : M_scope.
Notation "m ;;; k" := (bind m (fun _ => k))
  (at level 61, right associativity) : M_scope.
Local Open Scope M_scope.

Fixpoint foldM {A B : Type} (f : B -> A -> M B) (l : list A) (b : B) : M B :=
  match l with
  | [] => ret b
  | a :: l' => b' <- f b a ;; foldM f l' b'
  end.

Variable cfg : Config.

(** [[i for i in range(self._size) if i != self._rank]] *)
Definition peers : list nat :=
  filter (fun i => negb (Nat.eqb i (_rank cfg))) (seq 0 (_size cfg)).

Definition send_all (x : point) (y : objective) (infos : list pyobj) : M unit :=
  modify (fun s =>
    set_outbox (outbox s ++ map (fun i => (i, PRecord x y infos)) peers) s).

Definition send_all_termination : M unit :=
  modify (fun s =>
    set_outbox (outbox s ++ map (fun i => (i, PInt TERMINATION)) peers) s).

(** The body of [for req in req_recv] in [recv_any]; [received_any] is the
    flag of the enclosing loop. *)
Definition recv_req (received_any : bool) (tested : option payload) : M bool :=
  match tested with
  | Some data =>
      if ne_TERMINATION data then
        r <- lift (unpack3 data) ;;
        let '(x, y, infos) := r in
        modify (fun s => set_history (History.append (_history s) x y infos) s) ;;;
        ret true
      else ret received_any
  | None => ret received_any
  end.

(** One pass of the [while] loop: a request is posted for each peer and
    tested; a request the pass says nothing about is not done. *)
Definition recv_pass (p : pass) : M bool :=
  foldM recv_req (map (fun j => nth j p None) (seq 0 (List.length peers))) false.

Fixpoint recv_loop (passes : list pass) : M unit :=
  match passes with
  | [] => ret tt
  | p :: rest =>
      modify (set_inbox rest) ;;;
      received_any <- recv_pass p ;;
      if received_any then recv_loop rest else ret tt
  end.

Definition recv_any : M unit :=
  if (1 <? _size cfg)%nat then
    s <- get ;; recv_loop (inbox s)
  else ret tt.

(** [comm.allgather(own)]: the list of the contributions of all ranks, in
    rank order, this rank's own among them. *)
Definition allgather (own : contribution) : M (list contribution) :=
  s <- get ;;
  let others := match gathered s with [] => [] | o :: _ => o end in
  modify (set_gathered (tl (gathered s))) ;;;
  ret (firstn (_rank cfg) others ++ own :: skipn (_rank cfg) others).

(** The body of the loop of [broadcast].  [Y] is what [infos(k)] returned as
    its second component, a number. *)
Definition broadcast_item (i : nat) (c : contribution) : M nat :=
  let '(X, Y, infos) := c in
  if negb (Nat.eqb i (_rank cfg)) then
    modify (fun s => set_history (History.extend_float_y (_history s) X) s) ;;;
    raise TypeError
  else ret (S i).

Definition broadcast (X : list point) (Y : objective) (infos : dict (list pyobj))
  : M unit :=
  data <- allgather (X, Y, infos) ;;
  foldM broadcast_item data 0%nat ;;;
  ret tt.

(** [_set_timeout]: [np.isscalar(timeout) and timeout > 0] arms the alarm. *)
Definition _set_timeout (timeout : pyobj) : M unit :=
  match timeout with
  | VNone => ret tt
  | VInt z => if 0 <? z then modify (set_alarm true) else ret tt
  | VBool b => if b then modify (set_alarm true) else ret tt
  | VFloat q => if Qlt_le_dec 0 q then raise TypeError else ret tt
  | VStr _ => raise TypeError
  end.

Definition _setup_optimizer : M unit := modify (set_opt (Some opt_new)).

(** [to_dict]: [res[hps_names[i]] = x[i]] for [i] in [range(len(x))]. *)
Fixpoint to_dict_from (i : nat) (x : point) (res : dict pyobj)
  : result (dict pyobj) :=
  match x with
  | [] => Ok res
  | xi :: x' =>
      match nth_error (hyperparameter_names cfg) i with
      | Some name => to_dict_from (S i) x' (dict_set res name xi)
      | None => Raise IndexError
      end
  end.

Definition to_dict (x : point) : result (dict pyobj) := to_dict_from 0 x [].

(** [-np.array(y_list)].  Integers that all fit [int64] make an array of
    [int64], whose negation wraps around; beside a float the integers are
    floats. *)
Definition neg_array (y_list : list objective) : list pyobj :=
  let l := map num_obj y_list in
  match np_dtype l with
  | DBig => map (np_big_negative lib l) l
  | DInt64 =>
      map (fun y => match y with
                    | NInt z => VInt (neg_int64 z)
                    | NFloat q => VFloat (Qopp q)
                    end) y_list
  | _ =>
      map (fun y => match y with
                    | NInt z => VFloat (Qopp (inject_Z z))
                    | NFloat q => VFloat (Qopp q)
                    end) y_list
  end.

(** The sequence [np.transpose(a)], whose elements become columns of the
    table: the columns of a 2-D array, or the elements of a 1-D array, which
    are Python lists. *)
Definition pd_columns (a : ndarray) : list (list pyobj) :=
  match a with
  | Arr1 e => map (pd_list_values lib) e
  | Arr2 n rows => columns n rows
  end.

(** The info columns, as pandas gets them from [History.infos()]: the rows
    of the transposed array of the infos, or, that array being 1-D, its
    elements, which are Python lists. *)
Definition pd_infos (h : History.t) (infos_dict : dict (list pyobj))
  : dict (list pyobj) :=
  match np_array_O (History._list_infos h) with
  | Arr1 _ => map (fun kv => (fst kv, pd_list_values lib (snd kv))) infos_dict
  | Arr2 _ _ => infos_dict
  end.

(** [{hp_name: x_list[i] for i, hp_name in enumerate(names)}]; [x_list[i]]
    raises [IndexError] past the first axis of the array. *)
Fixpoint hp_columns (i : nat) (names : list string) (x_list : list (list pyobj))
  (res : DataFrame) : result DataFrame :=
  match names with
  | [] => Ok res
  | hp_name :: names' =>
      match nth_error x_list i with
      | Some col => hp_columns (S i) names' x_list (dict_set res hp_name col)
      | None => Raise IndexError
      end
  end.

(** A column of [pd.DataFrame(data, index)]: it has the length of the
    index, or it has one value, which is repeated over the index. *)
Definition pd_column (index_len : nat) (col : list pyobj) : result (list pyobj) :=
  if Nat.eqb (List.length col) index_len then Ok col
  else match col with
       | [v] => Ok (repeat v index_len)
       | _ => Raise ValueError
       end.

(** [pd.DataFrame(data, index)] *)
Definition pd_DataFrame (data : DataFrame) (index_len : nat) : result DataFrame :=
  rmap (fun kv : string * list pyobj =>
          col <- pd_column index_len (snd kv) ;; Ok (fst kv, col))%result
       data.

(** [gather_results].  [np.array(x_list)] has the type that NumPy infers.
    [dict(objective=y_list, **infos_dict)] raises [TypeError] when
    [infos_dict] has the key ["objective"] too. *)
Definition gather_results_of (h : History.t) : result DataFrame :=
  let '(x_list, y_list, infos_dict) := History.infos_all h in
  (a <- np_array lib x_list ;;
   let x_list := pd_columns a in
   let y_list := neg_array y_list in
   results <- hp_columns 0 (hyperparameter_names cfg) x_list [] ;;
   kw <- (if dict_mem infos_dict "objective" then Raise TypeError
          else Ok (("objective"%string, y_list) :: pd_infos h infos_dict)) ;;
   pd_DataFrame (dict_update results kw) (List.length y_list))%result.

Definition gather_results : M DataFrame :=
  s <- get ;; lift (gather_results_of (_history s)).

(** The call of the evaluation function, written down in [evals]. *)
Definition call_run_function (args : dict pyobj) : M run_result :=
  s <- get ;;
  let r := run_function (List.length (evals s)) args in
  modify (set_evals (evals s ++ [(args, r)])) ;;;
  ret r.

(** The code that manages the [@profile] decorator.  It returns [y], when
    [y] is a number, and the infos; the first cycle of [_search] also adds
    the keys of the timestamps ([keys = true]). *)
Definition unpack_profile (keys : bool) (y : run_result) (infos : list pyobj)
  : M (option num * list pyobj) :=
  match y with
  | RProfile objective_ timestamp_start timestamp_end =>
      (if keys then
         modify (fun s => set_history
           (History.append_keys_infos (_history s)
              ["timestamp_start"; "timestamp_end"]%string) s)
       else ret tt) ;;;
      ret (Some objective_,
           infos ++ [VFloat (timestamp_start - _timestamp cfg);
                     VFloat (timestamp_end - _timestamp cfg)])
  | RNum y => ret (Some y, infos)
  | ROther => ret (None, infos)
  end.

(** [y = -y] *)
Definition negate (y : option num) : M objective :=
  match y with
  | Some y => ret (num_neg y)
  | None => raise TypeError
  end.

Definition reset_buffer : M unit :=
  modify (fun s => set_history (History.reset_buffer (_history s)) s).

(** The communication step that ends each cycle of [_search]. *)
Definition propagate (x : point) (y : objective) (infos : list pyobj) : M unit :=
  if _sync_communication cfg then
    s <- get ;;
    let n := History.n_buffered (_history s) in
    if _sync_communication_freq cfg =? 0 then raise ZeroDivisionError
    else if n mod _sync_communication_freq cfg =? 0 then
      r <- lift (History.infos_last (_history s) n) ;;
      let '(X, Y, infos) := r in
      broadcast X Y infos ;;;
      reset_buffer
    else ret tt
  else
    send_all x y infos ;;;
    reset_buffer.

Definition ask : M point :=
  s <- get ;;
  match _opt s with
  | Some o => let (x, o') := opt_ask o in modify (set_opt (Some o')) ;;; ret x
  | None => raise AttributeError
  end.

Definition tell (X : list point) (y : list objective) : M unit :=
  s <- get ;;
  match _opt s with
  | Some o => modify (set_opt (Some (opt_tell o X y)))
  | None => raise AttributeError
  end.

Definition opt_Xi_len : M Z :=
  s <- get ;;
  match _opt s with
  | Some o => ret (len (opt_Xi o))
  | None => raise AttributeError
  end.

(** One ask-evaluate-record cycle: the lines of [_search] from
    [x = self._opt.ask()] to [self._history.append(x, y, infos)].  The
    source has them twice: before the loop, where the info keys are
    registered too ([first = true]), and in the body of the loop. *)
Definition cycle (first : bool) : M (point * objective * list pyobj) :=
  x <- ask ;;
  args <- lift (to_dict x) ;;
  y <- call_run_function args ;;
  let infos := [VInt (Z.of_nat (_rank cfg))] in
  (if first then
     modify (fun s => set_history
       (History.append_keys_infos (_history s) ["worker_rank"%string]) s)
   else ret tt) ;;;
  r <- unpack_profile first y infos ;;
  let (y, infos) := r in
  y <- negate y ;;
  modify (fun s => set_history (History.append (_history s) x y infos) s) ;;;
  ret (x, y, infos).

(** The [while] loop of [_search].  [budget] is the number of iterations the
    environment lets the loop run.  With the alarm armed, [SIGALRM] is
    delivered here when the budget is used up, at the head of an iteration,
    and its handler raises [SearchTerminationError].  The handler of the
    source raises wherever the signal finds the process, inside a cycle or
    after the loop as well, and the alarm is never cancelled: those runs are
    not among the runs of this definition.  The properties that depend on
    where a run is stopped are therefore stated for the calls without
    timeout and with no alarm armed, or from the exception that [_search]
    raised. *)
Fixpoint _search_loop (budget : nat) (max_evals : Z) : M unit :=
  s <- get ;;
  if (max_evals <? 0) || (History.length (_history s) <? max_evals) then
    match budget with
    | O => if alarm s then raise SearchTerminationError else out_of_budget
    | S budget' =>
        (if negb (_sync_communication cfg) then recv_any else ret tt) ;;;
        s <- get ;;
        let (hist_X, hist_y) := History.value (_history s) in
        n_Xi <- opt_Xi_len ;;
        let n_new := len hist_X - n_Xi in
        tell (slice_from hist_X (- n_new)) (slice_from hist_y (- n_new)) ;;;
        r <- cycle false ;;
        let '(x, y, infos) := r in
        propagate x y infos ;;;
        _search_loop budget' max_evals
    end
  else ret tt.

Definition _search (budget : nat) (max_evals : Z) (timeout : pyobj) : M unit :=
  s <- get ;;
  (match _opt s with None => _setup_optimizer | Some _ => ret tt end) ;;;
  r <- cycle true ;;
  let '(x, y, infos) := r in
  propagate x y infos ;;;
  _search_loop budget max_evals.

(** [type(timeout) is not int] *)
Definition type_is_not_int (v : pyobj) : bool :=
  match v with VInt _ => false | _ => true end.

(** [timeout <= 0], for an integer. *)
Definition le_zero (v : pyobj) : bool :=
  match v with VInt z => z <=? 0 | _ => false end.

Definition is_not_None (v : pyobj) : bool :=
  match v with VNone => false | _ => true end.

Definition search (budget : nat) (max_evals : Z) (timeout : pyobj)
  : M (option DataFrame) :=
  (if is_not_None timeout then
     if type_is_not_int timeout then raise ValueError
     else if le_zero timeout then raise ValueError
     else ret tt
   else ret tt) ;;;
  _set_timeout timeout ;;;
  catch (_search budget max_evals timeout)
        (fun e => match e with
                  | SearchTerminationError => Some send_all_termination
                  | _ => None
                  end) ;;;
  if Nat.eqb (_rank cfg) 0 then
    recv_any ;;;
    results <- gather_results ;;
    modify (set_results_csv (Some results)) ;;;
    ret (Some results)
  else ret None.

(** What [_get_surrogate_model] returns: one of the regressors of
    [skopt.learning], with the arguments it is built with, or the name
    itself. *)
Inductive surrogate : Type :=
| RandomForestRegressor (n_estimators min_samples_leaf : Z)
    (n_jobs random_state : pyobj)
| ExtraTreesRegressor (n_estimators min_samples_leaf : Z)
    (n_jobs random_state : pyobj)
| GradientBoostingQuantileRegressor (gbrt_n_estimators : Z)
    (gbrt_loss : string) (n_jobs random_state : pyobj)
| SurrogateName (name : string).

Definition accepted_names : list string :=
  ["RF"; "ET"; "GBRT"; "DUMMY"; "GP"]%string.

Definition _get_surrogate_model (name : string) (n_jobs random_state : pyobj)
  : result surrogate :=
  if negb (existsb (String.eqb name) accepted_names) then Raise ValueError
  else if String.eqb name "RF" then
    Ok (RandomForestRegressor 100 3 n_jobs random_state)
  else if String.eqb name "ET" then
    Ok (ExtraTreesRegressor 100 3 n_jobs random_state)
  else if String.eqb name "GBRT" then
    Ok (GradientBoostingQuantileRegressor 30 "quantile" n_jobs random_state)
  else Ok (SurrogateName name).

End Coordinator.
End DMBSMPI.

(** ** Scalarization ([_multiobjective.py])

    The arrays of this module are scalars (0-D) and vectors (1-D) of
    numbers.  The operations are those of NumPy, with its broadcasting rule
    for 1-D operands, computed in exact arithmetic. *)

Module Mo.
Open Scope Q_scope.

Inductive nd : Type :=
| Scal (q : Q)
| Vec (l : list Q).

Definition ndim (y : nd) : Z :=
  match y with Scal _ => 0%Z | Vec _ => 1%Z end.

(** [np.shape(y)[0]], for a vector. *)
Definition shape0 (y : nd) : Z :=
  match y with Scal _ => 0%Z | Vec l => len l end.

(** An elementwise operation, [u op v]: two vectors must have one length,
    unless one of them has length 1. *)
Definition broadcast2 (op : Q -> Q -> Q) (u v : nd) : result nd :=
  match u, v with
  | Scal a, Scal b => Ok (Scal (op a b))
  | Scal a, Vec l => Ok (Vec (map (fun b => op a b) l))
  | Vec l, Scal b => Ok (Vec (map (fun a => op a b) l))
  | Vec l, Vec m =>
      if Nat.eqb (List.length l) (List.length m)
      then Ok (Vec (map (fun ab => op (fst ab) (snd ab)) (combine l m)))
      else match l, m with
           | [a], _ => Ok (Vec (map (fun b => op a b) m))
           | _, [b] => Ok (Vec (map (fun a => op a b) l))
           | _, _ => Raise ValueError
           end
  end.

Definition qmax (a b : Q) : Q := if Qlt_le_dec a b then b else a.
Definition qmin (a b : Q) : Q := if Qlt_le_dec b a then b else a.

Definition sub := broadcast2 Qminus.
Definition add := broadcast2 Qplus.
Definition mul := broadcast2 Qmult.
Definition div := broadcast2 Qdiv.
Definition maximum := broadcast2 qmax.

Definition qsum (l : list Q) : Q := fold_right Qplus 0 l.

(** [np.dot(u, v)]: the product when an operand is a scalar, the inner
    product of two vectors of one length. *)
Definition dot (u v : nd) : result nd :=
  match u, v with
  | Vec l, Vec m =>
      if Nat.eqb (List.length l) (List.length m)
      then Ok (Scal (qsum (map (fun ab => fst ab * snd ab) (combine l m))))
      else Raise ValueError
  | _, _ => mul u v
  end.

Definition abs (u : nd) : nd :=
  match u with
  | Scal a => Scal (Qabs a)
  | Vec l => Vec (map Qabs l)
  end.


(** [np.max(u)] *)
Definition max (u : nd) : result Q :=
  match u with
  | Scal a => Ok a
  | Vec [] => Raise ValueError
  | Vec (a :: l) => Ok (fold_left qmax l a)
  end.

(** [np.linalg.norm(u, 1)] *)
Definition norm1 (u : nd) : result Q :=
  match u with
  | Scal _ => Raise ValueError
  | Vec l => Ok (qsum (map Qabs l))
  end.

(** [np.linalg.norm(u) ** 2] *)
Definition norm_sq (u : nd) : Q :=
  match u with
  | Scal a => a * a
  | Vec l => qsum (map (fun a => a * a) l)
  end.

(** The attributes set by [MoScalarFunction.__init__]. *)
Record MoScalarFunction : Type := mkBase {
  _n_objectives : Z;
  _utopia_point : option nd;
  _scaling : nd
}.

(** The three classes that derive from [MoScalarFunction]. *)
Inductive scalarizer : Type :=
| MoLinearFunction (self : MoScalarFunction) (_weight : nd)
| MoChebyshevFunction (self : MoScalarFunction) (_weight : nd)
| MoPBIFunction (self : MoScalarFunction) (_weight : nd) (_weightnorm : Q)
    (_penalty : Q).

Definition base (f : scalarizer) : MoScalarFunction :=
  match f with
  | MoLinearFunction b _ => b
  | MoChebyshevFunction b _ => b
  | MoPBIFunction b _ _ _ => b
  end.

Definition set_base (f : scalarizer) (b : MoScalarFunction) : scalarizer :=
  match f with
  | MoLinearFunction _ w => MoLinearFunction b w
  | MoChebyshevFunction _ w => MoChebyshevFunction b w
  | MoPBIFunction _ w n p => MoPBIFunction b w n p
  end.

Definition _check_shape (self : MoScalarFunction) (y : nd) : result unit :=
  if negb (((ndim y =? 0)%Z && (_n_objectives self =? 1)%Z)
           || ((ndim y =? 1)%Z && (shape0 y =? _n_objectives self)%Z))
  then Raise ValueError
  else Ok tt.

(** [MoScalarFunction.__init__], for an integer [n_objectives];
    [np.ones] raises on a negative length. *)
Definition MoScalarFunction_init (n_objectives : Z) (utopia_point : option nd)
  : result MoScalarFunction :=
  let self := mkBase n_objectives None (Vec []) in
  (_ <- match utopia_point with
        | Some u => _check_shape self u
        | None => Ok tt
        end ;;
   if (n_objectives <? 0)%Z then Raise ValueError
   else Ok (mkBase n_objectives utopia_point
                   (Vec (repeat 1 (Z.to_nat n_objectives)))))%result.

(** [MoPBIFunction.__init__]; [weight] is the draw [self._rng.rand(n)]. *)
Definition MoPBIFunction_init (n_objectives : Z) (utopia_point : option nd)
  (weight : nd) (penalty : Q) : result scalarizer :=
  (self <- MoScalarFunction_init n_objectives utopia_point ;;
   Ok (MoPBIFunction self weight (norm_sq weight) (Qabs penalty)))%result.

(** [np.asarray(yi) - self._utopia_point], which raises when the utopia
    point is [None]. *)
Definition minus_utopia (self : MoScalarFunction) (yi : nd) : result nd :=
  match _utopia_point self with
  | Some u => sub yi u
  | None => Raise TypeError
  end.

(** The method [_scalarize] of each class. *)
Definition _scalarize (f : scalarizer) (yi : nd) : result nd :=
  match f with
  | MoLinearFunction self _weight => dot _weight yi
  | MoChebyshevFunction self _weight =>
      (d <- minus_utopia self yi ;;
       yi <- dot (_scaling self) d ;;
       p <- mul _weight (abs yi) ;;
       m <- max p ;;
       Ok (Scal m))%result
  | MoPBIFunction self _weight _weightnorm _penalty =>
      (d <- minus_utopia self yi ;;
       yi <- dot (_scaling self) d ;;
       n <- dot _weight yi ;;
       d1 <- div n (Scal _weightnorm) ;;
       p <- mul d1 _weight ;;
       r <- sub yi p ;;
       d2 <- norm1 r ;;
       add d1 (Scal (_penalty * d2)))%result
  end.

Definition scalarize (f : scalarizer) (y : nd) : result nd :=
  (_ <- _check_shape (base f) y ;;
   if (ndim y =? 0)%Z then Ok y else _scalarize f y)%result.

(** [np.max(yi, axis=0)] and [np.min(yi, axis=0)] on a list of scalars or
    on a list of vectors of one length; other lists do not make an array of
    numbers. *)
Definition all_scalars (yi : list nd) : option (list Q) :=
  fold_right (fun y acc =>
                match y, acc with
                | Scal q, Some l => Some (q :: l)
                | _, _ => None
                end) (Some []) yi.

Definition all_vectors (yi : list nd) : option (list (list Q)) :=
  fold_right (fun y acc =>
                match y, acc with
                | Vec v, Some l => Some (v :: l)
                | _, _ => None
                end) (Some []) yi.

Definition reduce (op : Q -> Q -> Q) (l : list Q) : result Q :=
  match l with
  | [] => Raise ValueError
  | a :: l' => Ok (fold_left op l' a)
  end.

Definition qcolumn (j : nat) (rows : list (list Q)) : list Q :=
  flat_map (fun r => match nth_error r j with Some v => [v] | None => [] end)
           rows.

Definition reduce_axis0 (op : Q -> Q -> Q) (yi : list nd) : result nd :=
  match all_scalars yi with
  | Some l => (m <- reduce op l ;; Ok (Scal m))%result
  | None =>
      match all_vectors yi with
      | Some (r :: rows) =>
          if forallb (fun r' => Nat.eqb (List.length r') (List.length r)) rows
          then (l <- rmap (fun j => reduce op (qcolumn j (r :: rows)))
                          (seq 0 (List.length r)) ;;
                Ok (Vec l))%result
          else Raise ValueError
      | _ => Raise ValueError
      end
  end.

Section Normalize.

(** [deephyper.skopt.utils.is_listlike] is not part of these sources. *)
Variable is_listlike : list nd -> bool.

Fixpoint check_shapes (self : MoScalarFunction) (yi : list nd) : result unit :=
  match yi with
  | [] => Ok tt
  | y :: yi' => (_ <- _check_shape self y ;; check_shapes self yi')%result
  end.

Definition normalize (f : scalarizer) (yi : list nd) : result scalarizer :=
  if negb (is_listlike yi) then Raise ValueError
  else
    (_ <- check_shapes (base f) yi ;;
     y_max <- reduce_axis0 qmax yi ;;
     y_min <- reduce_axis0 qmin yi ;;
     range <- sub y_max y_min ;;
     m <- maximum range (Scal (1 # 1000000)) ;;
     scaling <- div (Scal 1) m ;;
     Ok (set_base f (mkBase (_n_objectives (base f)) (Some y_min) scaling))
    )%result.

End Normalize.
End Mo.

Unset Implicit Arguments.

(** ** Vocabulary of the properties *)

(** A sequence of single [append] calls, one per record. *)
Definition append_all (h : History.t)
  (records : list (point * objective * list pyobj)) : History.t :=
  fold_left (fun h r => let '(x, y, infos) := r in History.append h x y infos)
            records h.

(** The records made of [N] points, [N] objectives and [N] info rows. *)
Definition zip3 (xs : list point) (ys : list objective)
  (rows : list (list pyobj)) : list (point * objective * list pyobj) :=
  combine (combine xs ys) rows.

(** The bulk argument of [extend] that stands for the info rows [rows], whose
    entries are named by [keys]: each key is mapped to its column. *)
Definition bulk_infos (keys : list string) (rows : list (list pyobj))
  : dict (list pyobj) :=
  combine keys (columns (List.length keys) rows).

(** A rectangular list of rows, of width [n]. *)
Definition rectangular (n : nat) (rows : list (list pyobj)) : Prop :=
  Forall (fun r => List.length r = n) rows.



Definition records (l : list payload) : list (point * objective * list pyobj) :=
  flat_map (fun data => match data with
                        | PRecord x y infos => [(x, y, infos)]
                        | _ => []
                        end) l.


(** Equality of arrays of numbers, up to the equality of rationals. *)
Definition nd_eq (u v : Mo.nd) : Prop :=
  match u, v with
  | Mo.Scal a, Mo.Scal b => Qeq a b
  | Mo.Vec l, Mo.Vec m => Forall2 Qeq l m
  | _, _ => False
  end.

(** The PBI scalarization in the words of the specification.  For the
    rescaled vector [y']: [d1 = dot(weight, y') / |weight|^2],
    [d2 = |y' - d1 * weight|_1], and the scalar is [d1 + penalty * d2];
    [y'] is [scaling * (y - utopia)], elementwise. *)
Definition zip_with (op : Q -> Q -> Q) (l m : list Q) : list Q :=
  map (fun ab => op (fst ab) (snd ab)) (combine l m).

Definition PBI_d1 (weight : list Q) (weightnorm : Q) (y' : list Q) : Q :=
  (Mo.qsum (zip_with Qmult weight y') / weightnorm)%Q.

Definition PBI_d2 (weight : list Q) (d1 : Q) (y' : list Q) : Q :=
  Mo.qsum (map Qabs (zip_with Qminus y' (map (fun w => d1 * w)%Q weight))).

Definition PBI_value (weight : list Q) (weightnorm : Q) (y' : list Q)
  (penalty : Q) : Q :=
  let d1 := PBI_d1 weight weightnorm y' in
  (d1 + penalty * PBI_d2 weight d1 y')%Q.

Definition PBI_formula (weight utopia scaling y : list Q) (penalty : Q) : Q :=
  PBI_value weight (Mo.norm_sq (Mo.Vec weight))
            (zip_with Qmult scaling (zip_with Qminus y utopia)) penalty.

(** The objective that the evaluation function reports, when it is a
    number: the result itself, or the entry ["objective"] of a profile. *)
Definition reported (r : run_result) : option num :=
  match r with
  | RNum y => Some y
  | RProfile objective_ _ _ => Some objective_
  | ROther => None
  end.

(** What extends the History of a rank during a run: an evaluation of its
    own, with the argument and the result of the evaluation function and the
    objective [y] that was reported, or a record received from a peer. *)
Inductive event : Type :=
| Own (args : dict pyobj) (r : run_result) (y : num)
| Recv (x : point) (y : objective) (infos : list pyobj).

(** The calls of the evaluation function, the objectives stored in the
    History, and the objectives shown in the final table, event by event. *)
Definition calls (events : list event) : list (dict pyobj * run_result) :=
  flat_map (fun e => match e with
                     | Own args r _ => [(args, r)]
                     | Recv _ _ _ => []
                     end) events.

Definition stored (events : list event) : list objective :=
  map (fun e => match e with
                | Own _ _ y => num_neg y
                | Recv _ y _ => y
                end) events.


(** A stored objective that NumPy negates exactly: a float, or an integer
    strictly between [- 2 ^ 63] and [2 ^ 63]. *)
Definition exact (y : objective) : Prop :=
  match y with
  | NFloat _ => True
  | NInt z => - 2 ^ 63 < z < 2 ^ 63
  end.


(** An evaluation reports its objective; a record is received from a peer
    only when there are peers. *)
Definition ok_event (cfg : DMBSMPI.Config) (e : event) : Prop :=
  match e with
  | Own _ r y => reported r = Some y
  | Recv _ _ _ => (1 < DMBSMPI._size cfg)%nat
  end.

(** From state [s] to state [s'] the evaluations and the stored objectives
    grew by a sequence of events. *)
Definition Steps {opt_state : Type} (cfg : DMBSMPI.Config)
  (s s' : DMBSMPI.State opt_state) : Prop :=
  exists events : list event,
    Forall (ok_event cfg) events
    /\ DMBSMPI.evals s' = DMBSMPI.evals s ++ calls events
    /\ History._list_y (DMBSMPI._history s')
       = History._list_y (DMBSMPI._history s) ++ stored events.

(** The method [m] takes a state to a state related by [R], when it returns
    and when it raises an exception of [G]. *)
Definition preserves {opt_state A : Type} (G : exn -> Prop)
  (R : DMBSMPI.State opt_state -> DMBSMPI.State opt_state -> Prop)
  (m : DMBSMPI.M opt_state A) : Prop :=
  forall (s : DMBSMPI.State opt_state) (r : result A)
         (s' : DMBSMPI.State opt_state),
    m s = Some (r, s') -> (forall e, r = Raise e -> G e) -> R s s'.

(** The exceptions that the method [m] raises all satisfy [P]. *)
Definition raises_only {opt_state A : Type} (P : exn -> Prop)
  (m : DMBSMPI.M opt_state A) : Prop :=
  forall (s : DMBSMPI.State opt_state) (e : exn)
         (s' : DMBSMPI.State opt_state),
    m s = Some (Raise e, s') -> P e.

(** The method [m] returns or raises, whatever the budget, and it takes a
    state to a state related by [R]. *)
Definition always {opt_state A : Type}
  (R : DMBSMPI.State opt_state -> DMBSMPI.State opt_state -> Prop)
  (m : DMBSMPI.M opt_state A) : Prop :=
  forall s : DMBSMPI.State opt_state,
  exists (r : result A) (s' : DMBSMPI.State opt_state),
    m s = Some (r, s') /\ R s s'.

(** From state [s] to state [s'] nothing was evaluated, and the stored
    objectives grew by those of records received from peers, if any. *)
Definition Received {opt_state : Type} (cfg : DMBSMPI.Config)
  (s s' : DMBSMPI.State opt_state) : Prop :=
  DMBSMPI.evals s' = DMBSMPI.evals s
  /\ exists ys : list objective,
       History._list_y (DMBSMPI._history s')
       = History._list_y (DMBSMPI._history s) ++ ys
       /\ ((DMBSMPI._size cfg <= 1)%nat -> ys = []).

(** The exception that ends the search. *)
Definition stops (e : exn) : Prop := e = SearchTerminationError.

(** The exceptions other than the one of a configuration error. *)
Definition not_ValueError (e : exn) : Prop := e <> ValueError.

(** A timeout that is given and is not a positive integer: an object that
    is not an integer, or an integer that is zero or negative. *)
Definition invalid_timeout (timeout : pyobj) : Prop :=
  match timeout with
  | VNone => False
  | VInt z => z <= 0
  | VFloat _ | VStr _ | VBool _ => True
  end.


(** Inputs of the examples. *)

(** A surrogate model that remembers the points it was told and asks for
    the point whose value is their number, and the evaluation function
    [f(x) = x[0]]. *)
Definition example_ask (Xi : list point) : point * list point :=
  ([VInt (len Xi)], Xi).

Definition example_tell (Xi : list point) (X : list point)
  (y : list objective) : list point := Xi ++ X.

Definition example_run (i : nat) (args : dict pyobj) : run_result :=
  match dict_get args "x0" with
  | Some (VInt z) => RNum (NInt z)
  | Some (VFloat q) => RNum (NFloat q)
  | Some (VBool b) => RNum (NInt (bool_int b))
  | _ => ROther
  end.


(** NumPy 1.24 or later.  None of the examples puts a number beside a
    string, an integer outside [int64] in an array, or a ragged list of
    infos in a table. *)
Definition example_lib : library :=
  mkLibrary (fun v => match v with
                      | VBool true => "True"%string
                      | VBool false => "False"%string
                      | _ => EmptyString
                      end)
            true (fun _ v => v) (fun _ v => v) (fun l => l).

Definition example_single_cfg : DMBSMPI.Config :=
  DMBSMPI.mkConfig 0 1 false 10 0%Q ["x0"%string].

Definition example_fresh : DMBSMPI.State (list point) :=
  DMBSMPI.mkState History.init None false [] [] [] [] None.

(** A rank with two peers, one of which has sent a record whose point has
    two values where the search space has one parameter. *)
Definition example_ragged_state : DMBSMPI.State (list point) :=
  DMBSMPI.mkState History.init None false
    [[Some (PRecord [VInt 7; VInt 8] (NInt (-7)) [VInt 1])]] [] [] [] None.

Definition example_search (cfg : DMBSMPI.Config) (budget : nat)
  (max_evals : Z) (timeout : pyobj)
  : DMBSMPI.M (list point) (option DataFrame) :=
  DMBSMPI.search [] example_ask example_tell (fun Xi => Xi) example_run
                 example_lib cfg budget max_evals timeout.

Definition example_cfg : DMBSMPI.Config :=
  DMBSMPI.mkConfig 0 3 false 10 0%Q ["x0"%string].

Definition example_state : DMBSMPI.State unit :=
  DMBSMPI.mkState History.init None false
    [[Some (PRecord [VInt 5] (NFloat (-5 # 1)) [VInt 1]); Some (PInt TERMINATION)];
     [None; None]]
    [] [] [] None.

(** ** Vocabulary of the further properties *)

(** The calls that change a History. *)
Inductive history_op : Type :=
| OpAppend (x : point) (y : objective) (infos : list pyobj)
| OpExtend (x : list point) (y : list objective) (infos : dict (list pyobj))
| OpKeys (k : list string)
| OpReset.

Definition apply_op (h : History.t) (o : history_op) : History.t :=
  match o with
  | OpAppend x y infos => History.append h x y infos
  | OpExtend x y infos =>
      match History.extend h x y infos with
      | Ok h' => h'
      | Raise _ => h
      end
  | OpKeys k => History.append_keys_infos h k
  | OpReset => History.reset_buffer h
  end.

Definition apply_ops (h : History.t) (ops : list history_op) : History.t :=
  fold_left apply_op ops h.

Definition is_reset (o : history_op) : bool :=
  match o with OpReset => true | _ => false end.

(** The number of points that a call adds. *)
Definition op_points (o : history_op) : Z :=
  match o with
  | OpAppend _ _ _ => 1
  | OpExtend x _ _ => len x
  | OpKeys _ | OpReset => 0
  end.

(** The points, the objectives, the info rows and the info keys that a call
    adds. *)
Definition op_xs (o : history_op) : list point :=
  match o with
  | OpAppend x _ _ => [x]
  | OpExtend x _ _ => x
  | OpKeys _ | OpReset => []
  end.

Definition op_ys (o : history_op) : list objective :=
  match o with
  | OpAppend _ y _ => [y]
  | OpExtend _ y _ => y
  | OpKeys _ | OpReset => []
  end.

Definition op_rows (o : history_op) : list (list pyobj) :=
  match o with
  | OpAppend _ _ infos => [infos]
  | OpExtend _ _ infos => arr_tolist (arr_T (np_array_O (dict_values infos)))
  | OpKeys _ | OpReset => []
  end.

Definition op_keys (o : history_op) : list string :=
  match o with
  | OpKeys k => k
  | OpAppend _ _ _ | OpExtend _ _ _ | OpReset => []
  end.

(** From state [s] to state [s'] the observation [f] did not change. *)
Definition same {opt_state X : Type} (f : DMBSMPI.State opt_state -> X)
  (s s' : DMBSMPI.State opt_state) : Prop :=
  f s' = f s.

(** What a method leaves alone when it only receives: the evaluations, the
    messages sent, the surrogate model, the alarm and the table written. *)
Definition receives_only {opt_state : Type} (s s' : DMBSMPI.State opt_state)
  : Prop :=
  DMBSMPI.evals s' = DMBSMPI.evals s
  /\ DMBSMPI.outbox s' = DMBSMPI.outbox s
  /\ DMBSMPI._opt s' = DMBSMPI._opt s
  /\ DMBSMPI.alarm s' = DMBSMPI.alarm s
  /\ DMBSMPI.results_csv s' = DMBSMPI.results_csv s
  /\ History._keys_infos (DMBSMPI._history s')
     = History._keys_infos (DMBSMPI._history s).

(** From state [s] to state [s'] nothing was evaluated and no point was
    taken out of the History. *)
Definition Mono {opt_state : Type} (s s' : DMBSMPI.State opt_state) : Prop :=
  DMBSMPI.evals s' = DMBSMPI.evals s
  /\ History.length (DMBSMPI._history s)
     <= History.length (DMBSMPI._history s').

(** The exceptions other than the one that ends the search. *)
Definition not_stops (e : exn) : Prop := e <> SearchTerminationError.

(** The weighted sum of the linear scalarization. *)
Definition qdot (w y : list Q) : Q :=
  Mo.qsum (map (fun ab => fst ab * snd ab)%Q (combine w y)).

(** What the code of [MoPBIFunction._scalarize] makes of vectors.  [np.dot]
    multiplies the scaling and [y - utopia] into the single number [t], so
    that [d1 = weight * t / _weightnorm] is a vector, [d2] is the L1 norm of
    [t - d1 * weight], and the result is the vector [d1 + penalty * d2]. *)
Definition PBI_code (weight utopia scaling y : list Q) (weightnorm penalty : Q)
  : list Q :=
  let t := qdot scaling (zip_with Qminus y utopia) in
  let d1 := map (fun a => a / weightnorm)%Q (map (fun a => a * t)%Q weight) in
  let d2 := Mo.qsum (map Qabs (map (fun b => t - b)%Q
                                   (zip_with Qmult d1 weight))) in
  map (fun a => a + penalty * d2)%Q d1.

(** * Properties of the History buffer *)

Lemma same_length_true (n : nat) (rows : list (list pyobj)) :
  same_length n rows = true <-> rectangular n rows.
Proof.
  unfold same_length, rectangular.
  rewrite forallb_forall, Forall_forall.
  split; intros H r Hr; specialize (H r Hr).
  - now apply Nat.eqb_eq.
  - now apply Nat.eqb_eq.
Qed.

Lemma column_cons (j : nat) (r : list pyobj) (rows : list (list pyobj)) v :
  nth_error r j = Some v -> column j (r :: rows) = v :: column j rows.
Proof. intros H. unfold column. simpl. now rewrite H. Qed.

Lemma column_length (n j : nat) (rows : list (list pyobj)) :
  rectangular n rows -> (j < n)%nat ->
  List.length (column j rows) = List.length rows.
Proof.
  intros Hrect Hj. induction Hrect as [|r rows Hr _ IH]; [reflexivity|].
  destruct (nth_error r j) as [v|] eqn:E.
  - rewrite (column_cons _ _ _ _ E). simpl. now rewrite IH.
  - apply nth_error_None in E. lia.
Qed.

Lemma columns_rectangular (n : nat) (rows : list (list pyobj)) :
  rectangular n rows -> rectangular (List.length rows) (columns n rows).
Proof.
  intros Hrect. unfold rectangular, columns.
  rewrite Forall_forall. intros c Hc.
  apply in_map_iff in Hc. destruct Hc as [j [<- Hj]].
  apply in_seq in Hj. apply column_length with (n := n); [assumption | lia].
Qed.

Lemma columns_length (n : nat) (rows : list (list pyobj)) :
  List.length (columns n rows) = n.
Proof. unfold columns. now rewrite length_map, length_seq. Qed.

(** Entry [i] of column [j] is entry [j] of row [i]. *)
Lemma column_nth_error (n j i : nat) (rows : list (list pyobj)) :
  rectangular n rows -> (j < n)%nat ->
  nth_error (column j rows) i =
  match nth_error rows i with
  | Some r => nth_error r j
  | None => None
  end.
Proof.
  intros Hrect Hj. revert i.
  induction Hrect as [|r rows Hr _ IH]; intros i.
  - now destruct i.
  - destruct (nth_error r j) as [v|] eqn:E.
    + rewrite (column_cons _ _ _ _ E). destruct i; simpl; [now rewrite E | apply IH].
    + apply nth_error_None in E. lia.
Qed.

Lemma nth_error_columns (n j : nat) (rows : list (list pyobj)) :
  (j < n)%nat -> nth_error (columns n rows) j = Some (column j rows).
Proof.
  intros Hj. unfold columns.
  rewrite nth_error_map, nth_error_seq.
  destruct (Nat.ltb_spec j n); [reflexivity | lia].
Qed.

(** Transposing twice gives the rows back. *)
Lemma columns_columns (n : nat) (rows : list (list pyobj)) :
  rectangular n rows ->
  columns (List.length rows) (columns n rows) = rows.
Proof.
  intros Hrect.
  apply nth_error_ext. intros i.
  destruct (Nat.lt_ge_cases i (List.length rows)) as [Hi|Hi].
  - rewrite nth_error_columns by assumption.
    destruct (nth_error rows i) as [r|] eqn:Er;
      [| apply nth_error_None in Er; lia].
    f_equal. apply nth_error_ext. intros j.
    assert (Hlen : List.length r = n).
    { unfold rectangular in Hrect. rewrite Forall_forall in Hrect.
      apply Hrect. eapply nth_error_In; eassumption. }
    destruct (Nat.lt_ge_cases j n) as [Hj|Hj].
    + rewrite column_nth_error with (n := List.length rows);
        [| now apply columns_rectangular | assumption].
      rewrite nth_error_columns by assumption.
      rewrite column_nth_error with (n := n) by assumption.
      now rewrite Er.
    + transitivity (@None pyobj).
      * apply nth_error_None.
        rewrite column_length with (n := List.length rows);
          [rewrite columns_length; assumption
          | now apply columns_rectangular | assumption].
      * symmetry. apply nth_error_None. lia.
  - transitivity (@None (list pyobj)).
    + apply nth_error_None. now rewrite columns_length.
    + symmetry. now apply nth_error_None.
Qed.

Lemma map_fst_combine {A B : Type} (l : list A) (m : list B) :
  List.length l = List.length m -> map fst (combine l m) = l.
Proof.
  revert m. induction l as [|a l IH]; intros [|b m] H; try discriminate;
    [reflexivity|].
  simpl. f_equal. apply IH. now injection H.
Qed.

Lemma map_snd_combine {A B : Type} (l : list A) (m : list B) :
  List.length l = List.length m -> map snd (combine l m) = m.
Proof.
  revert m. induction l as [|a l IH]; intros [|b m] H; try discriminate;
    [reflexivity|].
  simpl. f_equal. apply IH. now injection H.
Qed.

(** What [extend] makes of the columns of [n] rows of width [k]: the rows
    themselves, unless there is no column at all. *)
Lemma tolist_T_columns (k : nat) (rows : list (list pyobj)) :
  rectangular k rows ->
  arr_tolist (arr_T (np_array_O (columns k rows))) =
  match k with O => [] | S _ => rows end.
Proof.
  intros Hrect. destruct k as [|k]; [reflexivity|].
  pose proof (columns_rectangular _ _ Hrect) as Hcols.
  pose proof (columns_columns _ _ Hrect) as Htt.
  remember (columns (S k) rows) as cols eqn:Ecols.
  destruct cols as [|c cols].
  - apply (f_equal (@List.length _)) in Ecols.
    rewrite columns_length in Ecols. discriminate.
  - unfold np_array_O.
    assert (Hc : List.length c = List.length rows).
    { unfold rectangular in Hcols. now inversion Hcols. }
    rewrite Hc.
    replace (same_length (List.length rows) (c :: cols)) with true
      by (symmetry; now apply same_length_true).
    simpl. exact Htt.
Qed.


Lemma append_all_fields (recs : list (point * objective * list pyobj)) :
  forall h : History.t,
    History._list_x (append_all h recs)
      = History._list_x h ++ map (fun r => fst (fst r)) recs
    /\ History._list_y (append_all h recs)
      = History._list_y h ++ map (fun r => snd (fst r)) recs
    /\ History._list_infos (append_all h recs)
      = History._list_infos h ++ map snd recs
    /\ History._keys_infos (append_all h recs) = History._keys_infos h
    /\ History.n_buffered (append_all h recs)
      = History.n_buffered h + len recs.
Proof.
  induction recs as [|[[x y] infos] recs IH]; intros h.
  - simpl. rewrite !app_nil_r. unfold len. simpl. repeat split; lia.
  - change (append_all h ((x, y, infos) :: recs))
      with (append_all (History.append h x y infos) recs).
    destruct (IH (History.append h x y infos)) as (Hx & Hy & Hi & Hk & Hn).
    rewrite Hx, Hy, Hi, Hk, Hn. simpl.
    rewrite <- !app_assoc. simpl. repeat split.
    unfold len. simpl List.length. lia.
Qed.

Lemma zip3_fields (xs : list point) (ys : list objective)
  (rows : list (list pyobj)) :
  List.length xs = List.length ys -> List.length rows = List.length xs ->
  map (fun r => fst (fst r)) (zip3 xs ys rows) = xs
  /\ map (fun r => snd (fst r)) (zip3 xs ys rows) = ys
  /\ map snd (zip3 xs ys rows) = rows
  /\ List.length (zip3 xs ys rows) = List.length xs.
Proof.
  revert ys rows.
  induction xs as [|x xs IH]; intros [|y ys] [|r rows] H1 H2;
    try discriminate; [now repeat split|].
  injection H1 as H1. injection H2 as H2.
  destruct (IH ys rows H1 H2) as (Hx & Hy & Hr & Hl).
  unfold zip3 in *. simpl. rewrite Hx, Hy, Hr, Hl. now repeat split.
Qed.

(** Info rows that are all empty make an array without columns: the info
    mapping is the one of a History without info rows. *)
Lemma tolist_T_empty_rows (rows : list (list pyobj)) :
  rectangular 0 rows -> arr_tolist (arr_T (np_array_O rows)) = [].
Proof.
  intros Hrect. destruct rows as [|r rows]; [reflexivity|].
  unfold np_array_O.
  assert (Hr : List.length r = 0%nat) by (now inversion Hrect).
  rewrite Hr.
  replace (same_length 0 (r :: rows)) with true
    by (symmetry; now apply same_length_true).
  reflexivity.
Qed.

(** C4.  [N] single [append] calls on an empty History and one [extend] call
    on an empty History with the same points, the same objectives and the
    info rows given as a mapping from key to column end with the same
    length, the same points, the same objectives and the same info mapping
    (for whatever info keys are registered), and with the same count of
    buffered records. *)
Theorem append_extend_equivalence
  (keys : list string) (xs : list point) (ys : list objective)
  (rows : list (list pyobj)) :
  NoDup keys ->
  List.length xs = List.length ys ->
  List.length rows = List.length xs ->
  rectangular (List.length keys) rows ->
  exists he : History.t,
    History.extend History.init xs ys (bulk_infos keys rows) = Ok he
    /\ dict_wf (bulk_infos keys rows)
    /\ let ha := append_all History.init (zip3 xs ys rows) in
       History.length ha = History.length he
       /\ History._list_x ha = History._list_x he
       /\ History._list_y ha = History._list_y he
       /\ History.value ha = History.value he
       /\ History.n_buffered ha = History.n_buffered he
       /\ forall ks : list string,
            History.infos_all (History.append_keys_infos ha ks)
            = History.infos_all (History.append_keys_infos he ks).
Proof.
  intros Hnd Hxy Hrx Hrect.
  eexists. split; [reflexivity|].
  assert (Hvalues : dict_values (bulk_infos keys rows)
                    = columns (List.length keys) rows).
  { unfold dict_values, bulk_infos.
    rewrite map_snd_combine; [reflexivity|].
    now rewrite columns_length. }
  split.
  { unfold dict_wf, dict_keys, bulk_infos.
    rewrite map_fst_combine; [assumption|].
    now rewrite columns_length. }
  destruct (append_all_fields (zip3 xs ys rows) History.init)
    as (Hx & Hy & Hi & Hk & Hn).
  destruct (zip3_fields xs ys rows Hxy Hrx) as (Zx & Zy & Zr & Zl).
  rewrite Zx in Hx. rewrite Zy in Hy. rewrite Zr in Hi.
  cbn zeta. unfold History.length, History.value.
  rewrite Hx, Hy, Hn. cbn [History._list_x History._list_y History.n_buffered
                            History.init app].
  repeat split.
  - unfold len. now rewrite Zl.
  - intros ks. unfold History.infos_all.
    cbn [History._list_x History._list_y History._keys_infos
         History._list_infos History.append_keys_infos History.init app].
    rewrite Hx, Hy, Hi, Hk, Hvalues, (tolist_T_columns _ _ Hrect).
    cbn [History._list_x History._list_y History._keys_infos
         History._list_infos History.init app].
    destruct (List.length keys) eqn:Ek; [|reflexivity].
    now rewrite (tolist_T_empty_rows rows Hrect).
Qed.

Lemma append_extend_equivalence_witness :
  exists he : History.t,
    History.extend History.init [[VInt 1]; [VInt 2]] [NFloat (1#1); NFloat (2#1)]
      (bulk_infos ["worker_rank"; "timestamp_start"]%string
                  [[VInt 0; VFloat (1#2)]; [VInt 1; VFloat (3#2)]]) = Ok he
    /\ History._list_infos he
       = [[VInt 0; VFloat (1#2)]; [VInt 1; VFloat (3#2)]]
    /\ History._list_x
         (append_all History.init
            (zip3 [[VInt 1]; [VInt 2]] [NFloat (1#1); NFloat (2#1)]
                  [[VInt 0; VFloat (1#2)]; [VInt 1; VFloat (3#2)]]))
       = History._list_x he.
Proof.
  destruct (append_extend_equivalence
              ["worker_rank"; "timestamp_start"]%string
              [[VInt 1]; [VInt 2]] [NFloat (1#1); NFloat (2#1)]
              [[VInt 0; VFloat (1#2)]; [VInt 1; VFloat (3#2)]])
    as (he & He & _ & _ & Hx & _).
  - repeat constructor; simpl; intuition discriminate.
  - reflexivity.
  - reflexivity.
  - repeat constructor.
  - exists he. split; [exact He|]. split; [|exact Hx].
    injection He as <-. reflexivity.
Defined.

(** [extend] checks nothing: it returns for all arguments, and what it
    appends to the info rows depends on the lengths of the value sequences
    only, not on the number of points. *)
Lemma extend_info_rows (h : History.t) (x : list point) (y : list objective)
  (infos : dict (list pyobj)) :
  exists h' : History.t,
    History.extend h x y infos = Ok h'
    /\ History._list_x h' = History._list_x h ++ x
    /\ History._list_y h' = History._list_y h ++ y
    /\ History._keys_infos h' = History._keys_infos h
    /\ History.n_buffered h' = History.n_buffered h + len x
    /\ (forall m : nat,
          infos <> [] -> rectangular m (dict_values infos) ->
          History._list_infos h'
          = History._list_infos h ++ columns m (dict_values infos))
    /\ ((forall m : nat, ~ rectangular m (dict_values infos)) ->
          History._list_infos h' = History._list_infos h ++ dict_values infos).
Proof.
  eexists. split; [reflexivity|]. cbn [History._list_x History._list_y
    History._keys_infos History.n_buffered History._list_infos].
  repeat split.
  - intros m Hne Hrect. f_equal.
    destruct infos as [|[k c] infos]; [contradiction|].
    cbn [dict_values map snd] in *. unfold np_array_O.
    assert (Hc : List.length c = m) by (now inversion Hrect).
    rewrite Hc.
    replace (same_length m (c :: map snd infos)) with true
      by (symmetry; now apply same_length_true).
    reflexivity.
  - intros Hragged. f_equal.
    destruct (dict_values infos) as [|c cols] eqn:E.
    + exfalso. apply (Hragged 0%nat). constructor.
    + unfold np_array_O.
      destruct (same_length (List.length c) (c :: cols)) eqn:Es;
        [|reflexivity].
      exfalso. apply (Hragged (List.length c)). now apply same_length_true.
Qed.

(** C5, as the code has it.  [extend] never fails.  Called with [N] points and
    an info mapping whose value sequences all have one length [M], equal to
    [N] or not, it appends the [N] points and objectives given and [M] info
    rows, the transposed sequences; [n_buffered] grows by [N]. *)
Theorem extend_no_shape_check (h : History.t) (x : list point)
  (y : list objective) (infos : dict (list pyobj)) (m : nat) :
  infos <> [] ->
  rectangular m (dict_values infos) ->
  exists h' : History.t,
    History.extend h x y infos = Ok h'
    /\ History.length h' = History.length h + len x
    /\ History._list_y h' = History._list_y h ++ y
    /\ History.n_buffered h' = History.n_buffered h + len x
    /\ History._list_infos h'
       = History._list_infos h ++ columns m (dict_values infos)
    /\ List.length (History._list_infos h')
       = (List.length (History._list_infos h) + m)%nat.
Proof.
  intros Hne Hrect.
  destruct (extend_info_rows h x y infos)
    as (h' & He & Hx & Hy & _ & Hn & Hrows & _).
  exists h'. split; [exact He|].
  specialize (Hrows m Hne Hrect).
  repeat split; try assumption.
  - unfold History.length, len. rewrite Hx, length_app. lia.
  - rewrite Hrows, length_app.
    f_equal. destruct infos as [|[k c] infos]; [contradiction|].
    cbn [dict_values map snd] in *.
    assert (Hc : List.length c = m) by (now inversion Hrect).
    unfold columns. rewrite length_map, length_seq. reflexivity.
Qed.

Lemma extend_no_shape_check_witness :
  exists h' : History.t,
    History.extend History.init [[VInt 1]] [NFloat (1#1)]
      [("worker_rank"%string, [VInt 0; VInt 0])] = Ok h'
    /\ History.length h' = 1
    /\ List.length (History._list_infos h') = 2%nat.
Proof.
  destruct (extend_no_shape_check History.init [[VInt 1]] [NFloat (1#1)]
              [("worker_rank"%string, [VInt 0; VInt 0])] 2)
    as (h' & He & Hl & _ & _ & _ & Hi).
  - discriminate.
  - repeat constructor.
  - exists h'. repeat split; assumption.
Defined.

(** C5, as the specification states it, fails: one point and an info mapping
    whose value sequence has two entries are accepted, and the History then
    holds one point and two info rows. *)
Lemma extend_accepts_mismatch :
  let x := [[VInt 1]] in
  let infos := [("worker_rank"%string, [VInt 0; VInt 0])] in
  Exists (fun c => List.length c <> List.length x) (dict_values infos)
  /\ History.extend History.init x [NFloat (1#1)] infos
     = Ok (History.mk [[VInt 1]] [NFloat (1#1)] [] [[VInt 0]; [VInt 0]] 1)
  /\ forall e : exn, History.extend History.init x [NFloat (1#1)] infos <> Raise e.
Proof.
  cbn zeta. split; [|split].
  - constructor. simpl. discriminate.
  - reflexivity.
  - intros e. discriminate.
Qed.

(** *** [infos(k)] *)

Lemma tolist_T_nonempty (rows : list (list pyobj)) :
  Exists (fun r => r <> []) rows ->
  arr_tolist (arr_T (np_array_O rows)) <> [].
Proof.
  intros Hex. destruct rows as [|r rows]; [inversion Hex|].
  unfold np_array_O.
  destruct (same_length (List.length r) (r :: rows)) eqn:Es; [|discriminate].
  apply same_length_true in Es.
  assert (Hn : List.length r <> 0%nat).
  { intros H0. rewrite H0 in Es. unfold rectangular in Es.
    rewrite Forall_forall in Es. apply Exists_exists in Hex.
    destruct Hex as (r' & Hin & Hne). apply Hne.
    apply length_zero_iff_nil. now apply Es. }
  destruct (List.length r) as [|n]; [contradiction|].
  simpl. discriminate.
Qed.

(** With an info key registered and an info value recorded, [infos(k)]
    raises [TypeError] for every [k]: the slice bound is the negated key. *)
Lemma infos_last_raises (h : History.t) (k : Z) :
  History._keys_infos h <> [] ->
  Exists (fun r => r <> []) (History._list_infos h) ->
  History.infos_last h k = Raise TypeError.
Proof.
  intros Hk Hex. unfold History.infos_last.
  pose proof (tolist_T_nonempty _ Hex) as Hne.
  destruct (arr_tolist (arr_T (np_array_O (History._list_infos h))))
    as [|v vs]; [contradiction|].
  destruct (History._keys_infos h) as [|key keys]; [contradiction|].
  reflexivity.
Qed.

(** Without info keys, [infos(k)] returns the last [k] points and one
    objective, the one at index [-k]. *)
Lemma infos_last_no_keys (h : History.t) (k : Z) :
  History._keys_infos h = [] ->
  History.infos_last h k =
  (y <- index (History._list_y h) (- k) ;;
   Ok (slice_from (History._list_x h) (- k), y, []))%result.
Proof. intros Hk. unfold History.infos_last. now rewrite Hk. Qed.

(** [infos(k)] does fail when [k] exceeds the length. *)
Lemma infos_last_beyond_length (h : History.t) (k : Z) :
  len (History._list_y h) = History.length h ->
  History.length h < k ->
  exists e : exn, History.infos_last h k = Raise e.
Proof.
  intros Hlen Hk. unfold History.infos_last.
  destruct (rmap _ _) as [items|e]; [|now exists e].
  cbn [rbind]. unfold index.
  assert (Hneg : (0 <=? - k) = false).
  { apply Z.leb_gt. unfold History.length, len in *. lia. }
  rewrite Hneg.
  assert (Hj : (0 <=? len (History._list_y h) + - k) = false).
  { apply Z.leb_gt. lia. }
  rewrite Hj. simpl. now exists IndexError.
Qed.

(** C3 at two Histories of length 2.  With the key ["worker_rank"] and its
    values recorded, [infos(2)] raises [TypeError] and returns nothing.
    With no info at all, [infos(2)] returns the two points and, where the two
    objectives [[-1; -2]] are expected, the single objective [-1]. *)
Theorem infos_last_two_records :
  let h := History.append
             (History.append
                (History.append_keys_infos History.init ["worker_rank"%string])
                [VInt 1] (NFloat (-1 # 1)) [VInt 0])
             [VInt 2] (NFloat (-2 # 1)) [VInt 0] in
  let h' := History.append
              (History.append History.init [VInt 1] (NFloat (-1 # 1)) [])
              [VInt 2] (NFloat (-2 # 1)) [] in
  History.length h = 2
  /\ History.infos h (Some 2) = Raise TypeError
  /\ History.infos h None
     = Ok (History.InfosAll ([[VInt 1]; [VInt 2]], [NFloat (-1 # 1); NFloat (-2 # 1)],
                             [("worker_rank"%string, [VInt 0; VInt 0])]))
  /\ History.length h' = 2
  /\ History.infos h' (Some 2)
     = Ok (History.InfosLast ([[VInt 1]; [VInt 2]], (NFloat (-1 # 1)), [])).
Proof. cbn zeta. repeat split. Qed.

(** * Properties of the communicator: [recv_any] *)

Section RecvAny.

Variable opt_state : Type.
Variable cfg : DMBSMPI.Config.











End RecvAny.


(** * Properties of the scalarization *)

Open Scope Q_scope.

(** C2, as the specification states it, fails at [weight = [1, 1]],
    [utopia = [0, 0]], scaling all ones, [penalty = 100] and [y = [3, 4]].
    The code takes [np.dot] of the scaling and of [y - utopia], which for
    two vectors is their inner product, [7], and it returns the vector
    [[703.5, 703.5]], not the scalar [53.5].  Nor does the formula of the
    specification give [53.5] there. *)
Lemma pbi_scalarize_example :
  let f := Mo.MoPBIFunction
             (Mo.mkBase 2 (Some (Mo.Vec [0; 0])) (Mo.Vec [1; 1]))
             (Mo.Vec [1; 1]) (Mo.norm_sq (Mo.Vec [1; 1])) (Qabs 100) in
  Mo.MoPBIFunction_init 2 (Some (Mo.Vec [0; 0])) (Mo.Vec [1; 1]) 100 = Ok f
  /\ (exists yi, Mo.dot (Mo.Vec [1; 1]) (Mo.Vec [3; 4]) = Ok yi
                 /\ nd_eq yi (Mo.Scal 7))
  /\ (exists v : Mo.nd,
        Mo.scalarize f (Mo.Vec [3; 4]) = Ok v
        /\ nd_eq v (Mo.Vec [1407 # 2; 1407 # 2]))
  /\ ~ (exists v : Mo.nd,
          Mo.scalarize f (Mo.Vec [3; 4]) = Ok v /\ nd_eq v (Mo.Scal (107 # 2)))
  /\ ~ PBI_formula [1; 1] [0; 0] [1; 1] [3; 4] 100 == 107 # 2.
Proof.
  cbn zeta. split; [reflexivity|]. split; [|split; [|split]].
  - eexists. split; [reflexivity|]. unfold nd_eq, Qeq. vm_compute. reflexivity.
  - eexists. split; [vm_compute; reflexivity|]. repeat constructor.
  - intros (v & Hv & Heq). vm_compute in Hv. injection Hv as <-. exact Heq.
  - unfold Qeq. vm_compute. discriminate.
Qed.

(** C2, as the code has it.  For every PBI function whose utopia point and
    scaling are vectors of [n_objectives] values, and every vector [y] of
    [n_objectives] values, [scalarize] returns a vector, with one value for
    each weight, where its documentation and the specification have a
    scalar: [np.dot] makes one number [t] of the scaling and of
    [y - utopia], and the result is [d1 + penalty * d2] for the vector
    [d1 = weight * t / _weightnorm] and the number
    [d2 = |t - d1 * weight|_1].  At [weight = [1, 1]], [utopia = [0, 0]],
    scaling all ones, [penalty = 100] and [y = [3, 4]] this is
    [[703.5, 703.5]], and the formula of the specification gives [103.5]. *)
Theorem pbi_scalarize_returns_vector (self : Mo.MoScalarFunction)
  (w y u sc : list Q) (wn p : Q) :
  Mo._utopia_point self = Some (Mo.Vec u) ->
  Mo._scaling self = Mo.Vec sc ->
  len y = Mo._n_objectives self ->
  List.length u = List.length y ->
  List.length sc = List.length y ->
  Mo.scalarize (Mo.MoPBIFunction self (Mo.Vec w) wn p) (Mo.Vec y)
  = Ok (Mo.Vec (PBI_code w u sc y wn p))
  /\ List.length (PBI_code w u sc y wn p) = List.length w
  /\ Forall2 Qeq (PBI_code [1; 1] [0; 0] [1; 1] [3; 4]
                           (Mo.norm_sq (Mo.Vec [1; 1])) 100)
                 [1407 # 2; 1407 # 2]
  /\ PBI_formula [1; 1] [0; 0] [1; 1] [3; 4] 100 == 207 # 2.
Proof.
  intros Hu Hsc Hn Hlu Hls.
  split; [|split; [|split]].
  - unfold Mo.scalarize, Mo._check_shape. cbn [Mo.base Mo.ndim Mo.shape0].
    rewrite Hn, !Z.eqb_refl.
    cbn [andb orb negb rbind Z.eqb Mo._scalarize]. unfold Mo.minus_utopia.
    rewrite Hu, Hsc. unfold Mo.sub. cbn [Mo.broadcast2].
    rewrite Hlu, Nat.eqb_refl. cbn [rbind Mo.dot].
    rewrite length_map, length_combine, Hlu, Nat.min_id, Hls, Nat.eqb_refl.
    cbn [rbind]. unfold Mo.mul, Mo.div. cbn [Mo.broadcast2 rbind].
    rewrite !length_map, Nat.eqb_refl.
    cbn [rbind Mo.sub Mo.broadcast2 Mo.norm1 Mo.add].
    reflexivity.
  - unfold PBI_code. cbn zeta. now rewrite !length_map.
  - unfold Qeq. vm_compute. repeat constructor.
  - unfold Qeq. vm_compute. reflexivity.
Qed.

Lemma pbi_scalarize_returns_vector_witness :
  Mo.scalarize
    (Mo.MoPBIFunction (Mo.mkBase 2 (Some (Mo.Vec [0; 0])) (Mo.Vec [1; 1]))
                      (Mo.Vec [1; 1]) (Mo.norm_sq (Mo.Vec [1; 1])) 100)
    (Mo.Vec [3; 4])
  = Ok (Mo.Vec (PBI_code [1; 1] [0; 0] [1; 1] [3; 4]
                         (Mo.norm_sq (Mo.Vec [1; 1])) 100))
  /\ List.length (PBI_code [1; 1] [0; 0] [1; 1] [3; 4]
                           (Mo.norm_sq (Mo.Vec [1; 1])) 100) = 2%nat.
Proof.
  destruct (pbi_scalarize_returns_vector
              (Mo.mkBase 2 (Some (Mo.Vec [0; 0])) (Mo.Vec [1; 1]))
              [1; 1] [3; 4] [0; 0] [1; 1] (Mo.norm_sq (Mo.Vec [1; 1])) 100
              eq_refl eq_refl eq_refl eq_refl eq_refl)
    as (Hv & Hl & _).
  split; [exact Hv | exact Hl].
Defined.

(** C7.  With one objective, [scalarize] returns a scalar input as it is,
    for each of the three classes, whatever the weight, the scaling, the
    utopia point and the penalty. *)
Theorem scalarize_scalar_identity (f : Mo.scalarizer) (q : Q) :
  Mo._n_objectives (Mo.base f) = 1%Z ->
  Mo.scalarize f (Mo.Scal q) = Ok (Mo.Scal q).
Proof.
  intros Hn. unfold Mo.scalarize, Mo._check_shape. rewrite Hn. reflexivity.
Qed.

Lemma scalarize_scalar_identity_witness :
  Mo.scalarize
    (Mo.MoPBIFunction (Mo.mkBase 1 None (Mo.Vec [1])) (Mo.Vec [1 # 3])
                      (1 # 9) 100)
    (Mo.Scal (7 # 2))
  = Ok (Mo.Scal (7 # 2))
  /\ Mo.scalarize
       (Mo.MoLinearFunction (Mo.mkBase 1 None (Mo.Vec [1])) (Mo.Vec [1]))
       (Mo.Scal (7 # 2))
     = Ok (Mo.Scal (7 # 2))
  /\ Mo.scalarize
       (Mo.MoChebyshevFunction (Mo.mkBase 1 None (Mo.Vec [1])) (Mo.Vec [1 # 3]))
       (Mo.Scal (7 # 2))
     = Ok (Mo.Scal (7 # 2)).
Proof.
  split; [|split]; apply scalarize_scalar_identity; reflexivity.
Defined.

Lemma check_shape_vector (self : Mo.MoScalarFunction) (l : list Q) :
  len l <> Mo._n_objectives self ->
  Mo._check_shape self (Mo.Vec l) = Raise ValueError.
Proof.
  intros Hne. unfold Mo._check_shape. cbn [Mo.ndim Mo.shape0].
  replace (len l =? Mo._n_objectives self)%Z with false
    by (symmetry; now apply Z.eqb_neq).
  reflexivity.
Qed.

Lemma check_shape_result (self : Mo.MoScalarFunction) (y : Mo.nd) :
  Mo._check_shape self y = Ok tt \/ Mo._check_shape self y = Raise ValueError.
Proof. unfold Mo._check_shape. destruct (negb _); [now right | now left]. Qed.

Lemma check_shapes_mismatch (self : Mo.MoScalarFunction) (yi : list Mo.nd) :
  Exists (fun y => exists l, y = Mo.Vec l /\ len l <> Mo._n_objectives self) yi ->
  Mo.check_shapes self yi = Raise ValueError.
Proof.
  induction 1 as [y yi (l & -> & Hne) | y yi _ IH].
  - cbn [Mo.check_shapes]. now rewrite check_shape_vector.
  - cbn [Mo.check_shapes].
    destruct (check_shape_result self y) as [-> | ->]; [exact IH | reflexivity].
Qed.

(** C8.  For each of the three classes, [scalarize] raises [ValueError] on
    a vector whose length is not [n_objectives], and [normalize] raises
    [ValueError] on a list one of whose elements is a vector whose length
    is not [n_objectives]; nothing is returned in either case. *)
Theorem shape_errors (f : Mo.scalarizer) :
  (forall l : list Q,
      len l <> Mo._n_objectives (Mo.base f) ->
      Mo.scalarize f (Mo.Vec l) = Raise ValueError)
  /\ (forall (is_listlike : list Mo.nd -> bool) (yi : list Mo.nd),
        Exists (fun y => exists l,
                    y = Mo.Vec l /\ len l <> Mo._n_objectives (Mo.base f)) yi ->
        Mo.normalize is_listlike f yi = Raise ValueError).
Proof.
  split.
  - intros l Hne. unfold Mo.scalarize. now rewrite check_shape_vector.
  - intros is_listlike yi Hex. unfold Mo.normalize.
    destruct (is_listlike yi); [|reflexivity].
    cbn [negb]. now rewrite check_shapes_mismatch.
Qed.

Lemma shape_errors_witness :
  let f := Mo.MoChebyshevFunction
             (Mo.mkBase 2 (Some (Mo.Vec [0; 0])) (Mo.Vec [1; 1]))
             (Mo.Vec [1 # 2; 1 # 3]) in
  Mo.scalarize f (Mo.Vec [1; 2; 3]) = Raise ValueError
  /\ Mo.normalize (fun _ => true) f [Mo.Vec [1; 2]; Mo.Vec [3]]
     = Raise ValueError.
Proof.
  cbn zeta. split.
  - apply (proj1 (shape_errors _)). vm_compute. discriminate.
  - apply (proj2 (shape_errors _)).
    apply Exists_cons_tl. apply Exists_cons_hd.
    exists [3]. split; [reflexivity|]. vm_compute. discriminate.
Defined.

Close Scope Q_scope.

(** * Properties of the search coordinator *)

Section Search.

Variable opt_state : Type.
Variable opt_new : opt_state.
Variable opt_ask : opt_state -> point * opt_state.
Variable opt_tell : opt_state -> list point -> list objective -> opt_state.
Variable opt_Xi : opt_state -> list point.
Variable run_function : nat -> dict pyobj -> run_result.
Variable lib : library.
Variable cfg : DMBSMPI.Config.

(** The first cycle of [_search], when the point that is asked has a name
    for each of its values and the evaluation function reports a number:
    the evaluation is written down, and the point, the negated objective and
    the infos are appended to the History. *)
Lemma cycle_first (s : DMBSMPI.State opt_state) (o o' : opt_state)
  (x : point) (args : dict pyobj) (y : num) :
  DMBSMPI._opt s = Some o ->
  opt_ask o = (x, o') ->
  DMBSMPI.to_dict cfg x = Ok args ->
  reported (run_function (List.length (DMBSMPI.evals s)) args) = Some y ->
  exists (infos : list pyobj) (s' : DMBSMPI.State opt_state),
    DMBSMPI.cycle opt_ask run_function cfg true s
    = Some (Ok (x, num_neg y, infos), s')
    /\ DMBSMPI.evals s'
       = DMBSMPI.evals s
         ++ [(args, run_function (List.length (DMBSMPI.evals s)) args)]
    /\ History._list_x (DMBSMPI._history s')
       = History._list_x (DMBSMPI._history s) ++ [x]
    /\ History._list_y (DMBSMPI._history s')
       = History._list_y (DMBSMPI._history s) ++ [num_neg y]
    /\ History._list_infos (DMBSMPI._history s')
       = History._list_infos (DMBSMPI._history s) ++ [infos]
    /\ infos <> []
    /\ History._keys_infos (DMBSMPI._history s') <> [].
Proof.
  intros Hopt Hask Hdict Hrep.
  unfold DMBSMPI.cycle, DMBSMPI.ask.
  unfold DMBSMPI.bind at 1. unfold DMBSMPI.bind at 1. unfold DMBSMPI.get at 1.
  rewrite Hopt, Hask.
  unfold DMBSMPI.bind at 1. unfold DMBSMPI.modify at 1. unfold DMBSMPI.ret at 1.
  unfold DMBSMPI.bind at 1. unfold DMBSMPI.lift at 1. rewrite Hdict.
  unfold DMBSMPI.bind at 1. unfold DMBSMPI.call_run_function.
  unfold DMBSMPI.bind at 1. unfold DMBSMPI.get at 1.
  unfold DMBSMPI.bind at 1. unfold DMBSMPI.modify at 1. unfold DMBSMPI.ret at 1.
  cbn [DMBSMPI.evals DMBSMPI.set_opt].
  destruct (run_function (List.length (DMBSMPI.evals s)) args)
    as [y0 | y0 t0 t1 |] eqn:Er; cbn [reported] in Hrep;
    [injection Hrep as -> | injection Hrep as -> | discriminate].
  - eexists. eexists. split; [reflexivity|].
    cbn. repeat split; try reflexivity; try discriminate.
    intros H. apply (f_equal (@List.length _)) in H.
    rewrite length_app in H. simpl in H. lia.
  - eexists. eexists. split; [reflexivity|].
    cbn. repeat split; try reflexivity; try discriminate.
    intros H. apply (f_equal (@List.length _)) in H.
    rewrite !length_app in H. simpl in H. lia.
Qed.

(** Once an info key is registered and an info value recorded, the
    communication step changes neither the records nor the evaluations: in
    synchronous mode [infos(k)] raises before [broadcast] is reached. *)
Lemma propagate_keeps_records (s : DMBSMPI.State opt_state)
  (x : point) (y : objective) (infos : list pyobj) :
  History._keys_infos (DMBSMPI._history s) <> [] ->
  Exists (fun r => r <> []) (History._list_infos (DMBSMPI._history s)) ->
  exists (res : result unit) (s' : DMBSMPI.State opt_state),
    DMBSMPI.propagate cfg x y infos s = Some (res, s')
    /\ DMBSMPI.evals s' = DMBSMPI.evals s
    /\ History._list_x (DMBSMPI._history s')
       = History._list_x (DMBSMPI._history s)
    /\ History._list_y (DMBSMPI._history s')
       = History._list_y (DMBSMPI._history s)
    /\ (DMBSMPI._sync_communication cfg = false -> res = Ok tt).
Proof.
  intros Hk Hrows. unfold DMBSMPI.propagate.
  destruct (DMBSMPI._sync_communication cfg).
  - unfold DMBSMPI.bind at 1. unfold DMBSMPI.get at 1.
    destruct (DMBSMPI._sync_communication_freq cfg =? 0).
    + exists (Raise ZeroDivisionError), s. now repeat split.
    + destruct (_ mod _ =? 0).
      * unfold DMBSMPI.bind, DMBSMPI.lift.
        rewrite (infos_last_raises _ _ Hk Hrows).
        exists (Raise TypeError), s. now repeat split.
      * exists (Ok tt), s. now repeat split.
  - eexists. eexists. split; [reflexivity|]. now repeat split.
Qed.

(** [_search] runs one ask-evaluate-record cycle before it looks at
    [max_evals]: the stop condition is first checked by the loop that
    follows the cycle and its communication step.  So with [max_evals = 0],
    when the point that is asked has a name for each of its values and the
    evaluation function reports a number, [_search] ends having called the
    evaluation function once and appended that one record to the History. *)
Lemma _search_first_cycle
  (budget : nat) (timeout : pyobj) (s : DMBSMPI.State opt_state)
  (o' : opt_state) (x : point) (args : dict pyobj) (y : num) :
  opt_ask (match DMBSMPI._opt s with Some o => o | None => opt_new end)
  = (x, o') ->
  DMBSMPI.to_dict cfg x = Ok args ->
  reported (run_function (List.length (DMBSMPI.evals s)) args) = Some y ->
  (forall (max_evals : Z) (infos : list pyobj)
          (s0 s1 s2 : DMBSMPI.State opt_state),
      s0 = match DMBSMPI._opt s with
           | Some _ => s
           | None => DMBSMPI.set_opt (Some opt_new) s
           end ->
      DMBSMPI.cycle opt_ask run_function cfg true s0
      = Some (Ok (x, num_neg y, infos), s1) ->
      DMBSMPI.propagate cfg x (num_neg y) infos s1 = Some (Ok tt, s2) ->
      DMBSMPI._search opt_new opt_ask opt_tell opt_Xi run_function cfg
                      budget max_evals timeout s
      = DMBSMPI._search_loop opt_ask opt_tell opt_Xi run_function cfg
                             budget max_evals s2)
  /\ exists (res : result unit) (s' : DMBSMPI.State opt_state),
       DMBSMPI._search opt_new opt_ask opt_tell opt_Xi run_function cfg
                       budget 0 timeout s
       = Some (res, s')
       /\ DMBSMPI.evals s'
          = DMBSMPI.evals s
            ++ [(args, run_function (List.length (DMBSMPI.evals s)) args)]
       /\ History._list_x (DMBSMPI._history s')
          = History._list_x (DMBSMPI._history s) ++ [x]
       /\ History._list_y (DMBSMPI._history s')
          = History._list_y (DMBSMPI._history s) ++ [num_neg y]
       /\ History.length (DMBSMPI._history s')
          = History.length (DMBSMPI._history s) + 1
       /\ (DMBSMPI._sync_communication cfg = false -> res = Ok tt).
Proof.
  intros Hask Hdict Hrep.
  pose (s0 := match DMBSMPI._opt s with
              | Some _ => s
              | None => DMBSMPI.set_opt (Some opt_new) s
              end).
  assert (Hsetup : forall (A : Type) (k : unit -> DMBSMPI.M opt_state A),
             DMBSMPI.bind
               (match DMBSMPI._opt s with
                | None => DMBSMPI._setup_optimizer opt_new
                | Some _ => DMBSMPI.ret tt
                end) k s = k tt s0).
  { intros A k. subst s0. now destruct (DMBSMPI._opt s). }
  assert (Hunfold : forall max_evals,
             DMBSMPI._search opt_new opt_ask opt_tell opt_Xi run_function cfg
                             budget max_evals timeout s
             = DMBSMPI.bind (DMBSMPI.cycle opt_ask run_function cfg true)
                 (fun r => let '(x, y, infos) := r in
                           DMBSMPI.bind (DMBSMPI.propagate cfg x y infos)
                             (fun _ => DMBSMPI._search_loop opt_ask opt_tell
                                         opt_Xi run_function cfg
                                         budget max_evals)) s0).
  { intros max_evals. unfold DMBSMPI._search.
    unfold DMBSMPI.bind at 1. unfold DMBSMPI.get at 1. apply Hsetup. }
  split.
  - intros max_evals infos t0 s1 s2 -> Hcycle Hprop.
    rewrite Hunfold. fold s0 in Hcycle.
    unfold DMBSMPI.bind at 1. rewrite Hcycle.
    unfold DMBSMPI.bind at 1. now rewrite Hprop.
  - destruct (cycle_first s0 (match DMBSMPI._opt s with
                               | Some o => o | None => opt_new end)
                o' x args y) as (infos & s1 & Hc & He & Hx & Hy & Hi & Hne & Hk).
    + subst s0. destruct (DMBSMPI._opt s) eqn:E; [exact E | reflexivity].
    + exact Hask.
    + exact Hdict.
    + subst s0. destruct (DMBSMPI._opt s); exact Hrep.
    + destruct (propagate_keeps_records s1 x (num_neg y) infos Hk)
        as (res & s2 & Hp & He2 & Hx2 & Hy2 & Hasync).
      { rewrite Hi. apply Exists_app. right. now constructor. }
      assert (E0 : DMBSMPI.evals s0 = DMBSMPI.evals s
                   /\ DMBSMPI._history s0 = DMBSMPI._history s).
      { subst s0. now destruct (DMBSMPI._opt s). }
      destruct E0 as [E0 H0]. rewrite E0 in He. rewrite H0 in Hx, Hy.
      rewrite Hunfold. unfold DMBSMPI.bind at 1. rewrite Hc.
      unfold DMBSMPI.bind at 1. rewrite Hp.
      destruct res as [[]|e].
      * assert (Hstop : DMBSMPI._search_loop opt_ask opt_tell opt_Xi
                          run_function cfg budget 0 s2 = Some (Ok tt, s2)).
        { assert (Hcond : (0 <? 0) || (History.length (DMBSMPI._history s2) <? 0)
                          = false).
          { apply orb_false_iff. split; [reflexivity|].
            apply Z.ltb_ge. unfold History.length, len. lia. }
          destruct budget; cbn [DMBSMPI._search_loop];
            unfold DMBSMPI.bind at 1; unfold DMBSMPI.get at 1;
            now rewrite Hcond. }
        rewrite Hstop. exists (Ok tt), s2.
        rewrite He2, Hx2, Hy2, He, Hx, Hy. repeat split.
        unfold History.length, len. rewrite Hx2, Hx, length_app. simpl. lia.
      * exists (Raise e), s2.
        rewrite He2, Hx2, Hy2, He, Hx, Hy. repeat split.
        -- unfold History.length, len. rewrite Hx2, Hx, length_app. simpl. lia.
        -- intros Hs. specialize (Hasync Hs). discriminate.
Qed.

End Search.

(** ** Rules for [preserves] *)

Section Preserves.

Variable opt_state : Type.
Variable G : exn -> Prop.
Variable R : DMBSMPI.State opt_state -> DMBSMPI.State opt_state -> Prop.
Hypothesis R_refl : forall s, R s s.
Hypothesis R_trans : forall s1 s2 s3, R s1 s2 -> R s2 s3 -> R s1 s3.

Lemma preserves_ret (A : Type) (a : A) :
  preserves G R (@DMBSMPI.ret opt_state A a).
Proof. intros s r s' H _. injection H as _ <-. apply R_refl. Qed.

Lemma preserves_raise (A : Type) (e : exn) :
  preserves G R (@DMBSMPI.raise opt_state A e).
Proof. intros s r s' H _. injection H as _ <-. apply R_refl. Qed.

Lemma preserves_lift (A : Type) (r : result A) :
  preserves G R (@DMBSMPI.lift opt_state A r).
Proof. intros s r' s' H _. injection H as _ <-. apply R_refl. Qed.

Lemma preserves_get : preserves G R (@DMBSMPI.get opt_state).
Proof. intros s r s' H _. injection H as _ <-. apply R_refl. Qed.

Lemma preserves_out_of_budget (A : Type) :
  preserves G R (@DMBSMPI.out_of_budget opt_state A).
Proof. intros s r s' H. discriminate. Qed.

Lemma preserves_modify (f : DMBSMPI.State opt_state -> DMBSMPI.State opt_state) :
  (forall s, R s (f s)) -> preserves G R (DMBSMPI.modify f).
Proof. intros Hf s r s' H _. injection H as _ <-. apply Hf. Qed.

Lemma preserves_bind (A B : Type) (m : DMBSMPI.M opt_state A)
  (k : A -> DMBSMPI.M opt_state B) :
  preserves G R m -> (forall a, preserves G R (k a)) ->
  preserves G R (DMBSMPI.bind m k).
Proof.
  intros Hm Hk s r s' H Hg. unfold DMBSMPI.bind in H.
  destruct (m s) as [[[a|e] s1]|] eqn:Em; [| |discriminate].
  - apply R_trans with s1.
    + apply (Hm s (Ok a) s1 Em). intros e He. discriminate.
    + apply (Hk a s1 r s' H Hg).
  - injection H as <- <-. apply (Hm s (Raise e) s1 Em).
    intros e' He'. injection He' as <-. now apply Hg.
Qed.

Lemma preserves_catch (A : Type) (m : DMBSMPI.M opt_state A)
  (h : exn -> option (DMBSMPI.M opt_state A)) :
  preserves G R m ->
  (forall e k, h e = Some k -> G e /\ preserves G R k) ->
  preserves G R (DMBSMPI.catch m h).
Proof.
  intros Hm Hh s r s' H Hg. unfold DMBSMPI.catch in H.
  destruct (m s) as [[[a|e] s1]|] eqn:Em; [| |discriminate].
  - injection H as <- <-. apply (Hm s (Ok a) s1 Em). intros e He. discriminate.
  - destruct (h e) as [k|] eqn:Eh.
    + destruct (Hh e k Eh) as [Ge Hk].
      apply R_trans with s1.
      * apply (Hm s (Raise e) s1 Em). intros e' He'. now injection He' as <-.
      * apply (Hk s1 r s' H Hg).
    + injection H as <- <-. apply (Hm s (Raise e) s1 Em). exact Hg.
Qed.

Lemma preserves_foldM (A B : Type) (f : B -> A -> DMBSMPI.M opt_state B)
  (l : list A) :
  (forall b a, preserves G R (f b a)) ->
  forall b, preserves G R (DMBSMPI.foldM f l b).
Proof.
  intros Hf. induction l as [|a l IH]; intros b; cbn [DMBSMPI.foldM].
  - apply preserves_ret.
  - apply preserves_bind; [apply Hf | intros b'; apply IH].
Qed.

End Preserves.

Section RaisesOnly.

Variable opt_state : Type.
Variable P : exn -> Prop.

Lemma raises_only_ret (A : Type) (a : A) :
  raises_only P (@DMBSMPI.ret opt_state A a).
Proof. intros s e s' H. discriminate. Qed.

Lemma raises_only_raise (A : Type) (e : exn) :
  P e -> raises_only P (@DMBSMPI.raise opt_state A e).
Proof. intros He s e' s' H. now injection H as <- _. Qed.

Lemma raises_only_lift (A : Type) (r : result A) :
  (forall e, r = Raise e -> P e) -> raises_only P (@DMBSMPI.lift opt_state A r).
Proof. intros Hr s e s' H. injection H as -> _. now apply Hr. Qed.

Lemma raises_only_get : raises_only P (@DMBSMPI.get opt_state).
Proof. intros s e s' H. discriminate. Qed.

Lemma raises_only_out_of_budget (A : Type) :
  raises_only P (@DMBSMPI.out_of_budget opt_state A).
Proof. intros s e s' H. discriminate. Qed.

Lemma raises_only_modify (f : DMBSMPI.State opt_state -> DMBSMPI.State opt_state) :
  raises_only P (DMBSMPI.modify f).
Proof. intros s e s' H. discriminate. Qed.

Lemma raises_only_bind (A B : Type) (m : DMBSMPI.M opt_state A)
  (k : A -> DMBSMPI.M opt_state B) :
  raises_only P m -> (forall a, raises_only P (k a)) ->
  raises_only P (DMBSMPI.bind m k).
Proof.
  intros Hm Hk s e s' H. unfold DMBSMPI.bind in H.
  destruct (m s) as [[[a|e0] s1]|] eqn:Em; [| |discriminate].
  - apply (Hk a s1 e s' H).
  - injection H as <- <-. apply (Hm s e0 s1 Em).
Qed.

Lemma raises_only_catch (A : Type) (m : DMBSMPI.M opt_state A)
  (h : exn -> option (DMBSMPI.M opt_state A)) :
  (forall s e s', m s = Some (Raise e, s') -> h e = None -> P e) ->
  (forall e k, h e = Some k -> raises_only P k) ->
  raises_only P (DMBSMPI.catch m h).
Proof.
  intros Hm Hh s e s' H. unfold DMBSMPI.catch in H.
  destruct (m s) as [[[a|e0] s1]|] eqn:Em; [discriminate| |discriminate].
  destruct (h e0) as [k|] eqn:Eh.
  - apply (Hh e0 k Eh s1 e s' H).
  - injection H as <- <-. apply (Hm s e0 s1 Em Eh).
Qed.

Lemma raises_only_foldM (A B : Type) (f : B -> A -> DMBSMPI.M opt_state B)
  (l : list A) :
  (forall b a, raises_only P (f b a)) ->
  forall b, raises_only P (DMBSMPI.foldM f l b).
Proof.
  intros Hf. induction l as [|a l IH]; intros b; cbn [DMBSMPI.foldM].
  - apply raises_only_ret.
  - apply raises_only_bind; [apply Hf | intros b'; apply IH].
Qed.

End RaisesOnly.

(** ** The evaluations and the stored objectives along a run *)



(** *** The negation of the array *)





Section Run.

Variable opt_state : Type.
Variable opt_new : opt_state.
Variable opt_ask : opt_state -> point * opt_state.
Variable opt_tell : opt_state -> list point -> list objective -> opt_state.
Variable opt_Xi : opt_state -> list point.
Variable run_function : nat -> dict pyobj -> run_result.
Variable lib : library.
Variable cfg : DMBSMPI.Config.

Lemma Steps_refl (s : DMBSMPI.State opt_state) : Steps cfg s s.
Proof. exists []. simpl. rewrite !app_nil_r. now repeat split. Qed.

Lemma Steps_trans (s1 s2 s3 : DMBSMPI.State opt_state) :
  Steps cfg s1 s2 -> Steps cfg s2 s3 -> Steps cfg s1 s3.
Proof.
  intros (ev1 & Hok1 & He1 & Hy1) (ev2 & Hok2 & He2 & Hy2).
  exists (ev1 ++ ev2). split; [|split].
  - apply Forall_app. now split.
  - rewrite He2, He1. unfold calls. now rewrite flat_map_app, app_assoc.
  - rewrite Hy2, Hy1. unfold stored. now rewrite map_app, app_assoc.
Qed.

Lemma Steps_unchanged (s s' : DMBSMPI.State opt_state) :
  DMBSMPI.evals s' = DMBSMPI.evals s ->
  History._list_y (DMBSMPI._history s') = History._list_y (DMBSMPI._history s) ->
  Steps cfg s s'.
Proof.
  intros He Hy. exists []. simpl. rewrite !app_nil_r. now repeat split.
Qed.

(** The rules, applied along the structure of a method. *)
Ltac pres :=
  repeat
    match goal with
    | |- preserves _ _ (DMBSMPI.bind _ _) =>
        apply preserves_bind; [exact Steps_trans | | intros]
    | |- preserves _ _ (DMBSMPI.ret _) =>
        apply preserves_ret; exact Steps_refl
    | |- preserves _ _ (DMBSMPI.raise _) =>
        apply preserves_raise; exact Steps_refl
    | |- preserves _ _ (DMBSMPI.lift _) =>
        apply preserves_lift; exact Steps_refl
    | |- preserves _ _ (@DMBSMPI.get _) =>
        apply preserves_get; exact Steps_refl
    | |- preserves _ _ (@DMBSMPI.out_of_budget _ _) =>
        apply preserves_out_of_budget
    | |- preserves _ _ (DMBSMPI.modify _) =>
        apply preserves_modify; intros; apply Steps_unchanged; reflexivity
    | |- preserves _ _ (if ?b then _ else _) => destruct b
    | |- preserves _ _ (match ?x with _ => _ end) => destruct x
    end.

Lemma send_all_Steps G x y infos :
  preserves G (Steps cfg) (@DMBSMPI.send_all opt_state cfg x y infos).
Proof. unfold DMBSMPI.send_all. pres. Qed.


Lemma reset_buffer_Steps G :
  preserves G (Steps cfg) (@DMBSMPI.reset_buffer opt_state).
Proof. unfold DMBSMPI.reset_buffer. pres. Qed.

Lemma recv_req_Steps G (acc : bool) (t : option payload) :
  (1 < DMBSMPI._size cfg)%nat ->
  preserves G (Steps cfg) (@DMBSMPI.recv_req opt_state acc t).
Proof.
  intros Hsize. unfold DMBSMPI.recv_req.
  destruct t as [data|]; [|pres].
  destruct (ne_TERMINATION data); [|pres].
  apply preserves_bind; [exact Steps_trans | pres |].
  intros [[x y] infos]. pres.
  apply preserves_modify. intros s.
  exists [Recv x y infos]. simpl. rewrite app_nil_r.
  repeat split. now repeat constructor.
Qed.

Lemma recv_loop_Steps G (passes : list pass) :
  (1 < DMBSMPI._size cfg)%nat ->
  preserves G (Steps cfg) (@DMBSMPI.recv_loop opt_state cfg passes).
Proof.
  intros Hsize. induction passes as [|p rest IH]; cbn [DMBSMPI.recv_loop]; pres.
  - unfold DMBSMPI.recv_pass. apply preserves_foldM.
    + exact Steps_refl.
    + exact Steps_trans.
    + intros ? ?. now apply recv_req_Steps.
  - exact IH.
Qed.

Lemma recv_any_Steps G :
  preserves G (Steps cfg) (@DMBSMPI.recv_any opt_state cfg).
Proof.
  unfold DMBSMPI.recv_any.
  destruct (1 <? DMBSMPI._size cfg)%nat eqn:Es; pres.
  apply recv_loop_Steps. now apply Nat.ltb_lt.
Qed.

Lemma broadcast_Steps G X Y infos :
  preserves G (Steps cfg) (@DMBSMPI.broadcast opt_state cfg X Y infos).
Proof.
  unfold DMBSMPI.broadcast, DMBSMPI.allgather. pres.
  apply preserves_foldM; [exact Steps_refl | exact Steps_trans |].
  intros i [[X' Y'] infos'].
  unfold DMBSMPI.broadcast_item, History.extend_float_y.
  destruct (negb (Nat.eqb i (DMBSMPI._rank cfg))); pres.
Qed.

Lemma propagate_Steps G x y infos :
  preserves G (Steps cfg) (@DMBSMPI.propagate opt_state cfg x y infos).
Proof.
  unfold DMBSMPI.propagate.
  pres; first [apply broadcast_Steps | apply reset_buffer_Steps
              | apply send_all_Steps].
Qed.

Lemma tell_Steps G X y :
  preserves G (Steps cfg) (DMBSMPI.tell opt_tell X y).
Proof. unfold DMBSMPI.tell. pres. Qed.

Lemma opt_Xi_len_Steps G :
  preserves G (Steps cfg) (DMBSMPI.opt_Xi_len opt_Xi).
Proof. unfold DMBSMPI.opt_Xi_len. pres. Qed.



Lemma to_dict_raises (x : point) (e : exn) :
  DMBSMPI.to_dict cfg x = Raise e -> e = IndexError.
Proof.
  unfold DMBSMPI.to_dict. generalize 0%nat (@nil (string * pyobj)).
  induction x as [|xi x IH]; intros i res H; cbn [DMBSMPI.to_dict_from] in H.
  - discriminate.
  - destruct (nth_error (DMBSMPI.hyperparameter_names cfg) i).
    + now apply IH in H.
    + now injection H as <-.
Qed.

(** A cycle that returns has called the evaluation function once and has
    stored the negation of the objective that was reported. *)
Lemma cycle_spec (first : bool) (s : DMBSMPI.State opt_state)
  (r : result (point * objective * list pyobj)) (s' : DMBSMPI.State opt_state) :
  DMBSMPI.cycle opt_ask run_function cfg first s = Some (r, s') ->
  (forall e, r = Raise e -> stops e) ->
  exists (args : dict pyobj) (rr : run_result) (y : num),
    reported rr = Some y
    /\ DMBSMPI.evals s' = DMBSMPI.evals s ++ [(args, rr)]
    /\ History._list_y (DMBSMPI._history s')
       = History._list_y (DMBSMPI._history s) ++ [num_neg y].
Proof.
  intros H Hg.
  unfold DMBSMPI.cycle, DMBSMPI.ask, DMBSMPI.call_run_function,
    DMBSMPI.unpack_profile, DMBSMPI.negate in H.
  unfold DMBSMPI.bind at 1 in H. unfold DMBSMPI.bind at 1 in H.
  unfold DMBSMPI.get at 1 in H.
  destruct (DMBSMPI._opt s) as [o|] eqn:Eo.
  - destruct (opt_ask o) as [x o'] eqn:Ea.
    unfold DMBSMPI.bind at 1 in H. cbn [DMBSMPI.modify DMBSMPI.ret] in H.
    unfold DMBSMPI.bind at 1 in H. unfold DMBSMPI.lift at 1 in H.
    destruct (DMBSMPI.to_dict cfg x) as [args|e] eqn:Ed.
    + unfold DMBSMPI.bind at 1 in H. unfold DMBSMPI.bind at 1 in H.
      unfold DMBSMPI.get at 1 in H.
      unfold DMBSMPI.bind at 1 in H. cbn [DMBSMPI.modify DMBSMPI.ret] in H.
      cbn [DMBSMPI.evals DMBSMPI.set_opt] in H.
      destruct (run_function (List.length (DMBSMPI.evals s)) args)
        as [y | y t0 t1 |] eqn:Er;
        destruct first; cbn in H; unfold DMBSMPI.ret, DMBSMPI.raise in H;
        injection H as <- <-;
        try (exfalso; specialize (Hg _ eq_refl); unfold stops in Hg;
             discriminate).
      * now exists args, (RNum y), y.
      * now exists args, (RNum y), y.
      * now exists args, (RProfile y t0 t1), y.
      * now exists args, (RProfile y t0 t1), y.
    + injection H as <- <-. specialize (Hg _ eq_refl).
      apply to_dict_raises in Ed. subst e. discriminate Hg.
  - injection H as <- <-. specialize (Hg _ eq_refl). discriminate Hg.
Qed.

Lemma cycle_Steps (first : bool) :
  preserves stops (Steps cfg) (DMBSMPI.cycle opt_ask run_function cfg first).
Proof.
  intros s r s' H Hg.
  destruct (cycle_spec first s r s' H Hg) as (args & rr & y & Hr & He & Hy).
  exists [Own args rr y]. repeat split; try assumption.
  now repeat constructor.
Qed.

Lemma _search_loop_Steps (max_evals : Z) (budget : nat) :
  preserves stops (Steps cfg)
    (DMBSMPI._search_loop opt_ask opt_tell opt_Xi run_function cfg
                          budget max_evals).
Proof.
  induction budget as [|budget IH]; cbn [DMBSMPI._search_loop]; pres;
    unfold History.value; pres;
    first [ apply recv_any_Steps | apply opt_Xi_len_Steps | apply tell_Steps
          | apply cycle_Steps | apply propagate_Steps | exact IH ].
Qed.


Lemma Steps_evals_length (s s' : DMBSMPI.State opt_state) :
  Steps cfg s s' ->
  (List.length (DMBSMPI.evals s) <= List.length (DMBSMPI.evals s'))%nat.
Proof. intros (events & _ & He & _). rewrite He, length_app. lia. Qed.

(** When [_search] returns, or is stopped by the alarm, the evaluation
    function was called. *)
Lemma _search_evaluates (budget : nat) (max_evals : Z) (timeout : pyobj)
  (s : DMBSMPI.State opt_state) (r : result unit)
  (s' : DMBSMPI.State opt_state) :
  DMBSMPI._search opt_new opt_ask opt_tell opt_Xi run_function cfg
                  budget max_evals timeout s = Some (r, s') ->
  (forall e, r = Raise e -> stops e) ->
  (List.length (DMBSMPI.evals s) < List.length (DMBSMPI.evals s'))%nat.
Proof.
  intros H Hg. unfold DMBSMPI._search in H.
  unfold DMBSMPI.bind at 1 in H. unfold DMBSMPI.get at 1 in H.
  unfold DMBSMPI.bind at 1 in H.
  set (s0 := match DMBSMPI._opt s with
             | Some _ => s
             | None => DMBSMPI.set_opt (Some opt_new) s
             end).
  assert (Hsetup : (match DMBSMPI._opt s with
                    | None => DMBSMPI._setup_optimizer opt_new
                    | Some _ => DMBSMPI.ret tt
                    end) s = Some (Ok tt, s0)).
  { subst s0. now destruct (DMBSMPI._opt s). }
  rewrite Hsetup in H.
  assert (E0 : DMBSMPI.evals s0 = DMBSMPI.evals s).
  { subst s0. now destruct (DMBSMPI._opt s). }
  rewrite <- E0. clearbody s0. clear Hsetup E0.
  unfold DMBSMPI.bind at 1 in H.
  destruct (DMBSMPI.cycle opt_ask run_function cfg true s0)
    as [[[[[x y] infos]|e] s1]|] eqn:Ec; [| |discriminate].
  - destruct (cycle_spec true s0 _ s1 Ec) as (args & rr & y0 & _ & He & _).
    { intros e He. discriminate. }
    assert (Hrest : Steps cfg s1 s').
    { revert H Hg.
      apply (preserves_bind _ stops (Steps cfg) Steps_trans _ _
               (DMBSMPI.propagate cfg x y infos)
               (fun _ => DMBSMPI._search_loop opt_ask opt_tell opt_Xi
                           run_function cfg budget max_evals)).
      - apply propagate_Steps.
      - intros _. apply _search_loop_Steps. }
    apply Steps_evals_length in Hrest.
    rewrite He, length_app in Hrest. simpl in Hrest. lia.
  - injection H as <- <-.
    destruct (cycle_spec true s0 _ s1 Ec) as (args & rr & y0 & _ & He & _).
    { intros e' He'. injection He' as <-. now apply Hg. }
    rewrite He, length_app. simpl. lia.
Qed.


End Run.

(** ** The final table *)





Lemma pd_column_raises (n : nat) (col : list pyobj) (e : exn) :
  DMBSMPI.pd_column n col = Raise e -> e = ValueError.
Proof.
  unfold DMBSMPI.pd_column. destruct (Nat.eqb _ _); [discriminate|].
  destruct col as [|v [|w col]]; intros H; try discriminate; now injection H.
Qed.

Lemma pd_DataFrame_raises (data : DataFrame) (n : nat) (e : exn) :
  DMBSMPI.pd_DataFrame data n = Raise e -> e = ValueError.
Proof.
  unfold DMBSMPI.pd_DataFrame. induction data as [|[k col] data IH];
    cbn [rmap fst snd]; [discriminate|].
  destruct (DMBSMPI.pd_column n col) as [col'|e'] eqn:Ec; cbn [rbind].
  - destruct (rmap _ data) as [t|e'']; cbn [rbind]; [discriminate|].
    intros H. injection H as <-. now apply IH.
  - intros H. injection H as <-. now apply pd_column_raises in Ec.
Qed.




Section Inversion.

Variable opt_state : Type.

Lemma bind_Ok_inv (A B : Type) (m : DMBSMPI.M opt_state A)
  (k : A -> DMBSMPI.M opt_state B) (s s' : DMBSMPI.State opt_state) (b : B) :
  DMBSMPI.bind m k s = Some (Ok b, s') ->
  exists (a : A) (s1 : DMBSMPI.State opt_state),
    m s = Some (Ok a, s1) /\ k a s1 = Some (Ok b, s').
Proof.
  unfold DMBSMPI.bind. intros H.
  destruct (m s) as [[[a|e] s1]|]; try discriminate.
  now exists a, s1.
Qed.

End Inversion.


Section SignConvention.

Variable opt_state : Type.
Variable opt_new : opt_state.
Variable opt_ask : opt_state -> point * opt_state.
Variable opt_tell : opt_state -> list point -> list objective -> opt_state.
Variable opt_Xi : opt_state -> list point.
Variable run_function : nat -> dict pyobj -> run_result.
Variable lib : library.
Variable cfg : DMBSMPI.Config.




End SignConvention.


(** ** The validation of the timeout *)

Lemma rmap_always_raises (A B : Type) (f : A -> result B) (e0 : exn)
  (l : list A) (e : exn) :
  (forall a, f a = Raise e0) -> rmap f l = Raise e -> e = e0.
Proof.
  intros Hf. destruct l as [|a l]; cbn [rmap]; [discriminate|].
  rewrite Hf. cbn [rbind]. intros H. now injection H.
Qed.

Lemma infos_last_not_ValueError (h : History.t) (k : Z) (e : exn) :
  History.infos_last h k = Raise e -> not_ValueError e.
Proof.
  unfold History.infos_last, not_ValueError.
  destruct (rmap _ _) as [items|e1] eqn:Er; cbn [rbind].
  - unfold index.
    destruct (_ && _); [destruct (nth_error _ _)|]; cbn [rbind];
      intros H; try discriminate; injection H as <-; discriminate.
  - intros H. injection H as <-.
    apply rmap_always_raises with (e0 := TypeError) in Er;
      [subst e1; discriminate|].
    now intros [k0 v0].
Qed.

Section Validation.

Variable opt_state : Type.
Variable opt_new : opt_state.
Variable opt_ask : opt_state -> point * opt_state.
Variable opt_tell : opt_state -> list point -> list objective -> opt_state.
Variable opt_Xi : opt_state -> list point.
Variable run_function : nat -> dict pyobj -> run_result.
Variable lib : library.
Variable cfg : DMBSMPI.Config.

Ltac rais :=
  repeat
    match goal with
    | |- raises_only _ (DMBSMPI.bind _ _) =>
        apply raises_only_bind; [| intros]
    | |- raises_only _ (DMBSMPI.ret _) => apply raises_only_ret
    | |- raises_only _ (DMBSMPI.raise _) =>
        apply raises_only_raise; unfold not_ValueError; discriminate
    | |- raises_only _ (@DMBSMPI.get _) => apply raises_only_get
    | |- raises_only _ (@DMBSMPI.out_of_budget _ _) =>
        apply raises_only_out_of_budget
    | |- raises_only _ (DMBSMPI.modify _) => apply raises_only_modify
    | |- raises_only _ (DMBSMPI.lift (Ok _)) =>
        apply raises_only_lift; intros; discriminate
    | |- raises_only _ (DMBSMPI.lift (Raise _)) =>
        apply raises_only_lift; unfold not_ValueError; intros ? [=]; subst;
        discriminate
    | |- raises_only _ (if ?b then _ else _) => destruct b
    | |- raises_only _ (match ?x with _ => _ end) => destruct x
    end.

Lemma recv_any_not_ValueError :
  raises_only not_ValueError (@DMBSMPI.recv_any opt_state cfg).
Proof.
  unfold DMBSMPI.recv_any. rais.
  match goal with |- raises_only _ (DMBSMPI.recv_loop _ ?l) => generalize l end.
  intros passes. induction passes as [|p rest IH]; cbn [DMBSMPI.recv_loop]; rais.
  - unfold DMBSMPI.recv_pass. apply raises_only_foldM.
    intros b t. unfold DMBSMPI.recv_req.
    destruct t as [data|]; rais.
    destruct data; cbn [unpack3]; rais.
  - exact IH.
Qed.

Lemma propagate_not_ValueError x y infos :
  raises_only not_ValueError (@DMBSMPI.propagate opt_state cfg x y infos).
Proof.
  unfold DMBSMPI.propagate, DMBSMPI.reset_buffer, DMBSMPI.send_all. rais.
  - apply raises_only_lift. intros e. apply infos_last_not_ValueError.
  - unfold DMBSMPI.broadcast, DMBSMPI.allgather. rais.
    apply raises_only_foldM. intros i [[X' Y'] infos'].
    unfold DMBSMPI.broadcast_item. rais.
Qed.

Lemma cycle_not_ValueError (first : bool) :
  raises_only not_ValueError (DMBSMPI.cycle opt_ask run_function cfg first).
Proof.
  unfold DMBSMPI.cycle, DMBSMPI.ask, DMBSMPI.call_run_function,
    DMBSMPI.unpack_profile, DMBSMPI.negate.
  rais.
  apply raises_only_lift. intros e He. apply to_dict_raises in He.
  subst e. discriminate.
Qed.

Lemma _search_loop_not_ValueError (max_evals : Z) (budget : nat) :
  raises_only not_ValueError
    (DMBSMPI._search_loop opt_ask opt_tell opt_Xi run_function cfg
                          budget max_evals).
Proof.
  induction budget as [|budget IH]; cbn [DMBSMPI._search_loop]; rais;
    unfold History.value, DMBSMPI.opt_Xi_len, DMBSMPI.tell; rais;
    first [ apply recv_any_not_ValueError | apply cycle_not_ValueError
          | apply propagate_not_ValueError | exact IH ].
Qed.

Lemma _search_not_ValueError (budget : nat) (max_evals : Z) (timeout : pyobj) :
  raises_only not_ValueError
    (DMBSMPI._search opt_new opt_ask opt_tell opt_Xi run_function cfg
                     budget max_evals timeout).
Proof.
  unfold DMBSMPI._search, DMBSMPI._setup_optimizer. rais;
    first [ apply cycle_not_ValueError | apply propagate_not_ValueError
          | apply _search_loop_not_ValueError ].
Qed.

End Validation.

Section TimeoutValidation.

Variable opt_state : Type.
Variable opt_new : opt_state.
Variable opt_ask : opt_state -> point * opt_state.
Variable opt_tell : opt_state -> list point -> list objective -> opt_state.
Variable opt_Xi : opt_state -> list point.
Variable run_function : nat -> dict pyobj -> run_result.
Variable lib : library.
Variable cfg : DMBSMPI.Config.

(** What the [try] statement of [search] leaves: an exception that is not
    [ValueError], or a state in which the evaluation function was called. *)
Lemma try_search_outcome (budget : nat) (max_evals : Z) (timeout : pyobj)
  (s : DMBSMPI.State opt_state) (r : result unit)
  (s' : DMBSMPI.State opt_state) :
  DMBSMPI.catch
    (DMBSMPI._search opt_new opt_ask opt_tell opt_Xi run_function cfg
                     budget max_evals timeout)
    (fun e => match e with
              | SearchTerminationError => Some (DMBSMPI.send_all_termination cfg)
              | _ => None
              end) s = Some (r, s') ->
  match r with
  | Ok _ => (List.length (DMBSMPI.evals s) < List.length (DMBSMPI.evals s'))%nat
  | Raise e => not_ValueError e
  end.
Proof.
  unfold DMBSMPI.catch. intros H.
  destruct (DMBSMPI._search _ _ _ _ _ _ _ _ _ s) as [[[[]|e] s1]|] eqn:Es;
    [| |discriminate].
  - injection H as <- <-.
    apply (_search_evaluates _ _ _ _ _ _ _ _ _ _ _ _ _ Es).
    intros e He. discriminate.
  - destruct e;
      try (injection H as <- <-;
           apply (_search_not_ValueError _ _ _ _ _ _ _ _ _ _ _ _ _ Es)).
    unfold DMBSMPI.send_all_termination, DMBSMPI.modify in H.
    injection H as <- <-. cbn [DMBSMPI.evals DMBSMPI.set_outbox].
    apply (_search_evaluates _ _ _ _ _ _ _ _ _ _ _ _ _ Es).
    intros e He. now injection He as <-.
Qed.

(** C9.  A timeout that is given and is not a positive integer makes
    [search] raise [ValueError] at once: the state is the one [search] was
    called in, so that nothing was evaluated, sent or recorded.  With the
    timeout [None] there is no such error: the only [ValueError] that
    [search] raises then is the one of the final table, after the evaluation
    function was called. *)
Theorem search_timeout_validation (budget : nat) (max_evals : Z)
  (timeout : pyobj) (s : DMBSMPI.State opt_state) :
  (invalid_timeout timeout ->
   DMBSMPI.search opt_new opt_ask opt_tell opt_Xi run_function lib cfg
                  budget max_evals timeout s
   = Some (Raise ValueError, s))
  /\ (forall s' : DMBSMPI.State opt_state,
        DMBSMPI.search opt_new opt_ask opt_tell opt_Xi run_function lib cfg
                       budget max_evals VNone s
        = Some (Raise ValueError, s') ->
        DMBSMPI.gather_results_of lib cfg (DMBSMPI._history s') = Raise ValueError
        /\ (List.length (DMBSMPI.evals s)
            < List.length (DMBSMPI.evals s'))%nat).
Proof.
  split.
  - intros Hinv. unfold DMBSMPI.search. unfold DMBSMPI.bind at 1.
    destruct timeout as [z| | | |]; cbn [invalid_timeout] in Hinv;
      try contradiction; try reflexivity.
    cbn [DMBSMPI.is_not_None DMBSMPI.type_is_not_int DMBSMPI.le_zero].
    apply Z.leb_le in Hinv. now rewrite Hinv.
  - intros s' H. unfold DMBSMPI.search in H.
    unfold DMBSMPI.bind at 1 in H.
    cbn [DMBSMPI.is_not_None DMBSMPI.ret] in H.
    unfold DMBSMPI.bind at 1 in H.
    cbn [DMBSMPI._set_timeout DMBSMPI.ret] in H.
    unfold DMBSMPI.bind at 1 in H.
    destruct (DMBSMPI.catch _ _ s) as [[[[]|e] s3]|] eqn:Ec; [| |discriminate].
    + apply try_search_outcome in Ec.
      destruct (Nat.eqb (DMBSMPI._rank cfg) 0); [|discriminate].
      unfold DMBSMPI.bind at 1 in H.
      destruct (DMBSMPI.recv_any cfg s3) as [[[[]|e] s4]|] eqn:Er;
        [| |discriminate].
      * assert (Hle : (List.length (DMBSMPI.evals s3)
                       <= List.length (DMBSMPI.evals s4))%nat).
        { apply (Steps_evals_length _ cfg).
          apply (recv_any_Steps opt_state cfg (fun _ => True) s3 _ s4 Er).
          intros e He. exact I. }
        unfold DMBSMPI.bind at 1 in H.
        unfold DMBSMPI.gather_results, DMBSMPI.bind at 1, DMBSMPI.get,
          DMBSMPI.lift in H.
        destruct (DMBSMPI.gather_results_of lib cfg (DMBSMPI._history s4))
          as [table|e] eqn:Eg; [discriminate|].
        injection H as -> <-. split; [exact Eg | lia].
      * injection H as -> <-.
        now apply (recv_any_not_ValueError opt_state cfg) in Er.
    + injection H as -> <-. now apply try_search_outcome in Ec.
Qed.

End TimeoutValidation.

Lemma search_timeout_validation_witness :
  example_search example_single_cfg 5 3 (VInt 0) example_fresh
  = Some (Raise ValueError, example_fresh)
  /\ example_search example_single_cfg 5 3 (VFloat (3 # 2)) example_fresh
     = Some (Raise ValueError, example_fresh)
  /\ example_search example_single_cfg 5 3 (VInt (-4)) example_fresh
     = Some (Raise ValueError, example_fresh)
  /\ exists s' : DMBSMPI.State (list point),
       example_search example_cfg 5 1 VNone example_ragged_state
       = Some (Raise ValueError, s')
       /\ DMBSMPI.gather_results_of example_lib example_cfg (DMBSMPI._history s')
          = Raise ValueError
       /\ (List.length (DMBSMPI.evals example_ragged_state)
           < List.length (DMBSMPI.evals s'))%nat.
Proof.
  split; [|split; [|split]];
    try (apply (fun t H =>
                  proj1 (search_timeout_validation _ [] example_ask
                           example_tell (fun Xi => Xi) example_run example_lib
                           example_single_cfg 5 3 t example_fresh) H);
         simpl; try lia; exact I).
  eexists. split; [vm_compute; reflexivity|].
  apply (proj2 (search_timeout_validation _ [] example_ask example_tell
                  (fun Xi => Xi) example_run example_lib example_cfg 5 1 VNone
                  example_ragged_state)).
  vm_compute. reflexivity.
Defined.

(** ** Rules for [always] *)

Section Always.

Variable opt_state : Type.
Variable R : DMBSMPI.State opt_state -> DMBSMPI.State opt_state -> Prop.
Hypothesis R_refl : forall s, R s s.
Hypothesis R_trans : forall s1 s2 s3, R s1 s2 -> R s2 s3 -> R s1 s3.

Lemma always_ret (A : Type) (a : A) : always R (@DMBSMPI.ret opt_state A a).
Proof. intros s. exists (Ok a), s. now split. Qed.

Lemma always_raise (A : Type) (e : exn) :
  always R (@DMBSMPI.raise opt_state A e).
Proof. intros s. exists (Raise e), s. now split. Qed.

Lemma always_lift (A : Type) (r : result A) :
  always R (@DMBSMPI.lift opt_state A r).
Proof. intros s. exists r, s. now split. Qed.

Lemma always_get : always R (@DMBSMPI.get opt_state).
Proof. intros s. exists (Ok s), s. now split. Qed.

Lemma always_modify (f : DMBSMPI.State opt_state -> DMBSMPI.State opt_state) :
  (forall s, R s (f s)) -> always R (DMBSMPI.modify f).
Proof. intros Hf s. exists (Ok tt), (f s). now split. Qed.

Lemma always_bind (A B : Type) (m : DMBSMPI.M opt_state A)
  (k : A -> DMBSMPI.M opt_state B) :
  always R m -> (forall a, always R (k a)) -> always R (DMBSMPI.bind m k).
Proof.
  intros Hm Hk s. destruct (Hm s) as (r & s1 & Em & H1).
  unfold DMBSMPI.bind. rewrite Em. destruct r as [a|e].
  - destruct (Hk a s1) as (r' & s' & Ek & H2).
    exists r', s'. split; [exact Ek | now apply R_trans with s1].
  - exists (Raise e), s1. now split.
Qed.

Lemma always_foldM (A B : Type) (f : B -> A -> DMBSMPI.M opt_state B)
  (l : list A) :
  (forall b a, always R (f b a)) -> forall b, always R (DMBSMPI.foldM f l b).
Proof.
  intros Hf. induction l as [|a l IH]; intros b; cbn [DMBSMPI.foldM].
  - apply always_ret.
  - apply always_bind; [apply Hf | intros b'; apply IH].
Qed.

End Always.

Section FirstCycle.

Variable opt_state : Type.
Variable opt_new : opt_state.
Variable opt_ask : opt_state -> point * opt_state.
Variable opt_tell : opt_state -> list point -> list objective -> opt_state.
Variable opt_Xi : opt_state -> list point.
Variable run_function : nat -> dict pyobj -> run_result.
Variable lib : library.
Variable cfg : DMBSMPI.Config.

Lemma Received_refl (s : DMBSMPI.State opt_state) : Received cfg s s.
Proof. split; [reflexivity|]. exists []. now rewrite app_nil_r. Qed.

Lemma Received_trans (s1 s2 s3 : DMBSMPI.State opt_state) :
  Received cfg s1 s2 -> Received cfg s2 s3 -> Received cfg s1 s3.
Proof.
  intros (He1 & ys1 & Hy1 & Hs1) (He2 & ys2 & Hy2 & Hs2).
  split; [congruence|]. exists (ys1 ++ ys2). split.
  - now rewrite Hy2, Hy1, app_assoc.
  - intros Hsize. now rewrite (Hs1 Hsize), (Hs2 Hsize).
Qed.

Lemma Received_unchanged (s s' : DMBSMPI.State opt_state) :
  DMBSMPI.evals s' = DMBSMPI.evals s ->
  History._list_y (DMBSMPI._history s') = History._list_y (DMBSMPI._history s) ->
  Received cfg s s'.
Proof.
  intros He Hy. split; [exact He|]. exists []. now rewrite app_nil_r.
Qed.

Ltac alw :=
  repeat
    match goal with
    | |- always _ (DMBSMPI.bind _ _) =>
        apply always_bind; [exact Received_trans | | intros]
    | |- always _ (DMBSMPI.ret _) => apply always_ret; exact Received_refl
    | |- always _ (DMBSMPI.raise _) => apply always_raise; exact Received_refl
    | |- always _ (DMBSMPI.lift _) => apply always_lift; exact Received_refl
    | |- always _ (@DMBSMPI.get _) => apply always_get; exact Received_refl
    | |- always _ (DMBSMPI.modify _) =>
        apply always_modify; intros; apply Received_unchanged; reflexivity
    | |- always _ (if ?b then _ else _) => destruct b
    | |- always _ (match ?x with _ => _ end) => destruct x
    end.

Lemma recv_any_Received :
  always (Received cfg) (@DMBSMPI.recv_any opt_state cfg).
Proof.
  unfold DMBSMPI.recv_any.
  destruct (1 <? DMBSMPI._size cfg)%nat eqn:Es; alw.
  apply Nat.ltb_lt in Es.
  match goal with |- always _ (DMBSMPI.recv_loop _ ?l) => generalize l end.
  intros passes. induction passes as [|p rest IH]; cbn [DMBSMPI.recv_loop]; alw.
  - unfold DMBSMPI.recv_pass.
    apply always_foldM; [exact Received_refl | exact Received_trans |].
    intros b t. unfold DMBSMPI.recv_req.
    destruct t as [data|]; alw.
    apply always_modify. intros s1. split; [reflexivity|].
    match goal with
    | |- context [History.append _ _ ?y _] => exists [y]
    end.
    split; [reflexivity | lia].
  - exact IH.
Qed.

(** What follows the [try] statement in [search]. *)
Lemma search_tail_Received :
  always (Received cfg)
    (if Nat.eqb (DMBSMPI._rank cfg) 0
     then DMBSMPI.bind (@DMBSMPI.recv_any opt_state cfg)
            (fun _ => DMBSMPI.bind (DMBSMPI.gather_results lib cfg)
               (fun results =>
                  DMBSMPI.bind
                    (DMBSMPI.modify (DMBSMPI.set_results_csv (Some results)))
                    (fun _ => DMBSMPI.ret (Some results))))
     else DMBSMPI.ret None).
Proof.
  unfold DMBSMPI.gather_results. alw. apply recv_any_Received.
Qed.

(** C10.  The coordinator runs one ask-evaluate-record cycle before it looks
    at [max_evals]: the stop condition is first checked by the loop that
    follows the cycle and its communication step.  So with [max_evals = 0],
    when the point that is asked has a name for each of its values and the
    evaluation function reports a number [y], [_search] ends having called
    the evaluation function once and appended that one record to the
    History; and [search], called without timeout, ends having called the
    evaluation function once, with [-y] stored in the History, followed by
    the objectives of the records received from peers, if there are peers. *)
Theorem search_first_cycle_before_stop_check
  (budget : nat) (s : DMBSMPI.State opt_state)
  (o' : opt_state) (x : point) (args : dict pyobj) (y : num) :
  opt_ask (match DMBSMPI._opt s with Some o => o | None => opt_new end)
  = (x, o') ->
  DMBSMPI.to_dict cfg x = Ok args ->
  reported (run_function (List.length (DMBSMPI.evals s)) args) = Some y ->
  (forall (max_evals : Z) (timeout : pyobj) (infos : list pyobj)
          (s1 s2 : DMBSMPI.State opt_state),
      DMBSMPI.cycle opt_ask run_function cfg true
        (match DMBSMPI._opt s with
         | Some _ => s
         | None => DMBSMPI.set_opt (Some opt_new) s
         end)
      = Some (Ok (x, num_neg y, infos), s1) ->
      DMBSMPI.propagate cfg x (num_neg y) infos s1 = Some (Ok tt, s2) ->
      DMBSMPI._search opt_new opt_ask opt_tell opt_Xi run_function cfg
                      budget max_evals timeout s
      = DMBSMPI._search_loop opt_ask opt_tell opt_Xi run_function cfg
                             budget max_evals s2)
  /\ (forall timeout : pyobj,
      exists (res : result unit) (s' : DMBSMPI.State opt_state),
        DMBSMPI._search opt_new opt_ask opt_tell opt_Xi run_function cfg
                        budget 0 timeout s
        = Some (res, s')
        /\ DMBSMPI.evals s'
           = DMBSMPI.evals s
             ++ [(args, run_function (List.length (DMBSMPI.evals s)) args)]
        /\ History._list_x (DMBSMPI._history s')
           = History._list_x (DMBSMPI._history s) ++ [x]
        /\ History._list_y (DMBSMPI._history s')
           = History._list_y (DMBSMPI._history s) ++ [num_neg y]
        /\ History.length (DMBSMPI._history s')
           = History.length (DMBSMPI._history s) + 1
        /\ (DMBSMPI._sync_communication cfg = false -> res = Ok tt))
  /\ exists (r : result (option DataFrame)) (s' : DMBSMPI.State opt_state)
            (ys : list objective),
       DMBSMPI.search opt_new opt_ask opt_tell opt_Xi run_function lib cfg
                      budget 0 VNone s
       = Some (r, s')
       /\ DMBSMPI.evals s'
          = DMBSMPI.evals s
            ++ [(args, run_function (List.length (DMBSMPI.evals s)) args)]
       /\ History._list_y (DMBSMPI._history s')
          = History._list_y (DMBSMPI._history s) ++ num_neg y :: ys
       /\ ((DMBSMPI._size cfg <= 1)%nat -> ys = []).
Proof.
  intros Hask Hdict Hrep.
  split; [|split].
  - intros max_evals timeout infos s1 s2 Hc Hp.
    destruct (_search_first_cycle opt_state opt_new opt_ask opt_tell opt_Xi
                run_function cfg budget timeout s o' x args y Hask Hdict Hrep)
      as [Horder _].
    now apply (Horder max_evals infos _ s1 s2 eq_refl).
  - intros timeout.
    destruct (_search_first_cycle opt_state opt_new opt_ask opt_tell opt_Xi
                run_function cfg budget timeout s o' x args y Hask Hdict Hrep)
      as [_ Hzero].
    exact Hzero.
  - destruct (_search_first_cycle opt_state opt_new opt_ask opt_tell opt_Xi
                run_function cfg budget VNone s o' x args y Hask Hdict Hrep)
      as [_ (res & s1 & Es & He & _ & Hy & _)].
    unfold DMBSMPI.search. unfold DMBSMPI.bind at 1.
    cbn [DMBSMPI.is_not_None DMBSMPI.ret].
    unfold DMBSMPI.bind at 1. cbn [DMBSMPI._set_timeout DMBSMPI.ret].
    unfold DMBSMPI.bind at 1. unfold DMBSMPI.catch. rewrite Es.
    assert (Htail : forall s2 : DMBSMPI.State opt_state,
               Received cfg s1 s2 ->
               exists r s' ys,
                 (if Nat.eqb (DMBSMPI._rank cfg) 0
                  then DMBSMPI.bind (@DMBSMPI.recv_any opt_state cfg)
                         (fun _ => DMBSMPI.bind (DMBSMPI.gather_results lib cfg)
                            (fun results =>
                               DMBSMPI.bind
                                 (DMBSMPI.modify
                                    (DMBSMPI.set_results_csv (Some results)))
                                 (fun _ => DMBSMPI.ret (Some results))))
                  else DMBSMPI.ret None) s2 = Some (r, s')
                 /\ DMBSMPI.evals s'
                    = DMBSMPI.evals s
                      ++ [(args,
                           run_function (List.length (DMBSMPI.evals s)) args)]
                 /\ History._list_y (DMBSMPI._history s')
                    = History._list_y (DMBSMPI._history s) ++ num_neg y :: ys
                 /\ ((DMBSMPI._size cfg <= 1)%nat -> ys = [])).
    { intros s2 H12.
      destruct (search_tail_Received s2) as (r & s' & Et & H2).
      destruct (Received_trans _ _ _ H12 H2) as (He' & ys & Hy' & Hs).
      exists r, s', ys. split; [exact Et|]. split; [congruence|].
      split; [|exact Hs]. rewrite Hy', Hy, <- app_assoc. reflexivity. }
    destruct res as [[]|e].
    + apply Htail. apply Received_refl.
    + assert (Hraise : forall e0 : exn,
                 exists r s' ys,
                   Some (@Raise (option DataFrame) e0, s1) = Some (r, s')
                   /\ DMBSMPI.evals s'
                      = DMBSMPI.evals s
                        ++ [(args,
                             run_function (List.length (DMBSMPI.evals s)) args)]
                   /\ History._list_y (DMBSMPI._history s')
                      = History._list_y (DMBSMPI._history s) ++ num_neg y :: ys
                   /\ ((DMBSMPI._size cfg <= 1)%nat -> ys = [])).
      { intros e0. exists (Raise e0), s1, []. now repeat split. }
      destruct e; try apply Hraise.
      cbn [DMBSMPI.send_all_termination DMBSMPI.modify].
      apply Htail. now apply Received_unchanged.
Qed.

End FirstCycle.

Lemma search_first_cycle_before_stop_check_witness :
  exists (r : result (option DataFrame)) (s' : DMBSMPI.State (list point)),
    example_search example_single_cfg 5 0 VNone example_fresh = Some (r, s')
    /\ DMBSMPI.evals s' = [([("x0"%string, VInt 0)], RNum (NInt 0))]
    /\ History._list_y (DMBSMPI._history s') = [NInt 0].
Proof.
  destruct (search_first_cycle_before_stop_check _ [] example_ask example_tell
              (fun Xi => Xi) example_run example_lib example_single_cfg 5
              example_fresh [] [VInt 0] [("x0"%string, VInt 0)] (NInt 0)
              eq_refl eq_refl eq_refl)
    as (_ & _ & r & s' & ys & Hs & He & Hy & Hys).
  exists r, s'. split; [exact Hs|]. split; [exact He|].
  rewrite Hy, Hys; [reflexivity | simpl; lia].
Defined.

(** * Further properties of the History buffer *)

Lemma apply_op_grows (h : History.t) (o : history_op) :
  History._list_x (apply_op h o) = History._list_x h ++ op_xs o
  /\ History._list_y (apply_op h o) = History._list_y h ++ op_ys o
  /\ History._list_infos (apply_op h o) = History._list_infos h ++ op_rows o
  /\ History._keys_infos (apply_op h o) = History._keys_infos h ++ op_keys o
  /\ len (op_xs o) = op_points o.
Proof.
  destruct o as [x y infos | x y infos | k |]; cbn;
    rewrite ?app_nil_r; now repeat split.
Qed.

(** X1.  The History is append-only: whatever sequence of [append],
    [extend], [append_keys_infos] and [reset_buffer] calls is made, the
    History holds, after what it held before, the points, the objectives,
    the info rows and the info keys of the calls, in the order of the calls
    and nothing else; its length has grown by the number of points given to
    the calls. *)
Theorem history_append_only (ops : list history_op) (h : History.t) :
  History._list_x (apply_ops h ops) = History._list_x h ++ flat_map op_xs ops
  /\ History._list_y (apply_ops h ops)
     = History._list_y h ++ flat_map op_ys ops
  /\ History._list_infos (apply_ops h ops)
     = History._list_infos h ++ flat_map op_rows ops
  /\ History._keys_infos (apply_ops h ops)
     = History._keys_infos h ++ flat_map op_keys ops
  /\ History.value (apply_ops h ops)
     = (fst (History.value h) ++ flat_map op_xs ops,
        snd (History.value h) ++ flat_map op_ys ops)
  /\ History.length (apply_ops h ops)
     = History.length h + fold_right Z.add 0 (map op_points ops).
Proof.
  revert h. induction ops as [|o ops IH]; intros h.
  - unfold apply_ops, History.value, History.length.
    cbn [fold_left fst snd flat_map map fold_right]. rewrite !app_nil_r.
    repeat split. lia.
  - destruct (apply_op_grows h o) as (Hx1 & Hy1 & Hr1 & Hk1 & Hn1).
    destruct (IH (apply_op h o)) as (Hx2 & Hy2 & Hr2 & Hk2 & _ & Hl2).
    change (apply_ops h (o :: ops)) with (apply_ops (apply_op h o) ops).
    cbn [flat_map map fold_right].
    unfold History.value. rewrite Hx2, Hy2, Hr2, Hk2, Hl2.
    rewrite Hx1, Hy1, Hr1, Hk1, <- !app_assoc. cbn [fst snd].
    repeat split.
    unfold History.length. rewrite Hx1. unfold len in *.
    rewrite length_app. lia.
Qed.

Lemma apply_ops_app (h : History.t) (ops1 ops2 : list history_op) :
  apply_ops h (ops1 ++ ops2) = apply_ops (apply_ops h ops1) ops2.
Proof. unfold apply_ops. apply fold_left_app. Qed.

Lemma apply_op_buffered (h : History.t) (o : history_op) :
  is_reset o = false ->
  History.n_buffered (apply_op h o) = History.n_buffered h + op_points o
  /\ History.length (apply_op h o) = History.length h + op_points o.
Proof.
  unfold History.length, len.
  destruct o as [x y infos | x y infos | k |]; cbn [is_reset]; intros H;
    try discriminate;
    unfold apply_op, History.extend;
    cbn [History.n_buffered History._list_x History.append
         History.append_keys_infos op_points];
    rewrite ?length_app, ?Nat2Z.inj_add; cbn [List.length]; unfold len;
    split; lia.
Qed.

(** X2.  [n_buffered] counts the points added since the last
    [reset_buffer]: after a reset and any calls of [append], [extend] and
    [append_keys_infos], it is the number of points by which the History has
    grown, one per [append] and [len(x)] per [extend]. *)
Theorem n_buffered_counts_since_reset (ops : list history_op) (h : History.t) :
  forallb (fun o => negb (is_reset o)) ops = true ->
  let h' := apply_ops (History.reset_buffer h) ops in
  History.n_buffered h' = History.length h' - History.length h
  /\ History.n_buffered h' = fold_right Z.add 0 (map op_points ops)
  /\ History.n_buffered (History.reset_buffer h') = 0.
Proof.
  intros Hops. cbn zeta.
  assert (Hgen : forall h0 : History.t,
             History.n_buffered (apply_ops h0 ops)
             = History.n_buffered h0 + fold_right Z.add 0 (map op_points ops)
             /\ History.length (apply_ops h0 ops)
                = History.length h0 + fold_right Z.add 0 (map op_points ops)).
  { induction ops as [|o ops IH]; intros h0.
    - cbn. lia.
    - cbn [forallb] in Hops. apply andb_prop in Hops. destruct Hops as [Ho Hops].
      apply negb_true_iff in Ho.
      change (apply_ops h0 (o :: ops)) with (apply_ops (apply_op h0 o) ops).
      destruct (IH Hops (apply_op h0 o)) as [Hn Hl].
      destruct (apply_op_buffered h0 o Ho) as [Hn1 Hl1].
      rewrite Hn, Hl, Hn1, Hl1. cbn [map fold_right]. lia. }
  destruct (Hgen (History.reset_buffer h)) as [Hn Hl].
  rewrite Hn, Hl. cbn [History.reset_buffer History.n_buffered].
  unfold History.length. cbn [History._list_x History.reset_buffer].
  repeat split; lia.
Qed.

Lemma n_buffered_counts_since_reset_witness :
  let h := History.append History.init [VInt 9] (NFloat (1 # 1)) [VInt 0] in
  let h' := apply_ops (History.reset_buffer h)
              [OpAppend [VInt 1] (NFloat (2 # 1)) [VInt 0];
               OpKeys ["worker_rank"%string];
               OpExtend [[VInt 2]; [VInt 3]] [NFloat (3 # 1); NFloat (4 # 1)]
                        [("worker_rank"%string, [VInt 1; VInt 1])]] in
  History.n_buffered h' = 3 /\ History.length h' = 4.
Proof.
  cbn zeta.
  destruct (n_buffered_counts_since_reset
              [OpAppend [VInt 1] (NFloat (2 # 1)) [VInt 0];
               OpKeys ["worker_rank"%string];
               OpExtend [[VInt 2]; [VInt 3]] [NFloat (3 # 1); NFloat (4 # 1)]
                        [("worker_rank"%string, [VInt 1; VInt 1])]]
              (History.append History.init [VInt 9] (NFloat (1 # 1)) [VInt 0])
              eq_refl) as (_ & Hn & _).
  split; [exact Hn | reflexivity].
Defined.

Lemma dict_values_bulk_infos (keys : list string) (rows : list (list pyobj)) :
  dict_values (bulk_infos keys rows) = columns (List.length keys) rows.
Proof.
  unfold dict_values, bulk_infos. apply map_snd_combine.
  now rewrite columns_length.
Qed.

Lemma rectangular_app (n : nat) (rows1 rows2 : list (list pyobj)) :
  rectangular n rows1 -> rectangular n rows2 -> rectangular n (rows1 ++ rows2).
Proof. intros H1 H2. apply Forall_app. now split. Qed.

(** X3.  Two [extend] calls in a row, with info rows given column by column
    under the same keys, leave the History that one [extend] call with the
    concatenated points, objectives and info rows leaves. *)
Theorem extend_extend (keys : list string) (h : History.t)
  (xs1 xs2 : list point) (ys1 ys2 : list objective)
  (rows1 rows2 : list (list pyobj)) :
  rectangular (List.length keys) rows1 ->
  rectangular (List.length keys) rows2 ->
  (h1 <- History.extend h xs1 ys1 (bulk_infos keys rows1) ;;
   History.extend h1 xs2 ys2 (bulk_infos keys rows2))%result
  = History.extend h (xs1 ++ xs2) (ys1 ++ ys2)
                   (bulk_infos keys (rows1 ++ rows2)).
Proof.
  intros H1 H2. unfold History.extend. cbn [rbind].
  rewrite !dict_values_bulk_infos.
  rewrite (tolist_T_columns _ _ H1), (tolist_T_columns _ _ H2),
    (tolist_T_columns _ _ (rectangular_app _ _ _ H1 H2)).
  cbn [History._list_x History._list_y History._keys_infos
       History._list_infos History.n_buffered].
  f_equal. f_equal.
  - now rewrite app_assoc.
  - now rewrite app_assoc.
  - destruct (List.length keys); [now rewrite !app_nil_r | now rewrite app_assoc].
  - unfold len. rewrite length_app. lia.
Qed.

Lemma extend_extend_witness :
  (h1 <- History.extend History.init [[VInt 1]] [NFloat (1 # 1)]
           (bulk_infos ["worker_rank"%string] [[VInt 0]]) ;;
   History.extend h1 [[VInt 2]; [VInt 3]] [NFloat (2 # 1); NFloat (3 # 1)]
     (bulk_infos ["worker_rank"%string] [[VInt 1]; [VInt 1]]))%result
  = Ok (History.mk [[VInt 1]; [VInt 2]; [VInt 3]] [NFloat (1 # 1); NFloat (2 # 1); NFloat (3 # 1)] []
                   [[VInt 0]; [VInt 1]; [VInt 1]] 3).
Proof.
  rewrite (extend_extend ["worker_rank"%string] History.init
             [[VInt 1]] [[VInt 2]; [VInt 3]] [NFloat (1 # 1)] [NFloat (2 # 1); NFloat (3 # 1)]
             [[VInt 0]] [[VInt 1]; [VInt 1]]).
  - reflexivity.
  - repeat constructor.
  - repeat constructor.
Defined.

Lemma dict_get_app (V : Type) (d e : dict V) (k : string) :
  dict_get (d ++ e) k
  = match dict_get d k with Some v => Some v | None => dict_get e k end.
Proof.
  induction d as [|[k' v'] d IH]; cbn [app dict_get]; [reflexivity|].
  now destruct (String.eqb k' k).
Qed.

Lemma dict_set_fresh (V : Type) (d : dict V) (k : string) (v : V) :
  dict_get d k = None -> dict_set d k v = d ++ [(k, v)].
Proof.
  induction d as [|[k' v'] d IH]; cbn [dict_get dict_set app]; [reflexivity|].
  destruct (String.eqb k' k); [discriminate|].
  intros H. now rewrite IH.
Qed.

Lemma dict_get_None_iff (V : Type) (d : dict V) (k : string) :
  dict_get d k = None <-> ~ In k (dict_keys d).
Proof.
  induction d as [|[k' v'] d IH]; cbn [dict_get dict_keys map In fst].
  - tauto.
  - destruct (String.eqb k' k) eqn:E.
    + apply String.eqb_eq in E. split; [discriminate | tauto].
    + apply String.eqb_neq in E. unfold dict_keys in IH. tauto.
Qed.

(** Setting fresh and distinct keys one by one appends the items. *)
Lemma dict_update_fresh (V : Type) (items d : dict V) :
  NoDup (dict_keys items) ->
  (forall k, In k (dict_keys items) -> ~ In k (dict_keys d)) ->
  dict_update d items = d ++ items.
Proof.
  unfold dict_update. revert d.
  induction items as [|[k v] items IH]; intros d Hnd Hfresh; cbn [fold_left].
  - now rewrite app_nil_r.
  - cbn [fst snd]. inversion Hnd as [|k0 ks Hk Hnd']; subst.
    rewrite dict_set_fresh
      by (apply dict_get_None_iff; apply Hfresh; now left).
    rewrite IH; [now rewrite <- app_assoc | exact Hnd' |].
    intros k' Hin. unfold dict_keys. rewrite map_app, in_app_iff.
    cbn [map fst In]. intros [Hd | [<- | []]].
    + apply (Hfresh k'); [now right | exact Hd].
    + now apply Hk.
Qed.

Lemma dict_of_items_nodup (V : Type) (items : dict V) :
  NoDup (dict_keys items) -> dict_of_items items = items.
Proof.
  intros Hnd. change (dict_of_items items) with (dict_update [] items).
  now rewrite dict_update_fresh.
Qed.

Lemma dict_get_combine (V : Type) (keys : list string) (vals : list V)
  (j : nat) (key : string) :
  NoDup keys -> List.length keys = List.length vals ->
  nth_error keys j = Some key ->
  dict_get (combine keys vals) key = nth_error vals j.
Proof.
  revert vals j. induction keys as [|k keys IH]; intros vals j Hnd Hlen Hj.
  - now destruct j.
  - destruct vals as [|v vals]; [discriminate|].
    inversion Hnd as [|k0 ks Hk Hnd']; subst.
    cbn [combine dict_get]. destruct j as [|j]; cbn [nth_error] in *.
    + injection Hj as ->. now rewrite String.eqb_refl.
    + assert (Hne : k <> key).
      { intros ->. apply Hk. eapply nth_error_In; eassumption. }
      apply String.eqb_neq in Hne. rewrite Hne.
      apply IH; [assumption | now injection Hlen | assumption].
Qed.

Lemma column_map_nth (n j : nat) (rows : list (list pyobj)) :
  rectangular n rows -> (j < n)%nat ->
  column j rows = map (fun r => nth j r VNone) rows.
Proof.
  intros Hrect Hj. induction Hrect as [|r rows Hr _ IH]; [reflexivity|].
  destruct (nth_error r j) as [v|] eqn:E.
  - rewrite (column_cons _ _ _ _ E), IH. cbn [map]. f_equal.
    symmetry. now apply nth_error_nth.
  - apply nth_error_None in E. lia.
Qed.

(** X4.  [infos()] on a History with at least one record, whose info rows
    all have one entry per registered key, the keys being distinct: the
    mapping gives, for each key, the values recorded under that key, one
    per record, in the order of insertion; points and objectives are
    returned whole. *)
Theorem infos_returns_columns (h : History.t) :
  NoDup (History._keys_infos h) ->
  History._list_infos h <> [] ->
  rectangular (List.length (History._keys_infos h)) (History._list_infos h) ->
  exists m : dict (list pyobj),
    History.infos h None
    = Ok (History.InfosAll (History._list_x h, History._list_y h, m))
    /\ dict_keys m = History._keys_infos h
    /\ forall (j : nat) (key : string),
         nth_error (History._keys_infos h) j = Some key ->
         dict_get m key
         = Some (map (fun r => nth j r VNone) (History._list_infos h)).
Proof.
  intros Hnd Hne Hrect.
  set (keys := History._keys_infos h) in *.
  set (rows := History._list_infos h) in *.
  assert (Harr : arr_tolist (arr_T (np_array_O rows))
                 = columns (List.length keys) rows).
  { destruct rows as [|r rows']; [contradiction|].
    unfold np_array_O.
    assert (Hr : List.length r = List.length keys) by (now inversion Hrect).
    rewrite Hr.
    replace (same_length (List.length keys) (r :: rows')) with true
      by (symmetry; now apply same_length_true).
    reflexivity. }
  assert (Hkeys : dict_keys (combine keys (columns (List.length keys) rows))
                  = keys).
  { unfold dict_keys. apply map_fst_combine. now rewrite columns_length. }
  exists (combine keys (columns (List.length keys) rows)).
  split; [|split].
  - unfold History.infos, History.infos_all. fold keys rows.
    rewrite Harr, dict_of_items_nodup; [reflexivity | now rewrite Hkeys].
  - exact Hkeys.
  - intros j key Hj.
    rewrite (dict_get_combine _ keys _ j key Hnd); try assumption.
    + assert (Hlt : (j < List.length keys)%nat).
      { apply nth_error_Some. rewrite Hj. discriminate. }
      rewrite nth_error_columns by assumption.
      now rewrite (column_map_nth (List.length keys)).
    + now rewrite columns_length.
Qed.

Lemma infos_returns_columns_witness :
  let h := History.append
             (History.append
                (History.append_keys_infos History.init
                   ["worker_rank"; "timestamp_start"]%string)
                [VInt 1] (NFloat (-1 # 1)) [VInt 0; VFloat (1 # 2)])
             [VInt 2] (NFloat (-2 # 1)) [VInt 1; VFloat (3 # 2)] in
  exists m : dict (list pyobj),
    History.infos h None
    = Ok (History.InfosAll ([[VInt 1]; [VInt 2]], [NFloat (-1 # 1); NFloat (-2 # 1)], m))
    /\ dict_get m "timestamp_start" = Some [VFloat (1 # 2); VFloat (3 # 2)].
Proof.
  cbn zeta.
  destruct (infos_returns_columns
              (History.append
                 (History.append
                    (History.append_keys_infos History.init
                       ["worker_rank"; "timestamp_start"]%string)
                    [VInt 1] (NFloat (-1 # 1)) [VInt 0; VFloat (1 # 2)])
                 [VInt 2] (NFloat (-2 # 1)) [VInt 1; VFloat (3 # 2)]))
    as (m & Hm & _ & Hget).
  - repeat constructor; simpl; intuition discriminate.
  - discriminate.
  - repeat constructor.
  - exists m. split; [exact Hm|]. exact (Hget 1%nat _ eq_refl).
Defined.

(** * Further properties of the search coordinator *)

Lemma firstn_S_nth_error (A : Type) (l : list A) (i : nat) (a : A) :
  nth_error l i = Some a -> firstn (S i) l = firstn i l ++ [a].
Proof.
  revert i. induction l as [|b l IH]; intros i H.
  - now destruct i.
  - destruct i as [|i]; cbn [nth_error] in H.
    + now injection H as ->.
    + cbn [firstn app]. f_equal. now apply IH.
Qed.

Lemma skipn_nth_error (A : Type) (l : list A) (i : nat) (a : A) :
  nth_error l i = Some a -> skipn i l = a :: skipn (S i) l.
Proof.
  revert i. induction l as [|b l IH]; intros i H.
  - now destruct i.
  - destruct i as [|i]; cbn [nth_error] in H.
    + now injection H as ->.
    + cbn [skipn]. now apply IH.
Qed.

Lemma NoDup_firstn_nth_error (l : list string) (i : nat) (a : string) :
  NoDup l -> nth_error l i = Some a -> ~ In a (firstn i l).
Proof.
  intros Hnd. revert i. induction Hnd as [|b l Hb Hnd IH]; intros i H.
  - now destruct i.
  - destruct i as [|i]; cbn [nth_error firstn] in *; [tauto|].
    intros [-> | Hin].
    + apply Hb. eapply nth_error_In; eassumption.
    + now apply (IH i).
Qed.

Lemma dict_get_combine_trunc (V : Type) (keys : list string) (vals : list V)
  (j : nat) (key : string) :
  NoDup keys -> nth_error keys j = Some key ->
  dict_get (combine keys vals) key = nth_error vals j.
Proof.
  revert vals j. induction keys as [|k keys IH]; intros vals j Hnd Hj.
  - now destruct j.
  - destruct vals as [|v vals]; [now destruct j|].
    inversion Hnd as [|k0 ks Hk Hnd']; subst.
    cbn [combine dict_get]. destruct j as [|j]; cbn [nth_error] in *.
    + injection Hj as ->. now rewrite String.eqb_refl.
    + assert (Hne : k <> key).
      { intros ->. apply Hk. eapply nth_error_In; eassumption. }
      apply String.eqb_neq in Hne. rewrite Hne. now apply IH.
Qed.

Section ToDict.

Variable cfg : DMBSMPI.Config.

Lemma to_dict_from_ok (x : point) :
  NoDup (DMBSMPI.hyperparameter_names cfg) ->
  forall (i : nat) (res : dict pyobj),
    dict_keys res = firstn i (DMBSMPI.hyperparameter_names cfg) ->
    (i + List.length x <= List.length (DMBSMPI.hyperparameter_names cfg))%nat ->
    DMBSMPI.to_dict_from cfg i x res
    = Ok (res ++ combine (skipn i (DMBSMPI.hyperparameter_names cfg)) x).
Proof.
  intros Hnd. induction x as [|xi x IH]; intros i res Hres Hlen;
    cbn [DMBSMPI.to_dict_from].
  - rewrite combine_nil. now rewrite app_nil_r.
  - cbn [List.length] in Hlen.
    destruct (nth_error (DMBSMPI.hyperparameter_names cfg) i) as [name|] eqn:E;
      [|apply nth_error_None in E; lia].
    rewrite dict_set_fresh.
    + rewrite IH.
      * rewrite (skipn_nth_error _ _ _ _ E). cbn [combine].
        now rewrite <- app_assoc.
      * unfold dict_keys in *. rewrite map_app, Hres. cbn [map fst].
        symmetry. now apply firstn_S_nth_error.
      * lia.
    + apply dict_get_None_iff. rewrite Hres.
      now apply NoDup_firstn_nth_error.
Qed.

Lemma to_dict_from_too_long (x : point) :
  forall (i : nat) (res : dict pyobj),
    (i <= List.length (DMBSMPI.hyperparameter_names cfg))%nat ->
    (List.length (DMBSMPI.hyperparameter_names cfg) < i + List.length x)%nat ->
    DMBSMPI.to_dict_from cfg i x res = Raise IndexError.
Proof.
  induction x as [|xi x IH]; intros i res Hi Hlen;
    cbn [DMBSMPI.to_dict_from List.length] in *; [lia|].
  destruct (nth_error (DMBSMPI.hyperparameter_names cfg) i) as [name|] eqn:E;
    [|reflexivity].
  apply IH; [|lia].
  assert (i < List.length (DMBSMPI.hyperparameter_names cfg))%nat; [|lia].
  apply nth_error_Some. rewrite E. discriminate.
Qed.

(** X5.  [to_dict] pairs the values of a point with the hyperparameter
    names, in order: with distinct names and a point that has no more
    values than there are names, the dictionary returned maps the [i]-th
    name to the [i]-th value and has no other key.  A point with more
    values than there are names makes it raise [IndexError]. *)
Theorem to_dict_names_values (x : point) :
  ((List.length x <= List.length (DMBSMPI.hyperparameter_names cfg))%nat ->
   NoDup (DMBSMPI.hyperparameter_names cfg) ->
   DMBSMPI.to_dict cfg x = Ok (combine (DMBSMPI.hyperparameter_names cfg) x)
   /\ forall (i : nat) (name : string),
        nth_error (DMBSMPI.hyperparameter_names cfg) i = Some name ->
        dict_get (combine (DMBSMPI.hyperparameter_names cfg) x) name
        = nth_error x i)
  /\ ((List.length (DMBSMPI.hyperparameter_names cfg) < List.length x)%nat ->
      DMBSMPI.to_dict cfg x = Raise IndexError).
Proof.
  split.
  - intros Hlen Hnd. split.
    + unfold DMBSMPI.to_dict.
      rewrite to_dict_from_ok; [reflexivity | assumption | reflexivity | lia].
    + intros i name Hi. now apply dict_get_combine_trunc.
  - intros Hlen. unfold DMBSMPI.to_dict.
    apply to_dict_from_too_long; simpl; lia.
Qed.

End ToDict.

Lemma to_dict_names_values_witness :
  let cfg := DMBSMPI.mkConfig 0 1 false 10 0%Q ["lr"; "depth"]%string in
  DMBSMPI.to_dict cfg [VFloat (1 # 10); VInt 3]
  = Ok [("lr"%string, VFloat (1 # 10)); ("depth"%string, VInt 3)]
  /\ DMBSMPI.to_dict cfg [VFloat (1 # 10); VInt 3; VInt 4] = Raise IndexError.
Proof.
  cbn zeta. split.
  - apply (proj1 (to_dict_names_values
                    (DMBSMPI.mkConfig 0 1 false 10 0%Q ["lr"; "depth"]%string)
                    [VFloat (1 # 10); VInt 3])).
    + simpl. lia.
    + repeat constructor; simpl; intuition discriminate.
  - apply (proj2 (to_dict_names_values
                    (DMBSMPI.mkConfig 0 1 false 10 0%Q ["lr"; "depth"]%string)
                    [VFloat (1 # 10); VInt 3; VInt 4])).
    simpl. lia.
Defined.

Section Peers.

Variable opt_state : Type.
Variable cfg : DMBSMPI.Config.

Lemma peers_In (i : nat) :
  In i (DMBSMPI.peers cfg)
  <-> (i < DMBSMPI._size cfg)%nat /\ i <> DMBSMPI._rank cfg.
Proof.
  unfold DMBSMPI.peers. rewrite filter_In, in_seq, negb_true_iff, Nat.eqb_neq.
  split; intros [H1 H2]; split; try assumption; lia.
Qed.

Lemma peers_NoDup : NoDup (DMBSMPI.peers cfg).
Proof. unfold DMBSMPI.peers. apply NoDup_filter, seq_NoDup. Qed.

Lemma filter_neq_seq_length (r n a : nat) :
  List.length (filter (fun i => negb (Nat.eqb i r)) (seq a n))
  = if ((a <=? r) && (r <? a + n))%nat then (n - 1)%nat else n.
Proof.
  revert a. induction n as [|n IH]; intros a; cbn [seq filter].
  - cbn [List.length]. now destruct (_ && _).
  - destruct (Nat.eqb_spec a r) as [->|Hne]; cbn [negb List.length];
      rewrite IH.
    + replace ((S r <=? r)%nat) with false by (symmetry; apply Nat.leb_gt; lia).
      replace ((r <=? r)%nat) with true by (symmetry; apply Nat.leb_le; lia).
      replace ((r <? r + S n)%nat) with true by (symmetry; apply Nat.ltb_lt; lia).
      cbn. lia.
    + destruct (Nat.leb_spec (S a) r), (Nat.ltb_spec r (S a + n)),
        (Nat.leb_spec a r), (Nat.ltb_spec r (a + S n)); cbn [andb]; lia.
Qed.

Lemma peers_length :
  (DMBSMPI._rank cfg < DMBSMPI._size cfg)%nat ->
  List.length (DMBSMPI.peers cfg) = (DMBSMPI._size cfg - 1)%nat.
Proof.
  intros Hr. unfold DMBSMPI.peers. rewrite filter_neq_seq_length.
  replace ((DMBSMPI._rank cfg <? 0 + DMBSMPI._size cfg)%nat) with true
    by (symmetry; apply Nat.ltb_lt; lia).
  reflexivity.
Qed.

(** X6.  [send_all] and [send_all_termination] give [comm.isend] exactly
    one message for every rank other than the sender's, in rank order and
    none for the sender itself: the record [(x, y, infos)], or the
    termination code.  On a rank of the communicator these are [size - 1]
    messages.  Neither method touches the History, the evaluations or the
    pending messages. *)
Theorem send_all_one_message_per_peer (s : DMBSMPI.State opt_state)
  (x : point) (y : objective) (infos : list pyobj) :
  let sent (data : payload) (s' : DMBSMPI.State opt_state) :=
    DMBSMPI.outbox s'
    = DMBSMPI.outbox s ++ map (fun i => (i, data)) (DMBSMPI.peers cfg)
    /\ DMBSMPI._history s' = DMBSMPI._history s
    /\ DMBSMPI.evals s' = DMBSMPI.evals s
    /\ DMBSMPI.inbox s' = DMBSMPI.inbox s in
  (exists s', DMBSMPI.send_all cfg x y infos s = Some (Ok tt, s')
              /\ sent (PRecord x y infos) s')
  /\ (exists s', DMBSMPI.send_all_termination cfg s = Some (Ok tt, s')
                 /\ sent (PInt TERMINATION) s')
  /\ NoDup (DMBSMPI.peers cfg)
  /\ (forall i : nat,
        In i (DMBSMPI.peers cfg)
        <-> (i < DMBSMPI._size cfg)%nat /\ i <> DMBSMPI._rank cfg)
  /\ ((DMBSMPI._rank cfg < DMBSMPI._size cfg)%nat ->
      List.length (DMBSMPI.peers cfg) = (DMBSMPI._size cfg - 1)%nat).
Proof.
  cbn zeta. split; [|split; [|split; [|split]]].
  - eexists. split; [reflexivity|]. now repeat split.
  - eexists. split; [reflexivity|]. now repeat split.
  - apply peers_NoDup.
  - apply peers_In.
  - apply peers_length.
Qed.

End Peers.

Lemma send_all_one_message_per_peer_witness :
  List.length (DMBSMPI.peers example_cfg) = 2%nat
  /\ DMBSMPI.peers example_cfg = [1; 2]%nat.
Proof.
  split; [|reflexivity].
  apply (proj2 (proj2 (proj2 (proj2
           (send_all_one_message_per_peer unit example_cfg example_state
              [] (NFloat 0) []))))).
  simpl. lia.
Defined.

(** ** What the methods leave alone *)

Ltac alw_by Hrefl Htrans unch :=
  repeat
    match goal with
    | |- always _ (DMBSMPI.bind _ _) =>
        apply always_bind; [exact Htrans | | intros]
    | |- always _ (DMBSMPI.ret _) => apply always_ret; exact Hrefl
    | |- always _ (DMBSMPI.raise _) => apply always_raise; exact Hrefl
    | |- always _ (DMBSMPI.lift _) => apply always_lift; exact Hrefl
    | |- always _ (@DMBSMPI.get _) => apply always_get; exact Hrefl
    | |- always _ (DMBSMPI.modify _) => apply always_modify; intros; unch
    | |- always _ (if ?b then _ else _) => destruct b
    | |- always _ (match ?x with _ => _ end) => destruct x
    end.

Ltac pres_by Hrefl Htrans unch :=
  repeat
    match goal with
    | |- preserves _ _ (DMBSMPI.bind _ _) =>
        apply preserves_bind; [exact Htrans | | intros]
    | |- preserves _ _ (DMBSMPI.ret _) => apply preserves_ret; exact Hrefl
    | |- preserves _ _ (DMBSMPI.raise _) => apply preserves_raise; exact Hrefl
    | |- preserves _ _ (DMBSMPI.lift _) => apply preserves_lift; exact Hrefl
    | |- preserves _ _ (@DMBSMPI.get _) => apply preserves_get; exact Hrefl
    | |- preserves _ _ (@DMBSMPI.out_of_budget _ _) =>
        apply preserves_out_of_budget
    | |- preserves _ _ (DMBSMPI.modify _) =>
        apply preserves_modify; intros; unch
    | |- preserves _ _ (if ?b then _ else _) => destruct b
    | |- preserves _ _ (match ?x with _ => _ end) => destruct x
    end.

Ltac rais_by tac :=
  repeat
    match goal with
    | |- raises_only _ (DMBSMPI.bind _ _) =>
        apply raises_only_bind; [| intros]
    | |- raises_only _ (DMBSMPI.ret _) => apply raises_only_ret
    | |- raises_only _ (DMBSMPI.raise _) => apply raises_only_raise; tac
    | |- raises_only _ (@DMBSMPI.get _) => apply raises_only_get
    | |- raises_only _ (@DMBSMPI.out_of_budget _ _) =>
        apply raises_only_out_of_budget
    | |- raises_only _ (DMBSMPI.modify _) => apply raises_only_modify
    | |- raises_only _ (DMBSMPI.lift (Ok _)) =>
        apply raises_only_lift; intros; discriminate
    | |- raises_only _ (DMBSMPI.lift (Raise _)) =>
        apply raises_only_lift; intros ? [=]; subst; tac
    | |- raises_only _ (if ?b then _ else _) => destruct b
    | |- raises_only _ (match ?x with _ => _ end) => destruct x
    end.

Section ReceivesOnly.

Variable opt_state : Type.
Variable cfg : DMBSMPI.Config.

Lemma receives_only_refl (s : DMBSMPI.State opt_state) : receives_only s s.
Proof. now repeat split. Qed.

Lemma receives_only_trans (s1 s2 s3 : DMBSMPI.State opt_state) :
  receives_only s1 s2 -> receives_only s2 s3 -> receives_only s1 s3.
Proof.
  unfold receives_only. intros (A1 & B1 & C1 & D1 & E1 & F1)
                               (A2 & B2 & C2 & D2 & E2 & F2).
  repeat split; congruence.
Qed.

Lemma Mono_refl (s : DMBSMPI.State opt_state) : Mono s s.
Proof. split; [reflexivity | lia]. Qed.

Lemma Mono_trans (s1 s2 s3 : DMBSMPI.State opt_state) :
  Mono s1 s2 -> Mono s2 s3 -> Mono s1 s3.
Proof. intros [A1 B1] [A2 B2]. split; [congruence | lia]. Qed.

Ltac mono_step :=
  split; [reflexivity|];
  unfold History.length, len;
  cbn [DMBSMPI._history DMBSMPI.set_history DMBSMPI.set_opt DMBSMPI.set_alarm
       DMBSMPI.set_inbox DMBSMPI.set_gathered DMBSMPI.set_outbox
       DMBSMPI.set_evals DMBSMPI.set_results_csv
       History._list_x History.append History.append_keys_infos
       History.reset_buffer History.extend_float_y];
  rewrite ?length_app; lia.

Lemma recv_loop_receives_only (passes : list pass) :
  always (fun s s' => receives_only s s' /\ Mono s s')
         (@DMBSMPI.recv_loop opt_state cfg passes).
Proof.
  assert (Hrefl : forall s : DMBSMPI.State opt_state,
             receives_only s s /\ Mono s s).
  { intros s. split; [apply receives_only_refl | apply Mono_refl]. }
  assert (Htrans : forall s1 s2 s3 : DMBSMPI.State opt_state,
             receives_only s1 s2 /\ Mono s1 s2 ->
             receives_only s2 s3 /\ Mono s2 s3 ->
             receives_only s1 s3 /\ Mono s1 s3).
  { intros s1 s2 s3 [A1 B1] [A2 B2].
    split; [eapply receives_only_trans | eapply Mono_trans]; eassumption. }
  induction passes as [|p rest IH]; cbn [DMBSMPI.recv_loop];
    alw_by Hrefl Htrans ltac:(split; [now repeat split | mono_step]).
  - unfold DMBSMPI.recv_pass. apply always_foldM; [exact Hrefl | exact Htrans |].
    intros b t. unfold DMBSMPI.recv_req.
    alw_by Hrefl Htrans ltac:(split; [now repeat split | mono_step]).
  - exact IH.
Qed.

Lemma recv_any_TypeError :
  raises_only (fun e => e = TypeError) (@DMBSMPI.recv_any opt_state cfg).
Proof.
  unfold DMBSMPI.recv_any. rais_by ltac:(reflexivity).
  match goal with |- raises_only _ (DMBSMPI.recv_loop _ ?l) => generalize l end.
  intros passes. induction passes as [|p rest IH]; cbn [DMBSMPI.recv_loop];
    rais_by ltac:(reflexivity).
  - unfold DMBSMPI.recv_pass. apply raises_only_foldM.
    intros b t. unfold DMBSMPI.recv_req.
    destruct t as [data|]; rais_by ltac:(reflexivity).
    destruct data; cbn [unpack3]; rais_by ltac:(reflexivity).
  - exact IH.
Qed.

Lemma recv_any_run (s : DMBSMPI.State opt_state) :
  exists (r : result unit) (s' : DMBSMPI.State opt_state),
    DMBSMPI.recv_any cfg s = Some (r, s')
    /\ receives_only s s' /\ Mono s s'
    /\ ((DMBSMPI._size cfg <= 1)%nat -> r = Ok tt /\ s' = s).
Proof.
  unfold DMBSMPI.recv_any.
  destruct (Nat.ltb_spec 1 (DMBSMPI._size cfg)) as [Hs|Hs].
  - unfold DMBSMPI.bind, DMBSMPI.get.
    destruct (recv_loop_receives_only (DMBSMPI.inbox s) s)
      as (r & s' & Hr & Hk & Hm).
    exists r, s'. split; [exact Hr|]. split; [exact Hk|].
    split; [exact Hm|]. intros Hle. exfalso. lia.
  - exists (Ok tt), s. split; [reflexivity|].
    split; [apply receives_only_refl|]. split; [apply Mono_refl|].
    now intros _.
Qed.

Lemma recv_any_always :
  always (fun s s' => receives_only s s' /\ Mono s s')
         (@DMBSMPI.recv_any opt_state cfg).
Proof.
  intros s. destruct (recv_any_run s) as (r & s' & Hr & Hk & Hm & _).
  exists r, s'. split; [exact Hr|]. split; [exact Hk | exact Hm].
Qed.

(** X7.  [recv_any] only receives.  Whenever it ends, it has returned, or
    raised [TypeError] (on a message that is neither the termination code
    nor a tuple); it has called neither the evaluation function nor the
    surrogate model, has sent nothing, has left the alarm, the info keys and
    the table alone, and has taken no point out of the History.  On a
    communicator of a single rank it returns without a change. *)
Theorem recv_any_only_receives (s s' : DMBSMPI.State opt_state)
  (r : result unit) :
  DMBSMPI.recv_any cfg s = Some (r, s') ->
  (r = Ok tt \/ r = Raise TypeError)
  /\ receives_only s s'
  /\ History.length (DMBSMPI._history s)
     <= History.length (DMBSMPI._history s')
  /\ ((DMBSMPI._size cfg <= 1)%nat -> r = Ok tt /\ s' = s).
Proof.
  intros Hr.
  destruct (recv_any_run s) as (r0 & s0 & Hr0 & Hk & [_ Hm] & Hsingle).
  rewrite Hr in Hr0. injection Hr0 as <- <-.
  split; [|split; [exact Hk | split; [exact Hm | exact Hsingle]]].
  destruct r as [[]|e]; [now left | right].
  now rewrite (recv_any_TypeError s e s' Hr).
Qed.

End ReceivesOnly.

Lemma recv_any_only_receives_witness :
  exists s' : DMBSMPI.State unit,
    DMBSMPI.recv_any example_cfg example_state = Some (Ok tt, s')
    /\ receives_only example_state s'
    /\ History._list_x (DMBSMPI._history s') = [[VInt 5]]
    /\ DMBSMPI.inbox s' = [].
Proof.
  eexists. split; [vm_compute; reflexivity|].
  split; [|split; reflexivity].
  apply (recv_any_only_receives unit example_cfg example_state _ (Ok tt)).
  vm_compute. reflexivity.
Defined.

Lemma raises_only_weaken (opt_state A : Type) (P Q : exn -> Prop)
  (m : DMBSMPI.M opt_state A) :
  (forall e, P e -> Q e) -> raises_only P m -> raises_only Q m.
Proof. intros HPQ Hm s e s' H. apply HPQ. exact (Hm s e s' H). Qed.

Lemma hp_columns_raises (names : list string) (x_list : list (list pyobj))
  (e : exn) :
  forall (i : nat) (res : DataFrame),
    DMBSMPI.hp_columns i names x_list res = Raise e -> e = IndexError.
Proof.
  induction names as [|n names IH]; intros i res H; cbn [DMBSMPI.hp_columns] in H.
  - discriminate.
  - destruct (nth_error x_list i); [now apply IH in H | now injection H].
Qed.

(** The exceptions of [gather_results]: [IndexError] of [x_list[i]],
    [TypeError] of the doubled keyword, [ValueError] of [pd.DataFrame]. *)
Lemma np_array_raises (lib : library) (rows : list (list pyobj)) (e : exn) :
  np_array lib rows = Raise e -> e = ValueError.
Proof.
  unfold np_array. destruct (np_array_O rows) as [[|r0 e0]|n rs];
    try discriminate.
  destruct (np_ragged_raises lib); [|discriminate].
  intros H. now injection H.
Qed.

Lemma gather_results_of_raises (lib : library) (cfg : DMBSMPI.Config)
  (h : History.t) (e : exn) :
  DMBSMPI.gather_results_of lib cfg h = Raise e ->
  e = IndexError \/ e = TypeError \/ e = ValueError.
Proof.
  unfold DMBSMPI.gather_results_of, History.infos_all. cbn zeta.
  destruct (np_array lib _) as [a|e0] eqn:Ea; cbn [rbind];
    [|intros H; injection H as <-; apply np_array_raises in Ea; tauto].
  destruct (DMBSMPI.hp_columns _ _ _ _) as [results|e0] eqn:Eh; cbn [rbind].
  - destruct (dict_mem _ _); cbn [rbind].
    + intros H. injection H as <-. tauto.
    + intros H. apply pd_DataFrame_raises in H. tauto.
  - intros H. injection H as <-. apply hp_columns_raises in Eh. tauto.
Qed.

Section Termination.

Variable opt_state : Type.
Variable opt_new : opt_state.
Variable opt_ask : opt_state -> point * opt_state.
Variable opt_tell : opt_state -> list point -> list objective -> opt_state.
Variable opt_Xi : opt_state -> list point.
Variable run_function : nat -> dict pyobj -> run_result.
Variable lib : library.
Variable cfg : DMBSMPI.Config.

Lemma search_tail_not_stops :
  raises_only not_stops
    (if Nat.eqb (DMBSMPI._rank cfg) 0
     then DMBSMPI.bind (@DMBSMPI.recv_any opt_state cfg)
            (fun _ => DMBSMPI.bind (DMBSMPI.gather_results lib cfg)
               (fun results =>
                  DMBSMPI.bind
                    (DMBSMPI.modify (DMBSMPI.set_results_csv (Some results)))
                    (fun _ => DMBSMPI.ret (Some results))))
     else DMBSMPI.ret None).
Proof.
  unfold DMBSMPI.gather_results.
  rais_by ltac:(unfold not_stops; discriminate).
  - apply raises_only_weaken with (P := fun e => e = TypeError);
      [intros e ->; discriminate | apply recv_any_TypeError].
  - apply raises_only_lift. intros e He.
    apply gather_results_of_raises in He.
    destruct He as [-> | [-> | ->]]; discriminate.
Qed.

Lemma search_tail_outbox :
  always (same (@DMBSMPI.outbox opt_state))
    (if Nat.eqb (DMBSMPI._rank cfg) 0
     then DMBSMPI.bind (@DMBSMPI.recv_any opt_state cfg)
            (fun _ => DMBSMPI.bind (DMBSMPI.gather_results lib cfg)
               (fun results =>
                  DMBSMPI.bind
                    (DMBSMPI.modify (DMBSMPI.set_results_csv (Some results)))
                    (fun _ => DMBSMPI.ret (Some results))))
     else DMBSMPI.ret None).
Proof.
  assert (Hrefl : forall s : DMBSMPI.State opt_state,
             same (@DMBSMPI.outbox opt_state) s s) by reflexivity.
  assert (Htrans : forall s1 s2 s3 : DMBSMPI.State opt_state,
             same (@DMBSMPI.outbox opt_state) s1 s2 ->
             same (@DMBSMPI.outbox opt_state) s2 s3 ->
             same (@DMBSMPI.outbox opt_state) s1 s3).
  { unfold same. intros. congruence. }
  unfold DMBSMPI.gather_results.
  alw_by Hrefl Htrans ltac:(reflexivity).
  intros s. destruct (recv_any_always opt_state cfg s)
    as (r & s' & Hr & (_ & Ho & _) & _).
  exists r, s'. now split.
Qed.

(** X8.  The [except] clause of [search].  When the [try] block ends with
    [SearchTerminationError] (the timeout being a positive integer, the
    alarm stops [_search]), [search] catches it: it gives the termination
    code to [comm.isend] once for every other rank, then goes on to the rest
    of the method, which sends nothing more and, the alarm having gone off,
    does not raise [SearchTerminationError]; on a rank other than 0 it
    returns [None]. *)
Theorem search_catches_termination (budget : nat) (max_evals z : Z)
  (s s1 : DMBSMPI.State opt_state) :
  0 < z ->
  DMBSMPI._search opt_new opt_ask opt_tell opt_Xi run_function cfg
                  budget max_evals (VInt z) (DMBSMPI.set_alarm true s)
  = Some (Raise SearchTerminationError, s1) ->
  exists (r : result (option DataFrame)) (s' : DMBSMPI.State opt_state),
    DMBSMPI.search opt_new opt_ask opt_tell opt_Xi run_function lib cfg
                   budget max_evals (VInt z) s = Some (r, s')
    /\ r <> Raise SearchTerminationError
    /\ DMBSMPI.outbox s'
       = DMBSMPI.outbox s1
         ++ map (fun i => (i, PInt TERMINATION)) (DMBSMPI.peers cfg)
    /\ (DMBSMPI._rank cfg <> 0%nat -> r = Ok None).
Proof.
  intros Hz Hs. unfold DMBSMPI.search.
  unfold DMBSMPI.bind at 1.
  cbn [DMBSMPI.is_not_None DMBSMPI.type_is_not_int DMBSMPI.le_zero].
  replace (z <=? 0) with false by (symmetry; apply Z.leb_gt; lia).
  cbn [DMBSMPI.ret]. unfold DMBSMPI.bind at 1.
  cbn [DMBSMPI._set_timeout].
  replace (0 <? z) with true by (symmetry; apply Z.ltb_lt; lia).
  cbn [DMBSMPI.modify]. unfold DMBSMPI.bind at 1. unfold DMBSMPI.catch.
  rewrite Hs. cbn [DMBSMPI.send_all_termination DMBSMPI.modify].
  match goal with
  | |- context [(if _ then _ else _) ?s2] =>
      destruct (search_tail_outbox s2) as (r & s' & Ht & Ho)
  end.
  rewrite Ht. exists r, s'. split; [reflexivity|]. split; [|split].
  - intros ->. now apply search_tail_not_stops in Ht.
  - exact Ho.
  - intros Hrank. apply Nat.eqb_neq in Hrank. rewrite Hrank in Ht.
    unfold DMBSMPI.ret in Ht. now injection Ht as <- _.
Qed.

End Termination.

Lemma search_catches_termination_witness :
  exists (r : result (option DataFrame)) (s' : DMBSMPI.State (list point)),
    example_search example_cfg 2 (-1) (VInt 3) example_fresh = Some (r, s')
    /\ r <> Raise SearchTerminationError
    /\ DMBSMPI.outbox s'
       = [(1%nat, PRecord [VInt 0] (NInt 0) [VInt 0]);
          (2%nat, PRecord [VInt 0] (NInt 0) [VInt 0]);
          (1%nat, PRecord [VInt 1] (NInt (-1)) [VInt 0]);
          (2%nat, PRecord [VInt 1] (NInt (-1)) [VInt 0]);
          (1%nat, PRecord [VInt 2] (NInt (-2)) [VInt 0]);
          (2%nat, PRecord [VInt 2] (NInt (-2)) [VInt 0]);
          (1%nat, PInt TERMINATION); (2%nat, PInt TERMINATION)].
Proof.
  unfold example_search.
  destruct (search_catches_termination (list point) [] example_ask
              example_tell (fun Xi => Xi) example_run example_lib example_cfg
              2 (-1) 3 example_fresh _ eq_refl
              ltac:(vm_compute; reflexivity))
    as (r & s' & Hs & Hr & Ho & _).
  exists r, s'. split; [exact Hs|]. split; [exact Hr|].
  rewrite Ho. reflexivity.
Defined.

Lemma always_preserves (opt_state A : Type) (G : exn -> Prop)
  (R : DMBSMPI.State opt_state -> DMBSMPI.State opt_state -> Prop)
  (m : DMBSMPI.M opt_state A) :
  always R m -> preserves G R m.
Proof.
  intros Hm s r s' H _. destruct (Hm s) as (r0 & s0 & H0 & HR).
  rewrite H in H0. now injection H0 as _ <-.
Qed.

Section RankZero.

Variable opt_state : Type.
Variable opt_new : opt_state.
Variable opt_ask : opt_state -> point * opt_state.
Variable opt_tell : opt_state -> list point -> list objective -> opt_state.
Variable opt_Xi : opt_state -> list point.
Variable run_function : nat -> dict pyobj -> run_result.
Variable lib : library.
Variable cfg : DMBSMPI.Config.

Lemma same_csv_refl (s : DMBSMPI.State opt_state) :
  same (@DMBSMPI.results_csv opt_state) s s.
Proof. reflexivity. Qed.

Lemma same_csv_trans (s1 s2 s3 : DMBSMPI.State opt_state) :
  same (@DMBSMPI.results_csv opt_state) s1 s2 ->
  same (@DMBSMPI.results_csv opt_state) s2 s3 ->
  same (@DMBSMPI.results_csv opt_state) s1 s3.
Proof. unfold same. congruence. Qed.

Ltac csv := pres_by same_csv_refl same_csv_trans ltac:(reflexivity).

Lemma recv_any_csv G :
  preserves G (same (@DMBSMPI.results_csv opt_state))
            (@DMBSMPI.recv_any opt_state cfg).
Proof.
  apply always_preserves. intros s.
  destruct (recv_any_always opt_state cfg s)
    as (r & s' & Hr & (_ & _ & _ & _ & Hc & _) & _).
  exists r, s'. now split.
Qed.

Lemma propagate_csv G x y infos :
  preserves G (same (@DMBSMPI.results_csv opt_state))
            (@DMBSMPI.propagate opt_state cfg x y infos).
Proof.
  unfold DMBSMPI.propagate, DMBSMPI.broadcast, DMBSMPI.allgather,
    DMBSMPI.send_all, DMBSMPI.reset_buffer.
  csv. apply preserves_foldM; [exact same_csv_refl | exact same_csv_trans |].
  intros i [[X' Y'] infos']. unfold DMBSMPI.broadcast_item. csv.
Qed.

Lemma cycle_csv G first :
  preserves G (same (@DMBSMPI.results_csv opt_state))
            (DMBSMPI.cycle opt_ask run_function cfg first).
Proof.
  unfold DMBSMPI.cycle, DMBSMPI.ask, DMBSMPI.call_run_function,
    DMBSMPI.unpack_profile, DMBSMPI.negate.
  csv.
Qed.

Lemma _search_loop_csv G (max_evals : Z) (budget : nat) :
  preserves G (same (@DMBSMPI.results_csv opt_state))
    (DMBSMPI._search_loop opt_ask opt_tell opt_Xi run_function cfg
                          budget max_evals).
Proof.
  induction budget as [|budget IH]; cbn [DMBSMPI._search_loop]; csv;
    unfold History.value, DMBSMPI.opt_Xi_len, DMBSMPI.tell; csv;
    first [ apply recv_any_csv | apply cycle_csv | apply propagate_csv
          | exact IH ].
Qed.

Lemma _search_csv G (budget : nat) (max_evals : Z) (timeout : pyobj) :
  preserves G (same (@DMBSMPI.results_csv opt_state))
    (DMBSMPI._search opt_new opt_ask opt_tell opt_Xi run_function cfg
                     budget max_evals timeout).
Proof.
  unfold DMBSMPI._search, DMBSMPI._setup_optimizer. csv;
    first [ apply cycle_csv | apply propagate_csv | apply _search_loop_csv ].
Qed.

(** X9.  [search] returns the table on rank 0 only.  When it returns on
    rank 0, the value is the table that [gather_results] makes of the final
    History, and the same table is the one written to [results.csv]; on
    every other rank it returns [None] and writes nothing. *)
Theorem search_table_on_rank_0_only (budget : nat) (max_evals : Z)
  (timeout : pyobj) (s s' : DMBSMPI.State opt_state)
  (v : option DataFrame) :
  DMBSMPI.search opt_new opt_ask opt_tell opt_Xi run_function lib cfg
                 budget max_evals timeout s = Some (Ok v, s') ->
  (DMBSMPI._rank cfg = 0%nat ->
   exists table : DataFrame,
     v = Some table
     /\ DMBSMPI.results_csv s' = Some table
     /\ DMBSMPI.gather_results_of lib cfg (DMBSMPI._history s') = Ok table)
  /\ (DMBSMPI._rank cfg <> 0%nat ->
      v = None /\ DMBSMPI.results_csv s' = DMBSMPI.results_csv s).
Proof.
  intros H. split.
  - intros Hrank.
    unfold DMBSMPI.search in H.
    apply bind_Ok_inv in H. destruct H as (_ & s1 & _ & H).
    apply bind_Ok_inv in H. destruct H as (_ & s2 & _ & H).
    apply bind_Ok_inv in H. destruct H as (_ & s3 & _ & H).
    rewrite Hrank in H. cbn [Nat.eqb] in H.
    apply bind_Ok_inv in H. destruct H as (_ & s4 & _ & H).
    apply bind_Ok_inv in H. destruct H as (results & s5 & Hg & H).
    apply bind_Ok_inv in H. destruct H as (u & s6 & Hm & H).
    unfold DMBSMPI.ret in H. injection H as Hr Hs.
    unfold DMBSMPI.modify in Hm. injection Hm as Hu Hs6.
    unfold DMBSMPI.gather_results, DMBSMPI.bind, DMBSMPI.get, DMBSMPI.lift in Hg.
    injection Hg as Hg Hs5. subst. exists results. now repeat split.
  - intros Hrank.
    assert (Hpre : preserves (fun _ => True)
                     (same (@DMBSMPI.results_csv opt_state))
                     (DMBSMPI.search opt_new opt_ask opt_tell opt_Xi
                        run_function lib cfg budget max_evals timeout)).
    { unfold DMBSMPI.search, DMBSMPI._set_timeout.
      apply Nat.eqb_neq in Hrank. rewrite Hrank.
      csv.
      all: apply preserves_catch;
        [ exact same_csv_trans | apply _search_csv
        | intros e k He; destruct e; try discriminate; injection He as <-;
          split; [exact I|]; unfold DMBSMPI.send_all_termination; csv ]. }
    split.
    + unfold DMBSMPI.search in H.
      apply bind_Ok_inv in H. destruct H as (_ & s1 & _ & H).
      apply bind_Ok_inv in H. destruct H as (_ & s2 & _ & H).
      apply bind_Ok_inv in H. destruct H as (_ & s3 & _ & H).
      apply Nat.eqb_neq in Hrank. rewrite Hrank in H.
      unfold DMBSMPI.ret in H. now injection H as <- _.
    + apply (Hpre s _ s' H). intros e _. exact I.
Qed.

End RankZero.

Lemma search_table_on_rank_0_only_witness :
  (exists table : DataFrame,
      DMBSMPI.results_csv
        (match example_search example_single_cfg 5 2 VNone example_fresh with
         | Some (_, s') => s'
         | None => example_fresh
         end) = Some table
      /\ dict_keys table = ["x0"; "objective"; "worker_rank"]%string)
  /\ example_search (DMBSMPI.mkConfig 1 3 false 10 0%Q ["x0"%string])
                    5 2 VNone example_fresh
     = Some (Ok None,
             match example_search
                     (DMBSMPI.mkConfig 1 3 false 10 0%Q ["x0"%string])
                     5 2 VNone example_fresh with
             | Some (_, s') => s'
             | None => example_fresh
             end).
Proof.
  split.
  - destruct (proj1 (search_table_on_rank_0_only _ [] example_ask example_tell
                       (fun Xi => Xi) example_run example_lib example_single_cfg 5 2 VNone
                       example_fresh _ _ ltac:(vm_compute; reflexivity))
                eq_refl) as (table & Hv & Hc & _).
    injection Hv as <-. eexists. split; [vm_compute; reflexivity | reflexivity].
  - vm_compute. reflexivity.
Defined.

(** ** The table of [gather_results] *)

Lemma tolist_T_rectangular (n : nat) (rows : list (list pyobj)) :
  rows <> [] -> rectangular n rows ->
  arr_tolist (arr_T (np_array_O rows)) = columns n rows.
Proof.
  intros Hne Hrect. destruct rows as [|r rows']; [contradiction|].
  unfold np_array_O.
  assert (Hr : List.length r = n) by (now inversion Hrect).
  rewrite Hr.
  replace (same_length n (r :: rows')) with true
    by (symmetry; now apply same_length_true).
  reflexivity.
Qed.










(** X11.  [gather_results] on a History without records raises
    [IndexError] as soon as the problem has a hyperparameter: the array of
    the points is empty, and the column of the first hyperparameter is looked
    up in it. *)
Theorem gather_results_empty_history (lib : library) (cfg : DMBSMPI.Config)
  (h : History.t) :
  History._list_x h = [] ->
  DMBSMPI.hyperparameter_names cfg <> [] ->
  DMBSMPI.gather_results_of lib cfg h = Raise IndexError.
Proof.
  intros Hx Hn. unfold DMBSMPI.gather_results_of, History.infos_all.
  cbn zeta. rewrite Hx.
  cbn [np_array np_array_O rbind DMBSMPI.pd_columns map].
  destruct (DMBSMPI.hyperparameter_names cfg) as [|n names];
    [contradiction|].
  reflexivity.
Qed.

Lemma gather_results_empty_history_witness :
  DMBSMPI.gather_results_of example_lib example_single_cfg History.init
  = Raise IndexError.
Proof.
  apply (gather_results_empty_history example_lib example_single_cfg
           History.init).
  - reflexivity.
  - discriminate.
Defined.

(** ** The bound [max_evals] *)

Section MaxEvals.

Variable opt_state : Type.
Variable opt_new : opt_state.
Variable opt_ask : opt_state -> point * opt_state.
Variable opt_tell : opt_state -> list point -> list objective -> opt_state.
Variable opt_Xi : opt_state -> list point.
Variable run_function : nat -> dict pyobj -> run_result.
Variable lib : library.
Variable cfg : DMBSMPI.Config.

Lemma bind_run (A B : Type) (m : DMBSMPI.M opt_state A)
  (k : A -> DMBSMPI.M opt_state B) (s s1 : DMBSMPI.State opt_state)
  (r1 : result A) :
  m s = Some (r1, s1) ->
  DMBSMPI.bind m k s
  = match r1 with
    | Ok a => k a s1
    | Raise e => Some (Raise e, s1)
    end.
Proof. intros H. unfold DMBSMPI.bind. rewrite H. now destruct r1. Qed.

Lemma Mono_step_refl (s : DMBSMPI.State opt_state) : Mono s s.
Proof. split; [reflexivity | lia]. Qed.

Lemma Mono_step_trans (s1 s2 s3 : DMBSMPI.State opt_state) :
  Mono s1 s2 -> Mono s2 s3 -> Mono s1 s3.
Proof. intros [A1 B1] [A2 B2]. split; [congruence | lia]. Qed.

Ltac mono :=
  alw_by Mono_step_refl Mono_step_trans
    ltac:(split; [reflexivity|];
          unfold History.length, len;
          cbn [DMBSMPI._history DMBSMPI.set_history DMBSMPI.set_opt
               DMBSMPI.set_alarm DMBSMPI.set_inbox DMBSMPI.set_gathered
               DMBSMPI.set_outbox DMBSMPI.set_evals DMBSMPI.set_results_csv
               History._list_x History.append History.append_keys_infos
               History.reset_buffer History.extend_float_y];
          rewrite ?length_app; lia).

Lemma recv_step_Mono :
  always Mono (if negb (DMBSMPI._sync_communication cfg)
               then @DMBSMPI.recv_any opt_state cfg
               else DMBSMPI.ret tt).
Proof.
  destruct (negb _); [|mono].
  intros s. destruct (recv_any_always opt_state cfg s) as (r & s' & Hr & _ & Hm).
  now exists r, s'.
Qed.

Lemma opt_Xi_len_Mono : always Mono (DMBSMPI.opt_Xi_len opt_Xi).
Proof. unfold DMBSMPI.opt_Xi_len. mono. Qed.

Lemma tell_Mono (X : list point) (y : list objective) :
  always Mono (DMBSMPI.tell opt_tell X y).
Proof. unfold DMBSMPI.tell. mono. Qed.

Lemma propagate_Mono (x : point) (y : objective) (infos : list pyobj) :
  always Mono (@DMBSMPI.propagate opt_state cfg x y infos).
Proof.
  unfold DMBSMPI.propagate, DMBSMPI.broadcast, DMBSMPI.allgather,
    DMBSMPI.send_all, DMBSMPI.reset_buffer.
  mono. apply always_foldM; [exact Mono_step_refl | exact Mono_step_trans |].
  intros i [[X' Y'] infos']. unfold DMBSMPI.broadcast_item. mono.
Qed.

(** A cycle evaluates at most once; when it returns, the History has one
    point more. *)
Lemma cycle_run (first : bool) (s : DMBSMPI.State opt_state) :
  exists (r : result (point * objective * list pyobj))
         (s' : DMBSMPI.State opt_state),
    DMBSMPI.cycle opt_ask run_function cfg first s = Some (r, s')
    /\ (List.length (DMBSMPI.evals s') <= List.length (DMBSMPI.evals s) + 1)%nat
    /\ History.length (DMBSMPI._history s)
       <= History.length (DMBSMPI._history s')
    /\ (forall v, r = Ok v ->
        History.length (DMBSMPI._history s')
        = History.length (DMBSMPI._history s) + 1).
Proof.
  unfold DMBSMPI.cycle, DMBSMPI.ask, DMBSMPI.call_run_function,
    DMBSMPI.unpack_profile, DMBSMPI.negate.
  unfold DMBSMPI.bind at 1. unfold DMBSMPI.bind at 1.
  unfold DMBSMPI.get at 1.
  destruct (DMBSMPI._opt s) as [o|] eqn:Eo.
  - destruct (opt_ask o) as [x o'] eqn:Ea.
    unfold DMBSMPI.bind at 1. cbn [DMBSMPI.modify DMBSMPI.ret].
    unfold DMBSMPI.bind at 1. unfold DMBSMPI.lift at 1.
    destruct (DMBSMPI.to_dict cfg x) as [args|e] eqn:Ed.
    + unfold DMBSMPI.bind at 1. unfold DMBSMPI.bind at 1.
      unfold DMBSMPI.get at 1.
      unfold DMBSMPI.bind at 1. cbn [DMBSMPI.modify DMBSMPI.ret].
      cbn [DMBSMPI.evals DMBSMPI.set_opt].
      destruct (run_function (List.length (DMBSMPI.evals s)) args)
        as [y | y t0 t1 |] eqn:Er;
        destruct first; cbn; unfold DMBSMPI.ret, DMBSMPI.raise;
        eexists; eexists; (split; [reflexivity|]);
        unfold History.length, len; cbn; rewrite ?length_app; cbn [List.length];
        (split; [lia|]); (split; [lia|]); intros v Hv;
        first [discriminate | lia].
    + eexists; eexists; split; [reflexivity|].
      cbn. split; [lia|]. split; [lia|]. discriminate.
  - eexists; eexists; split; [reflexivity|].
    cbn. split; [lia|]. split; [lia|]. discriminate.
Qed.

(** The loop of [_search], from a state [s]: it evaluates at most
    [max_evals - length] times, and a budget of as many iterations is
    enough for it to end. *)
Lemma _search_loop_bound (max_evals : Z) (budget : nat) :
  0 <= max_evals ->
  forall s : DMBSMPI.State opt_state,
    match DMBSMPI._search_loop opt_ask opt_tell opt_Xi run_function cfg
                               budget max_evals s with
    | Some (_, s') =>
        Z.of_nat (List.length (DMBSMPI.evals s'))
        <= Z.of_nat (List.length (DMBSMPI.evals s))
           + Z.max 0 (max_evals - History.length (DMBSMPI._history s))
    | None =>
        Z.of_nat budget < max_evals - History.length (DMBSMPI._history s)
    end.
Proof.
  intros Hm. induction budget as [|budget IH]; intros s;
    cbn [DMBSMPI._search_loop]; unfold DMBSMPI.bind at 1, DMBSMPI.get at 1;
    (destruct (max_evals <? 0) eqn:E0; [apply Z.ltb_lt in E0; lia|]);
    cbn [orb];
    destruct (History.length (DMBSMPI._history s) <? max_evals) eqn:E1;
    try (unfold DMBSMPI.ret; cbv beta iota; lia).
  - apply Z.ltb_lt in E1.
    destruct (DMBSMPI.alarm s);
      unfold DMBSMPI.raise, DMBSMPI.out_of_budget; cbv beta iota; lia.
  - apply Z.ltb_lt in E1.
    destruct (recv_step_Mono s) as (r1 & s1 & R1 & [Ev1 Ln1]).
    apply (f_equal (@List.length _)) in Ev1.
    rewrite (bind_run _ _ _ _ _ _ _ R1).
    destruct r1 as [[]|e1]; [|cbv beta iota; lia].
    unfold DMBSMPI.bind at 1, DMBSMPI.get at 1.
    unfold History.value. cbv beta iota.
    destruct (opt_Xi_len_Mono s1) as (r2 & s2 & R2 & [Ev2 Ln2]).
    apply (f_equal (@List.length _)) in Ev2.
    rewrite (bind_run _ _ _ _ _ _ _ R2).
    destruct r2 as [n_Xi|e2]; [|cbv beta iota; lia].
    match goal with
    | |- context [DMBSMPI.bind (DMBSMPI.tell _ ?X ?Y) _ ?s0] =>
        destruct (tell_Mono X Y s0) as (r3 & s3 & R3 & [Ev3 Ln3])
    end.
    apply (f_equal (@List.length _)) in Ev3.
    rewrite (bind_run _ _ _ _ _ _ _ R3).
    destruct r3 as [[]|e3]; [|cbv beta iota; lia].
    destruct (cycle_run false s3) as (r4 & s4 & R4 & Ev4 & Ln4 & Ok4).
    rewrite (bind_run _ _ _ _ _ _ _ R4).
    destruct r4 as [[[x y] infos]|e4]; [|cbv beta iota; lia].
    specialize (Ok4 _ eq_refl).
    destruct (propagate_Mono x y infos s4) as (r5 & s5 & R5 & [Ev5 Ln5]).
    apply (f_equal (@List.length _)) in Ev5.
    rewrite (bind_run _ _ _ _ _ _ _ R5).
    destruct r5 as [[]|e5]; [|cbv beta iota; lia].
    specialize (IH s5).
    destruct (DMBSMPI._search_loop _ _ _ _ _ _ _ s5) as [[r s']|]; lia.
Qed.

Lemma _search_bound (budget : nat) (max_evals : Z) (timeout : pyobj) :
  0 <= max_evals ->
  forall s : DMBSMPI.State opt_state,
    match DMBSMPI._search opt_new opt_ask opt_tell opt_Xi run_function cfg
                          budget max_evals timeout s with
    | Some (_, s') =>
        Z.of_nat (List.length (DMBSMPI.evals s'))
        <= Z.of_nat (List.length (DMBSMPI.evals s))
           + Z.max 1 (max_evals - History.length (DMBSMPI._history s))
    | None =>
        Z.of_nat budget < max_evals - History.length (DMBSMPI._history s) - 1
    end.
Proof.
  intros Hm s. unfold DMBSMPI._search.
  unfold DMBSMPI.bind at 1, DMBSMPI.get at 1.
  assert (Hsetup : always Mono
            (match DMBSMPI._opt s with
             | None => DMBSMPI._setup_optimizer opt_new
             | Some _ => DMBSMPI.ret tt
             end)).
  { unfold DMBSMPI._setup_optimizer. mono. }
  destruct (Hsetup s) as (r1 & s1 & R1 & [Ev1 Ln1]).
  apply (f_equal (@List.length _)) in Ev1.
  rewrite (bind_run _ _ _ _ _ _ _ R1).
  destruct r1 as [[]|e1]; [|cbv beta iota; lia].
  destruct (cycle_run true s1) as (r2 & s2 & R2 & Ev2 & Ln2 & Ok2).
  rewrite (bind_run _ _ _ _ _ _ _ R2).
  destruct r2 as [[[x y] infos]|e2]; [|cbv beta iota; lia].
  specialize (Ok2 _ eq_refl).
  destruct (propagate_Mono x y infos s2) as (r3 & s3 & R3 & [Ev3 Ln3]).
  apply (f_equal (@List.length _)) in Ev3.
  rewrite (bind_run _ _ _ _ _ _ _ R3).
  destruct r3 as [[]|e3]; [|cbv beta iota; lia].
  pose proof (_search_loop_bound max_evals budget Hm s3) as Hloop.
  destruct (DMBSMPI._search_loop _ _ _ _ _ _ _ s3) as [[r s']|]; lia.
Qed.

Lemma search_bound (budget : nat) (max_evals : Z) (timeout : pyobj) :
  0 <= max_evals ->
  forall s : DMBSMPI.State opt_state,
    match DMBSMPI.search opt_new opt_ask opt_tell opt_Xi run_function lib cfg
                         budget max_evals timeout s with
    | Some (_, s') =>
        Z.of_nat (List.length (DMBSMPI.evals s'))
        <= Z.of_nat (List.length (DMBSMPI.evals s))
           + Z.max 1 (max_evals - History.length (DMBSMPI._history s))
    | None =>
        Z.of_nat budget < max_evals - History.length (DMBSMPI._history s) - 1
    end.
Proof.
  intros Hm s. unfold DMBSMPI.search.
  match goal with
  | |- context [DMBSMPI.bind ?m _ s] =>
      assert (Hval : always Mono m) by mono;
      destruct (Hval s) as (r1 & s1 & R1 & [Ev1 Ln1]);
      rewrite (bind_run _ _ _ _ _ _ _ R1)
  end.
  apply (f_equal (@List.length _)) in Ev1.
  destruct r1 as [[]|e1]; [|cbv beta iota; lia].
  assert (Hset : always Mono (@DMBSMPI._set_timeout opt_state timeout))
    by (unfold DMBSMPI._set_timeout; mono).
  destruct (Hset s1) as (r2 & s2 & R2 & [Ev2 Ln2]).
  apply (f_equal (@List.length _)) in Ev2.
  rewrite (bind_run _ _ _ _ _ _ _ R2).
  destruct r2 as [[]|e2]; [|cbv beta iota; lia].
  match goal with
  | |- context [DMBSMPI.bind _ (fun _ => ?t) s2] => set (tail := t)
  end.
  assert (Htail : always Mono tail).
  { unfold tail, DMBSMPI.gather_results. mono.
    intros s0.
    destruct (recv_any_always opt_state cfg s0) as (r & s' & Hr & _ & HM).
    now exists r, s'. }
  pose proof (_search_bound budget max_evals timeout Hm s2) as Hs.
  unfold DMBSMPI.bind at 1, DMBSMPI.catch at 1.
  destruct (DMBSMPI._search _ _ _ _ _ _ _ _ _ s2) as [[[u|e] s3]|];
    [| | lia].
  - destruct (Htail s3) as (r4 & s4 & R4 & [Ev4 Ln4]).
    apply (f_equal (@List.length _)) in Ev4.
    rewrite R4. lia.
  - destruct e; try (cbv beta iota; lia).
    unfold DMBSMPI.send_all_termination, DMBSMPI.modify.
    match goal with
    | |- context [tail ?s0] =>
        destruct (Htail s0) as (r4 & s4 & R4 & [Ev4 Ln4])
    end.
    apply (f_equal (@List.length _)) in Ev4.
    rewrite R4. cbn [DMBSMPI.evals DMBSMPI.set_outbox] in Ev4. lia.
Qed.

(** X12.  The bound [max_evals] of [search], when it is not negative.
    Whatever the timeout, a search evaluates at most [max_evals] minus the
    number of points already in the History times, and at least once when
    that is less than one: the first evaluation comes before the bound is
    looked at.  The loop ends by itself: after at most
    [max_evals - length - 1] iterations [search] has returned or raised. *)
Theorem search_respects_max_evals (budget : nat) (max_evals : Z)
  (timeout : pyobj) (s : DMBSMPI.State opt_state) :
  0 <= max_evals ->
  (max_evals - History.length (DMBSMPI._history s) - 1 <= Z.of_nat budget ->
   exists (r : result (option DataFrame)) (s' : DMBSMPI.State opt_state),
     DMBSMPI.search opt_new opt_ask opt_tell opt_Xi run_function lib cfg
                    budget max_evals timeout s = Some (r, s'))
  /\ (forall (r : result (option DataFrame)) (s' : DMBSMPI.State opt_state),
        DMBSMPI.search opt_new opt_ask opt_tell opt_Xi run_function lib cfg
                       budget max_evals timeout s = Some (r, s') ->
        Z.of_nat (List.length (DMBSMPI.evals s'))
        <= Z.of_nat (List.length (DMBSMPI.evals s))
           + Z.max 1 (max_evals - History.length (DMBSMPI._history s))).
Proof.
  intros Hm. pose proof (search_bound budget max_evals timeout Hm s) as H.
  split.
  - intros Hb.
    destruct (DMBSMPI.search _ _ _ _ _ _ _ _ _ _ s) as [[r s']|]; [|lia].
    now exists r, s'.
  - intros r s' E. now rewrite E in H.
Qed.

End MaxEvals.

Lemma search_respects_max_evals_witness :
  (2 - History.length (DMBSMPI._history example_fresh) - 1 <= Z.of_nat 1 ->
   exists (r : result (option DataFrame)) (s' : DMBSMPI.State (list point)),
     example_search example_single_cfg 1 2 VNone example_fresh = Some (r, s'))
  /\ (forall (r : result (option DataFrame))
             (s' : DMBSMPI.State (list point)),
        example_search example_single_cfg 1 2 VNone example_fresh
        = Some (r, s') ->
        Z.of_nat (List.length (DMBSMPI.evals s'))
        <= Z.of_nat (List.length (DMBSMPI.evals example_fresh))
           + Z.max 1 (2 - History.length (DMBSMPI._history example_fresh))).
Proof.
  apply (search_respects_max_evals (list point) [] example_ask example_tell
           (fun Xi => Xi) example_run example_lib example_single_cfg 1 2 VNone
           example_fresh).
  lia.
Defined.

(** ** The synchronous mode *)

Section Synchronous.

Variable opt_state : Type.
Variable opt_new : opt_state.
Variable opt_ask : opt_state -> point * opt_state.
Variable opt_tell : opt_state -> list point -> list objective -> opt_state.
Variable opt_Xi : opt_state -> list point.
Variable run_function : nat -> dict pyobj -> run_result.
Variable lib : library.
Variable cfg : DMBSMPI.Config.

(** The first cycle, with a surrogate model set up: what it leaves when it
    returns, and what it raises. *)
Lemma cycle_first_run (s : DMBSMPI.State opt_state) (o : opt_state) :
  DMBSMPI._opt s = Some o ->
  exists (r : result (point * objective * list pyobj))
         (s' : DMBSMPI.State opt_state),
    DMBSMPI.cycle opt_ask run_function cfg true s = Some (r, s')
    /\ (List.length (DMBSMPI.evals s') <= List.length (DMBSMPI.evals s) + 1)%nat
    /\ DMBSMPI.outbox s' = DMBSMPI.outbox s
    /\ DMBSMPI.results_csv s' = DMBSMPI.results_csv s
    /\ match r with
       | Ok _ =>
           History._keys_infos (DMBSMPI._history s') <> []
           /\ Exists (fun row => row <> [])
                     (History._list_infos (DMBSMPI._history s'))
           /\ History.n_buffered (DMBSMPI._history s')
              = History.n_buffered (DMBSMPI._history s) + 1
       | Raise e => e = TypeError \/ e = IndexError
       end.
Proof.
  intros Eo.
  unfold DMBSMPI.cycle, DMBSMPI.ask, DMBSMPI.call_run_function,
    DMBSMPI.unpack_profile, DMBSMPI.negate.
  unfold DMBSMPI.bind at 1. unfold DMBSMPI.bind at 1.
  unfold DMBSMPI.get at 1. rewrite Eo.
  destruct (opt_ask o) as [x o'] eqn:Ea.
  unfold DMBSMPI.bind at 1. cbn [DMBSMPI.modify DMBSMPI.ret].
  unfold DMBSMPI.bind at 1. unfold DMBSMPI.lift at 1.
  destruct (DMBSMPI.to_dict cfg x) as [args|e] eqn:Ed.
  - unfold DMBSMPI.bind at 1. unfold DMBSMPI.bind at 1.
    unfold DMBSMPI.get at 1.
    unfold DMBSMPI.bind at 1. cbn [DMBSMPI.modify DMBSMPI.ret].
    cbn [DMBSMPI.evals DMBSMPI.set_opt].
    destruct (run_function (List.length (DMBSMPI.evals s)) args)
      as [y | y t0 t1 |] eqn:Er;
      cbn; unfold DMBSMPI.ret, DMBSMPI.raise;
      eexists; eexists; (split; [reflexivity|]);
      cbn; rewrite ?length_app; cbn [List.length];
      (split; [lia|]); (split; [reflexivity|]); (split; [reflexivity|]);
      try (now left);
      (split; [intros E; now apply app_eq_nil in E as [_ ?]|]);
      (split; [|reflexivity]);
      apply Exists_app; right; apply Exists_cons_hd; discriminate.
  - apply to_dict_raises in Ed. subst e.
    eexists; eexists; split; [reflexivity|].
    cbn. split; [lia|]. split; [reflexivity|]. split; [reflexivity|].
    now right.
Qed.

Lemma propagate_flush_raises (x : point) (y : objective) (infos : list pyobj)
  (s : DMBSMPI.State opt_state) :
  DMBSMPI._sync_communication cfg = true ->
  DMBSMPI._sync_communication_freq cfg <> 0 ->
  History.n_buffered (DMBSMPI._history s)
    mod DMBSMPI._sync_communication_freq cfg = 0 ->
  History._keys_infos (DMBSMPI._history s) <> [] ->
  Exists (fun row => row <> []) (History._list_infos (DMBSMPI._history s)) ->
  DMBSMPI.propagate cfg x y infos s = Some (Raise TypeError, s).
Proof.
  intros Hsync Hfreq Hmod Hk Hex. unfold DMBSMPI.propagate.
  rewrite Hsync. unfold DMBSMPI.bind at 1, DMBSMPI.get at 1.
  apply Z.eqb_neq in Hfreq. rewrite Hfreq.
  apply Z.eqb_eq in Hmod. rewrite Hmod.
  unfold DMBSMPI.bind, DMBSMPI.lift.
  now rewrite (infos_last_raises _ _ Hk Hex).
Qed.

Lemma _search_sync_raises (budget : nat) (max_evals : Z) (timeout : pyobj)
  (s : DMBSMPI.State opt_state) :
  DMBSMPI._sync_communication cfg = true ->
  DMBSMPI._sync_communication_freq cfg <> 0 ->
  (History.n_buffered (DMBSMPI._history s) + 1)
    mod DMBSMPI._sync_communication_freq cfg = 0 ->
  exists (e : exn) (s' : DMBSMPI.State opt_state),
    DMBSMPI._search opt_new opt_ask opt_tell opt_Xi run_function cfg
                    budget max_evals timeout s = Some (Raise e, s')
    /\ (e = TypeError \/ e = IndexError)
    /\ (List.length (DMBSMPI.evals s') <= List.length (DMBSMPI.evals s) + 1)%nat
    /\ DMBSMPI.outbox s' = DMBSMPI.outbox s
    /\ DMBSMPI.results_csv s' = DMBSMPI.results_csv s.
Proof.
  intros Hsync Hfreq Hmod. unfold DMBSMPI._search.
  unfold DMBSMPI.bind at 1, DMBSMPI.get at 1.
  assert (Hsetup : exists (s1 : DMBSMPI.State opt_state) (o : opt_state),
             (match DMBSMPI._opt s with
              | None => DMBSMPI._setup_optimizer opt_new
              | Some _ => DMBSMPI.ret tt
              end) s = Some (Ok tt, s1)
             /\ DMBSMPI._opt s1 = Some o
             /\ DMBSMPI.evals s1 = DMBSMPI.evals s
             /\ DMBSMPI.outbox s1 = DMBSMPI.outbox s
             /\ DMBSMPI.results_csv s1 = DMBSMPI.results_csv s
             /\ DMBSMPI._history s1 = DMBSMPI._history s).
  { destruct (DMBSMPI._opt s) as [o|] eqn:Eo.
    - exists s, o. now repeat split.
    - exists (DMBSMPI.set_opt (Some opt_new) s), opt_new. now repeat split. }
  destruct Hsetup as (s1 & o & R1 & Eo & Ev1 & Out1 & Csv1 & Hist1).
  rewrite (bind_run _ _ _ _ _ _ _ _ R1).
  destruct (cycle_first_run s1 o Eo) as (r2 & s2 & R2 & Ev2 & Out2 & Csv2 & Post).
  rewrite (bind_run _ _ _ _ _ _ _ _ R2).
  destruct r2 as [[[x y] infos]|e2].
  - destruct Post as (Hk & Hex & Hn).
    rewrite (bind_run _ _ _ _ _ _ _ _
               (propagate_flush_raises x y infos s2 Hsync Hfreq
                  ltac:(rewrite Hn, Hist1; exact Hmod) Hk Hex)).
    exists TypeError, s2. split; [reflexivity|]. split; [now left|].
    rewrite Out2, Csv2, Out1, Csv1. rewrite <- Ev1.
    split; [exact Ev2|]. now split.
  - exists e2, s2. split; [reflexivity|]. split; [exact Post|].
    rewrite Out2, Csv2, Out1, Csv1. rewrite <- Ev1.
    split; [exact Ev2|]. now split.
Qed.

(** X13.  The synchronous mode, at a flush.  When [sync_communication] is
    set and the evaluation of the first cycle makes the number of buffered
    records a multiple of the frequency (which is so for the frequency 1),
    [search], called without timeout and with no alarm armed, does not
    return: it raises, after one evaluation at most, has sent nothing and
    has written no table.  The exception is the [TypeError] of [infos(k)]
    (or of an objective that has no negation), or the [IndexError] of
    [to_dict]. *)
Theorem sync_search_raises_at_flush (budget : nat) (max_evals : Z)
  (s : DMBSMPI.State opt_state) :
  DMBSMPI._sync_communication cfg = true ->
  DMBSMPI._sync_communication_freq cfg <> 0 ->
  (History.n_buffered (DMBSMPI._history s) + 1)
    mod DMBSMPI._sync_communication_freq cfg = 0 ->
  DMBSMPI.alarm s = false ->
  exists (e : exn) (s' : DMBSMPI.State opt_state),
    DMBSMPI.search opt_new opt_ask opt_tell opt_Xi run_function lib cfg
                   budget max_evals VNone s = Some (Raise e, s')
    /\ (e = TypeError \/ e = IndexError)
    /\ (List.length (DMBSMPI.evals s') <= List.length (DMBSMPI.evals s) + 1)%nat
    /\ DMBSMPI.outbox s' = DMBSMPI.outbox s
    /\ DMBSMPI.results_csv s' = DMBSMPI.results_csv s.
Proof.
  intros Hsync Hfreq Hmod _.
  destruct (_search_sync_raises budget max_evals VNone s Hsync Hfreq Hmod)
    as (e & s' & R & Hex & Hev & Hout & Hcsv).
  exists e, s'. unfold DMBSMPI.search, DMBSMPI._set_timeout.
  cbn [DMBSMPI.is_not_None].
  unfold DMBSMPI.bind at 1. cbn [DMBSMPI.ret].
  unfold DMBSMPI.bind at 1. cbn [DMBSMPI.ret].
  unfold DMBSMPI.bind at 1, DMBSMPI.catch. rewrite R.
  split; [destruct Hex as [-> | ->]; reflexivity|].
  split; [exact Hex|]. now repeat split.
Qed.

End Synchronous.

Lemma sync_search_raises_at_flush_witness :
  exists (e : exn) (s' : DMBSMPI.State (list point)),
    example_search (DMBSMPI.mkConfig 0 2 true 1 0%Q ["x0"%string])
                   5 3 VNone example_fresh = Some (Raise e, s')
    /\ (e = TypeError \/ e = IndexError)
    /\ (List.length (DMBSMPI.evals s')
        <= List.length (DMBSMPI.evals example_fresh) + 1)%nat
    /\ DMBSMPI.outbox s' = DMBSMPI.outbox example_fresh
    /\ DMBSMPI.results_csv s' = DMBSMPI.results_csv example_fresh.
Proof.
  unfold example_search.
  apply (sync_search_raises_at_flush (list point) [] example_ask example_tell
           (fun Xi => Xi) example_run example_lib
           (DMBSMPI.mkConfig 0 2 true 1 0%Q ["x0"%string])
           5 3 example_fresh).
  - reflexivity.
  - discriminate.
  - reflexivity.
  - reflexivity.
Defined.

(** * Further properties of the scalarization *)

(** ** [normalize] *)

Section NormalizeBounds.

Local Open Scope Q_scope.

Lemma qmax_ge_l (a b : Q) : a <= Mo.qmax a b.
Proof.
  unfold Mo.qmax.
  destruct (Qlt_le_dec a b); [now apply Qlt_le_weak | apply Qle_refl].
Qed.

Lemma qmax_ge_r (a b : Q) : b <= Mo.qmax a b.
Proof.
  unfold Mo.qmax. destruct (Qlt_le_dec a b); [apply Qle_refl | assumption].
Qed.

Lemma qmin_le_l (a b : Q) : Mo.qmin a b <= a.
Proof.
  unfold Mo.qmin.
  destruct (Qlt_le_dec b a); [now apply Qlt_le_weak | apply Qle_refl].
Qed.

Lemma qmin_le_r (a b : Q) : Mo.qmin a b <= b.
Proof.
  unfold Mo.qmin. destruct (Qlt_le_dec b a); [apply Qle_refl | assumption].
Qed.

Lemma fold_qmax_ge_init (l : list Q) : forall a : Q, a <= fold_left Mo.qmax l a.
Proof.
  induction l as [|b l IH]; intros a; cbn [fold_left]; [apply Qle_refl|].
  eapply Qle_trans; [apply (qmax_ge_l a b) | apply IH].
Qed.

Lemma fold_qmax_ge (l : list Q) :
  forall a x : Q, In x (a :: l) -> x <= fold_left Mo.qmax l a.
Proof.
  induction l as [|b l IH]; intros a x Hin; cbn [fold_left].
  - destruct Hin as [<- | []]. apply Qle_refl.
  - destruct Hin as [<- | [<- | Hin]].
    + eapply Qle_trans; [apply (qmax_ge_l a b) | apply fold_qmax_ge_init].
    + eapply Qle_trans; [apply (qmax_ge_r a b) | apply fold_qmax_ge_init].
    + apply IH. now right.
Qed.

Lemma fold_qmin_le_init (l : list Q) : forall a : Q, fold_left Mo.qmin l a <= a.
Proof.
  induction l as [|b l IH]; intros a; cbn [fold_left]; [apply Qle_refl|].
  eapply Qle_trans; [apply IH | apply (qmin_le_l a b)].
Qed.

Lemma fold_qmin_le (l : list Q) :
  forall a x : Q, In x (a :: l) -> fold_left Mo.qmin l a <= x.
Proof.
  induction l as [|b l IH]; intros a x Hin; cbn [fold_left].
  - destruct Hin as [<- | []]. apply Qle_refl.
  - destruct Hin as [<- | [<- | Hin]].
    + eapply Qle_trans; [apply fold_qmin_le_init | apply (qmin_le_l a b)].
    + eapply Qle_trans; [apply fold_qmin_le_init | apply (qmin_le_r a b)].
    + apply IH. now right.
Qed.

Lemma all_scalars_vec (yi : list Mo.nd) (l : list Q) :
  In (Mo.Vec l) yi -> Mo.all_scalars yi = None.
Proof.
  induction yi as [|y yi IH]; intros Hin; [contradiction|].
  cbn [Mo.all_scalars fold_right]. destruct Hin as [-> | Hin]; [reflexivity|].
  fold (Mo.all_scalars yi). rewrite (IH Hin). now destruct y.
Qed.

Lemma all_vectors_In (yi : list Mo.nd) (l : list Q) :
  forall rows : list (list Q),
    Mo.all_vectors yi = Some rows -> In (Mo.Vec l) yi -> In l rows.
Proof.
  induction yi as [|y yi IH]; intros rows H Hin; [contradiction|].
  cbn [Mo.all_vectors fold_right] in H. fold (Mo.all_vectors yi) in H.
  destruct y as [q|v]; [discriminate|].
  destruct (Mo.all_vectors yi) as [rows'|]; [|discriminate].
  injection H as <-. destruct Hin as [E | Hin].
  - injection E as ->. now left.
  - right. now apply IH.
Qed.

Lemma rmap_nth_error (A B : Type) (f : A -> result B) (xs : list A) :
  forall l : list B,
    rmap f xs = Ok l ->
    List.length l = List.length xs
    /\ forall (j : nat) (x : A),
         nth_error xs j = Some x ->
         exists v : B, nth_error l j = Some v /\ f x = Ok v.
Proof.
  induction xs as [|a xs IH]; intros l H; cbn [rmap] in H.
  - injection H as <-. split; [reflexivity|]. intros [|j] x E; discriminate.
  - destruct (f a) as [b|e] eqn:Ea; [|discriminate]. cbn [rbind] in H.
    destruct (rmap f xs) as [bs|e] eqn:Er; [|discriminate]. cbn [rbind] in H.
    injection H as <-. destruct (IH bs eq_refl) as [Hlen Hnth].
    split; [cbn [List.length]; now rewrite Hlen|].
    intros [|j] x E; cbn [nth_error] in E |- *.
    + injection E as <-. now exists b.
    + now apply Hnth.
Qed.

Lemma qcolumn_In (j : nat) (rows : list (list Q)) (l : list Q) (v : Q) :
  In l rows -> nth_error l j = Some v -> In v (Mo.qcolumn j rows).
Proof.
  intros Hin E. unfold Mo.qcolumn. apply in_flat_map.
  exists l. split; [exact Hin|]. rewrite E. now left.
Qed.

Lemma nth_error_zip (op : Q -> Q -> Q) (l : list Q) :
  forall (m : list Q) (j : nat) (a b : Q),
    nth_error l j = Some a -> nth_error m j = Some b ->
    nth_error (map (fun ab => op (fst ab) (snd ab)) (combine l m)) j
    = Some (op a b).
Proof.
  induction l as [|a0 l IH]; intros m j a b Ha Hb.
  - now destruct j.
  - destruct m as [|b0 m]; [now destruct j|].
    destruct j as [|j]; cbn [nth_error combine map fst snd] in *.
    + injection Ha as <-. now injection Hb as <-.
    + now apply IH.
Qed.

(** [np.max(yi, axis=0)] and [np.min(yi, axis=0)] on a list with a vector. *)
Lemma reduce_axis0_vectors (op : Q -> Q -> Q) (yi : list Mo.nd)
  (l0 : list Q) (r : Mo.nd) :
  In (Mo.Vec l0) yi -> Mo.reduce_axis0 op yi = Ok r ->
  exists (rows : list (list Q)) (ms : list Q),
    Mo.all_vectors yi = Some rows
    /\ Forall (fun r' => List.length r' = List.length l0) rows
    /\ r = Mo.Vec ms
    /\ List.length ms = List.length l0
    /\ forall j : nat,
         (j < List.length l0)%nat ->
         exists (a : Q) (col : list Q),
           Mo.qcolumn j rows = a :: col
           /\ nth_error ms j = Some (fold_left op col a).
Proof.
  intros Hin H. unfold Mo.reduce_axis0 in H.
  rewrite (all_scalars_vec _ _ Hin) in H.
  destruct (Mo.all_vectors yi) as [[|r0 rows]|] eqn:Ev; try discriminate.
  destruct (forallb _ rows) eqn:Ef; [|discriminate].
  destruct (rmap _ _) as [ms|e] eqn:Er; [|discriminate].
  cbn [rbind] in H. injection H as <-.
  pose proof (all_vectors_In _ _ _ Ev Hin) as Hl0.
  assert (Hall : Forall (fun r' => List.length r' = List.length r0)
                        (r0 :: rows)).
  { constructor; [reflexivity|]. apply Forall_forall. intros r' Hr'.
    rewrite forallb_forall in Ef. now apply Nat.eqb_eq, Ef. }
  assert (Hlen : List.length l0 = List.length r0).
  { rewrite Forall_forall in Hall. now apply Hall. }
  apply rmap_nth_error in Er. destruct Er as [Hms Hnth].
  rewrite length_seq in Hms.
  exists (r0 :: rows), ms. split; [reflexivity|].
  split; [now rewrite Hlen|]. split; [reflexivity|].
  split; [now rewrite Hlen|].
  intros j Hj. rewrite Hlen in Hj.
  destruct (Hnth j j) as (v & Hv & Hred).
  { rewrite nth_error_seq. destruct (Nat.ltb_spec j (List.length r0));
      [reflexivity | lia]. }
  unfold Mo.reduce in Hred.
  destruct (Mo.qcolumn j (r0 :: rows)) as [|a col]; [discriminate|].
  injection Hred as <-. now exists a, col.
Qed.

Variable is_listlike : list Mo.nd -> bool.

Lemma base_set_base (f : Mo.scalarizer) (b : Mo.MoScalarFunction) :
  Mo.base (Mo.set_base f b) = b.
Proof. now destruct f. Qed.

(** X14.  What [normalize] sets, on a list of vectors.  When it returns,
    the utopia point and the scaling are vectors, and for every vector [y]
    of the list and every objective [j]: the utopia point is at most
    [y[j]], the scaling is positive, and [scaling[j] * (y[j] - utopia[j])]
    is at most 1 (and at least 0). *)
Theorem normalize_unit_range (f f' : Mo.scalarizer) (yi : list Mo.nd)
  (l0 : list Q) :
  In (Mo.Vec l0) yi ->
  Mo.normalize is_listlike f yi = Ok f' ->
  exists u sc : list Q,
    Mo._utopia_point (Mo.base f') = Some (Mo.Vec u)
    /\ Mo._scaling (Mo.base f') = Mo.Vec sc
    /\ forall (l : list Q) (j : nat) (v : Q),
         In (Mo.Vec l) yi -> nth_error l j = Some v ->
         exists uj sj : Q,
           nth_error u j = Some uj /\ nth_error sc j = Some sj
           /\ uj <= v /\ 0 < sj
           /\ 0 <= sj * (v - uj) /\ sj * (v - uj) <= 1.
Proof.
  intros Hin H. unfold Mo.normalize in H.
  destruct (negb (is_listlike yi)); [discriminate|].
  destruct (Mo.check_shapes (Mo.base f) yi) as [[]|e]; [|discriminate].
  cbn [rbind] in H.
  destruct (Mo.reduce_axis0 Mo.qmax yi) as [y_max|e] eqn:Emax; [|discriminate].
  destruct (Mo.reduce_axis0 Mo.qmin yi) as [y_min|e] eqn:Emin; [|discriminate].
  cbn [rbind] in H.
  destruct (reduce_axis0_vectors _ _ _ _ Hin Emax)
    as (rows & maxs & Ev & Hrows & -> & Lmax & Nmax).
  destruct (reduce_axis0_vectors _ _ _ _ Hin Emin)
    as (rows' & mins & Ev' & _ & -> & Lmin & Nmin).
  rewrite Ev in Ev'. injection Ev' as <-.
  unfold Mo.sub, Mo.maximum, Mo.div in H. cbn [Mo.broadcast2] in H.
  replace (Nat.eqb (List.length maxs) (List.length mins)) with true in H
    by (symmetry; apply Nat.eqb_eq; now rewrite Lmax, Lmin).
  cbn [rbind Mo.broadcast2] in H.
  injection H as <-. rewrite base_set_base.
  cbn [Mo._utopia_point Mo._scaling].
  eexists. eexists. split; [reflexivity|]. split; [reflexivity|].
  intros l j v Hl Hv.
  pose proof (all_vectors_In _ _ _ Ev Hl) as Hlr.
  assert (Hj : (j < List.length l0)%nat).
  { rewrite Forall_forall in Hrows. rewrite <- (Hrows l Hlr).
    apply nth_error_Some. now rewrite Hv. }
  destruct (Nmax j Hj) as (a & col & Ecol & Hmax).
  destruct (Nmin j Hj) as (a' & col' & Ecol' & Hmin).
  rewrite Ecol in Ecol'. injection Ecol' as <- <-.
  pose proof (qcolumn_In j rows l v Hlr Hv) as Hvin. rewrite Ecol in Hvin.
  pose proof (fold_qmax_ge col a v Hvin) as Hle_max.
  pose proof (fold_qmin_le col a v Hvin) as Hle_min.
  set (M := fold_left Mo.qmax col a) in *.
  set (m := fold_left Mo.qmin col a) in *.
  set (d := Mo.qmax (M - m) (1 # 1000000)).
  exists m, (1 / d). split; [exact Hmin|].
  split.
  { do 2 rewrite nth_error_map.
    rewrite (nth_error_zip Qminus maxs mins j M m Hmax Hmin). reflexivity. }
  assert (Hd : 0 < d).
  { eapply Qlt_le_trans; [|apply (qmax_ge_r (M - m) (1 # 1000000))].
    reflexivity. }
  assert (Hvd : v - m <= d).
  { eapply Qle_trans; [|apply (qmax_ge_l (M - m) (1 # 1000000))].
    unfold Qminus. apply Qplus_le_compat; [exact Hle_max | apply Qle_refl]. }
  assert (Hv0 : 0 <= v - m).
  { unfold Qminus. rewrite <- (Qplus_opp_r m).
    apply Qplus_le_compat; [exact Hle_min | apply Qle_refl]. }
  assert (Hs : 0 < 1 / d).
  { unfold Qdiv. rewrite Qmult_1_l. now apply Qinv_lt_0_compat. }
  split; [exact Hle_min|]. split; [exact Hs|]. split.
  - apply Qmult_le_0_compat; [now apply Qlt_le_weak | exact Hv0].
  - setoid_replace (1 / d * (v - m)) with ((v - m) / d)
      by (unfold Qdiv; rewrite Qmult_1_l; apply Qmult_comm).
    apply Qle_shift_div_r; [exact Hd|]. now rewrite Qmult_1_l.
Qed.

End NormalizeBounds.

Lemma normalize_unit_range_witness :
  exists f' : Mo.scalarizer,
    Mo.normalize (fun _ => true)
      (Mo.MoLinearFunction (Mo.mkBase 2 None (Mo.Vec [1; 1]%Q))
                           (Mo.Vec [1 # 2; 1 # 2]%Q))
      [Mo.Vec [1; 5]%Q; Mo.Vec [3; 0]%Q] = Ok f'
    /\ exists u sc : list Q,
         Mo._utopia_point (Mo.base f') = Some (Mo.Vec u)
         /\ Mo._scaling (Mo.base f') = Mo.Vec sc
         /\ forall (l : list Q) (j : nat) (v : Q),
              In (Mo.Vec l) [Mo.Vec [1; 5]%Q; Mo.Vec [3; 0]%Q] ->
              nth_error l j = Some v ->
              exists uj sj : Q,
                nth_error u j = Some uj /\ nth_error sc j = Some sj
                /\ (uj <= v)%Q /\ (0 < sj)%Q
                /\ (0 <= sj * (v - uj))%Q /\ (sj * (v - uj) <= 1)%Q.
Proof.
  eexists. split; [vm_compute; reflexivity|].
  apply (normalize_unit_range (fun _ => true)
           (Mo.MoLinearFunction (Mo.mkBase 2 None (Mo.Vec [1; 1]%Q))
                                (Mo.Vec [1 # 2; 1 # 2]%Q))
           _ [Mo.Vec [1; 5]%Q; Mo.Vec [3; 0]%Q] [1; 5]%Q).
  - now left.
  - vm_compute. reflexivity.
Defined.

(** ** [scalarize] on vectors *)

Lemma check_shape_vector_ok (self : Mo.MoScalarFunction) (l : list Q) :
  len l = Mo._n_objectives self -> Mo._check_shape self (Mo.Vec l) = Ok tt.
Proof.
  intros H. unfold Mo._check_shape. cbn [Mo.ndim Mo.shape0].
  rewrite H, !Z.eqb_refl. reflexivity.
Qed.

Lemma linear_scalarize_vector (self : Mo.MoScalarFunction) (w l : list Q) :
  len l = Mo._n_objectives self ->
  List.length w = List.length l ->
  Mo.scalarize (Mo.MoLinearFunction self (Mo.Vec w)) (Mo.Vec l)
  = Ok (Mo.Scal (qdot w l)).
Proof.
  intros Hn Hw. unfold Mo.scalarize. cbn [Mo.base].
  rewrite (check_shape_vector_ok _ _ Hn).
  cbn [rbind Mo.ndim Z.eqb Mo._scalarize Mo.dot].
  now rewrite Hw, Nat.eqb_refl.
Qed.

(** X15.  The linear scalarization of a vector of [n_objectives] values is
    the sum of the values weighted by [_weight], and [normalize] does not
    change it: the class uses neither the utopia point nor the scaling. *)
Theorem linear_scalarize_ignores_normalize (self : Mo.MoScalarFunction)
  (w l : list Q) :
  len l = Mo._n_objectives self ->
  List.length w = List.length l ->
  Mo.scalarize (Mo.MoLinearFunction self (Mo.Vec w)) (Mo.Vec l)
  = Ok (Mo.Scal (qdot w l))
  /\ forall (is_listlike : list Mo.nd -> bool) (yi : list Mo.nd)
            (f' : Mo.scalarizer),
       Mo.normalize is_listlike (Mo.MoLinearFunction self (Mo.Vec w)) yi
       = Ok f' ->
       Mo.scalarize f' (Mo.Vec l) = Ok (Mo.Scal (qdot w l)).
Proof.
  intros Hn Hw. split; [now apply linear_scalarize_vector|].
  intros is_listlike yi f' H. unfold Mo.normalize in H.
  destruct (negb (is_listlike yi)); [discriminate|].
  destruct (Mo.check_shapes _ yi) as [[]|e]; [|discriminate].
  cbn [rbind] in H.
  destruct (Mo.reduce_axis0 Mo.qmax yi) as [y_max|e]; [|discriminate].
  destruct (Mo.reduce_axis0 Mo.qmin yi) as [y_min|e]; [|discriminate].
  cbn [rbind] in H.
  destruct (Mo.sub y_max y_min) as [range|e]; [|discriminate].
  cbn [rbind] in H.
  destruct (Mo.maximum range _) as [m|e]; [|discriminate].
  cbn [rbind] in H.
  destruct (Mo.div _ m) as [scaling|e]; [|discriminate].
  cbn [rbind Mo.set_base Mo.base] in H. injection H as <-.
  now apply linear_scalarize_vector.
Qed.

Lemma linear_scalarize_ignores_normalize_witness :
  Mo.scalarize
    (Mo.MoLinearFunction (Mo.mkBase 2 None (Mo.Vec [1; 1]%Q))
                         (Mo.Vec [1 # 4; 3 # 4]%Q))
    (Mo.Vec [4; 8]%Q)
  = Ok (Mo.Scal (qdot [1 # 4; 3 # 4]%Q [4; 8]%Q))
  /\ forall (is_listlike : list Mo.nd -> bool) (yi : list Mo.nd)
            (f' : Mo.scalarizer),
       Mo.normalize is_listlike
         (Mo.MoLinearFunction (Mo.mkBase 2 None (Mo.Vec [1; 1]%Q))
                              (Mo.Vec [1 # 4; 3 # 4]%Q)) yi
       = Ok f' ->
       Mo.scalarize f' (Mo.Vec [4; 8]%Q)
       = Ok (Mo.Scal (qdot [1 # 4; 3 # 4]%Q [4; 8]%Q)).
Proof.
  apply (linear_scalarize_ignores_normalize
           (Mo.mkBase 2 None (Mo.Vec [1; 1]%Q)) [1 # 4; 3 # 4]%Q [4; 8]%Q).
  - reflexivity.
  - reflexivity.
Defined.



(** X17.  The Chebyshev scalarization, as the code has it.  With a utopia
    point and a scaling of [n_objectives] values, the rescaled objectives
    are summed into the single number [t = dot(scaling, y - utopia)], and
    the value is the largest of the [weight[j] * |t|]. *)
Theorem chebyshev_scalarize_value (self : Mo.MoScalarFunction)
  (w0 : Q) (ws y u sc : list Q) :
  Mo._utopia_point self = Some (Mo.Vec u) ->
  Mo._scaling self = Mo.Vec sc ->
  len y = Mo._n_objectives self ->
  List.length u = List.length y ->
  List.length sc = List.length y ->
  let t := qdot sc (zip_with Qminus y u) in
  Mo.scalarize (Mo.MoChebyshevFunction self (Mo.Vec (w0 :: ws))) (Mo.Vec y)
  = Ok (Mo.Scal (fold_left Mo.qmax (map (fun w => w * Qabs t)%Q ws)
                           (w0 * Qabs t)%Q)).
Proof.
  intros Hu Hsc Hn Hlu Hls t. unfold Mo.scalarize. cbn [Mo.base].
  rewrite (check_shape_vector_ok _ _ Hn).
  cbn [rbind Mo.ndim Z.eqb Mo._scalarize]. unfold Mo.minus_utopia.
  rewrite Hu, Hsc. unfold Mo.sub. cbn [Mo.broadcast2].
  rewrite Hlu, Nat.eqb_refl. cbn [rbind Mo.dot].
  rewrite length_map, length_combine, Hlu, Nat.min_id, Hls, Nat.eqb_refl.
  cbn [rbind Mo.abs]. unfold Mo.mul. cbn [rbind Mo.broadcast2 map Mo.max].
  reflexivity.
Qed.

Lemma chebyshev_scalarize_value_witness :
  Mo.scalarize
    (Mo.MoChebyshevFunction
       (Mo.mkBase 2 (Some (Mo.Vec [1; 1]%Q)) (Mo.Vec [1; 1]%Q))
       (Mo.Vec [1 # 2; 1 # 4]%Q))
    (Mo.Vec [4; 0]%Q)
  = Ok (Mo.Scal
          (fold_left Mo.qmax
             (map (fun w => w * Qabs (qdot [1; 1] (zip_with Qminus [4; 0] [1; 1])))%Q
                  [1 # 4]%Q)
             ((1 # 2) * Qabs (qdot [1; 1] (zip_with Qminus [4; 0] [1; 1])))%Q)).
Proof.
  apply (chebyshev_scalarize_value
           (Mo.mkBase 2 (Some (Mo.Vec [1; 1]%Q)) (Mo.Vec [1; 1]%Q))
           (1 # 2)%Q [1 # 4]%Q [4; 0]%Q [1; 1]%Q [1; 1]%Q);
    reflexivity.
Defined.
